(** * TaskFlow frontend: the client-side synchronisation layer

    A shallow embedding of the zustand stores ([messageStore.ts],
    [taskStore.ts], [authStore.ts]), of the axios client ([lib/api.ts]) and of
    the socket manager ([lib/socket.ts]).

    The stores are written as programs over a small command type [Prog]: the
    synchronous part of an [async] function runs until its first [await], the
    rest is a continuation that the event loop resumes when the transport
    settles the request.  Timers ([setTimeout]) are kept in a queue ordered by
    due time. *)

From stdpp Require Import gmap strings list.
From Stdlib Require Import ZArith Lia.
From Stdlib Require Import Sorting.Sorted.

Set Warnings "-register-all".

Local Open Scope Z_scope.

(** ** JavaScript values *)

Module Js.

(** [if (s)] on a [string | null | undefined]: the empty string is falsy. *)
Definition truthy (s : option string) : bool :=
  match s with
  | Some x => negb (String.eqb x "")
  | None => false
  end.

(** [s === o] for a string [s] and an [o : string | null]. *)
Definition strict_eq (s : string) (o : option string) : bool :=
  match o with
  | Some x => String.eqb s x
  | None => false
  end.

(** [a || b] on strings: the first truthy operand, otherwise [b]. *)
Definition or_else (a : option string) (b : string) : string :=
  match a with
  | Some x => if String.eqb x "" then b else x
  | None => b
  end.

(** ['lit' + x] where [x] may be [undefined]. *)
Definition concat_undef (lit : string) (x : option string) : string :=
  match x with
  | Some s => lit +:+ s
  | None => lit +:+ "undefined"
  end.

End Js.

(** ** Data model *)

(** Field names are the ones of the TypeScript interfaces; each interface
    has its own module.  JavaScript numbers (counters, sizes, hours) are
    integers here: the stores only pass them along. *)

(** The embedded user reference carried by messages, tasks and comments
    ([sender], [recipient], [TaskAssignee]). *)
Module Person.
Record t : Type := mk {
  _id : string;
  firstName : string;
  lastName : string;
  email : string;
  avatar : option string;
}.
End Person.

Module Mention.
Record t : Type := mk { _id : string; firstName : string; lastName : string }.
End Mention.

Module ReadReceipt.
Record t : Type := mk { user : string; readAt : string }.
End ReadReceipt.

Module Reaction.
Record t : Type := mk { emoji : string; users : list string }.
End Reaction.

(** [interface Message] of messageStore.ts. *)
Module Message.
Inductive t : Type := mk {
  _id : string;
  content : string;
  sender : Person.t;
  recipient : option Person.t;
  channel : option string;
  taskRef : option string;
  mentions : list Mention.t;
  readBy : list ReadReceipt.t;
  isEdited : bool;
  replyTo : option t;
  reactions : list Reaction.t;
  createdAt : string;
  updatedAt : string;
}.
End Message.

Module ConversationUser.
Record t : Type := mk {
  _id : string;
  firstName : string;
  lastName : string;
  email : string;
  avatar : option string;
  lastSeen : string;
}.
End ConversationUser.

(** [interface Conversation]. *)
Module Conversation.
Record t : Type := mk {
  user : ConversationUser.t;
  lastMessage : Message.t;
  unreadCount : Z;
}.
End Conversation.

(** The payload of [GET /messages/unread], stored wholesale in the store. *)
Module UnreadCount.
Record t : Type := mk {
  total : Z;
  byChannel : gmap string Z;
  byConversation : gmap string Z;
}.
Definition zero : t := mk 0 ∅ ∅.
End UnreadCount.

(** [interface MessageState], data fields. *)
Module MessageState.
Record t : Type := mk {
  messages : list Message.t;
  conversations : list Conversation.t;
  activeChannel : option string;
  activeRecipient : option string;
  isLoading : bool;
  hasMore : bool;
  unreadCount : UnreadCount.t;
  typingUsers : gmap string bool;
}.

Definition init : t := mk [] [] None None false false UnreadCount.zero ∅.

Definition set_messages (v : list Message.t) (s : t) : t :=
  mk v (conversations s) (activeChannel s) (activeRecipient s)
     (isLoading s) (hasMore s) (unreadCount s) (typingUsers s).
Definition set_conversations (v : list Conversation.t) (s : t) : t :=
  mk (messages s) v (activeChannel s) (activeRecipient s)
     (isLoading s) (hasMore s) (unreadCount s) (typingUsers s).
Definition set_activeChannel (v : option string) (s : t) : t :=
  mk (messages s) (conversations s) v (activeRecipient s)
     (isLoading s) (hasMore s) (unreadCount s) (typingUsers s).
Definition set_activeRecipient (v : option string) (s : t) : t :=
  mk (messages s) (conversations s) (activeChannel s) v
     (isLoading s) (hasMore s) (unreadCount s) (typingUsers s).
Definition set_isLoading (v : bool) (s : t) : t :=
  mk (messages s) (conversations s) (activeChannel s) (activeRecipient s)
     v (hasMore s) (unreadCount s) (typingUsers s).
Definition set_hasMore (v : bool) (s : t) : t :=
  mk (messages s) (conversations s) (activeChannel s) (activeRecipient s)
     (isLoading s) v (unreadCount s) (typingUsers s).
Definition set_unreadCount (v : UnreadCount.t) (s : t) : t :=
  mk (messages s) (conversations s) (activeChannel s) (activeRecipient s)
     (isLoading s) (hasMore s) v (typingUsers s).
Definition set_typingUsers (v : gmap string bool) (s : t) : t :=
  mk (messages s) (conversations s) (activeChannel s) (activeRecipient s)
     (isLoading s) (hasMore s) (unreadCount s) v.
End MessageState.

(** [TaskStatus] and [TaskPriority] of taskStore.ts. *)
Inductive TaskStatus : Type :=
  backlog | todo | in_progress | in_review | done | archived.

Inductive TaskPriority : Type := low | medium | high | urgent.

Module TaskComment.
Record t : Type := mk {
  _id : string;
  content : string;
  author : Person.t;
  mentions : list Person.t;
  createdAt : string;
  updatedAt : string;
  isEdited : bool;
}.
End TaskComment.

Module TaskAttachment.
Record t : Type := mk {
  _id : string;
  filename : string;
  originalName : string;
  mimeType : string;
  size : Z;
  path : string;
  uploadedBy : Person.t;
  uploadedAt : string;
}.
End TaskAttachment.

Module TaskActivity.
Record t : Type := mk {
  _id : string;
  type : string;
  actor : Person.t;
  description : string;
  metadata : option (gmap string string);
  timestamp : string;
}.
End TaskActivity.

Module ParentTask.
Record t : Type := mk { _id : string; title : string; status : TaskStatus }.
End ParentTask.

(** [interface Task]. *)
Module Task.
Inductive t : Type := mk {
  _id : string;
  title : string;
  description : option string;
  status : TaskStatus;
  priority : TaskPriority;
  assignees : list Person.t;
  createdBy : Person.t;
  dueDate : option string;
  startDate : option string;
  estimatedHours : option Z;
  actualHours : option Z;
  tags : list string;
  attachments : list TaskAttachment.t;
  comments : list TaskComment.t;
  activities : list TaskActivity.t;
  subtasks : list t;
  parentTask : option ParentTask.t;
  completedAt : option string;
  order : Z;
  createdAt : string;
  updatedAt : string;
}.

(** [{ ...task, status }]: the record with only its status replaced. *)
Definition with_status (v : TaskStatus) (x : t) : t :=
  mk (_id x) (title x) (description x) v (priority x) (assignees x)
     (createdBy x) (dueDate x) (startDate x) (estimatedHours x)
     (actualHours x) (tags x) (attachments x) (comments x) (activities x)
     (subtasks x) (parentTask x) (completedAt x) (order x) (createdAt x)
     (updatedAt x).
End Task.

(** [Partial<Task>], the body of [POST /tasks] and [PATCH /tasks/:id]: every
    field may be left out. *)
Module TaskPatch.
Record t : Type := mk {
  title : option string;
  description : option string;
  status : option TaskStatus;
  priority : option TaskPriority;
  assignees : option (list Person.t);
  dueDate : option string;
  startDate : option string;
  estimatedHours : option Z;
  actualHours : option Z;
  tags : option (list string);
  order : option Z;
}.
Definition empty : t :=
  mk None None None None None None None None None None None.
(** [{ status }] *)
Definition only_status (s : TaskStatus) : t :=
  mk None None (Some s) None None None None None None None None.
End TaskPatch.

Module TaskFilters.
Record t : Type := mk {
  status : option (TaskStatus + list TaskStatus);
  priority : option (TaskPriority + list TaskPriority);
  assignee : option string;
  tags : option (list string);
  search : option string;
  overdue : option bool;
}.
Definition empty : t := mk None None None None None None.
End TaskFilters.

Module Pagination.
Record t : Type := mk { page : Z; limit : Z; total : Z; pages : Z }.
End Pagination.

(** [interface TaskState], data fields. *)
Module TaskState.
Record t : Type := mk {
  tasks : list Task.t;
  currentTask : option Task.t;
  isLoading : bool;
  error : option string;
  filters : TaskFilters.t;
  pagination : Pagination.t;
}.

Definition init : t :=
  mk [] None false None TaskFilters.empty (Pagination.mk 1 50 0 0).

Definition set_tasks (v : list Task.t) (s : t) : t :=
  mk v (currentTask s) (isLoading s) (error s) (filters s) (pagination s).
Definition set_currentTask (v : option Task.t) (s : t) : t :=
  mk (tasks s) v (isLoading s) (error s) (filters s) (pagination s).
End TaskState.

(** [interface User] of authStore.ts. *)
Module User.
Inductive Role : Type := manager | user.
Record NotificationPreferences : Type := mkPrefs {
  pref_email : bool;
  push : bool;
  taskAssigned : bool;
  taskUpdated : bool;
  pref_mentions : bool;
  dailyDigest : bool;
}.
Record t : Type := mk {
  _id : string;
  email : string;
  firstName : string;
  lastName : string;
  role : Role;
  avatar : option string;
  department : option string;
  position : option string;
  timezone : string;
  isActive : bool;
  onboardingCompleted : bool;
  notificationPreferences : NotificationPreferences;
  fullName : string;
}.
End User.

(** [Partial<User>]: the argument of [updateUser]; a field left out is
    [None]. *)
Module UserPatch.
Record t : Type := mk {
  _id : option string;
  email : option string;
  firstName : option string;
  lastName : option string;
  role : option User.Role;
  avatar : option string;
  department : option string;
  position : option string;
  timezone : option string;
  isActive : option bool;
  onboardingCompleted : option bool;
  notificationPreferences : option User.NotificationPreferences;
  fullName : option string;
}.

Definition empty : t :=
  mk None None None None None None None None None None None None None.

(** [{ ...user, ...updates }] *)
Definition merge (u : User.t) (p : t) : User.t :=
  User.mk
    (default (User._id u) (_id p))
    (default (User.email u) (email p))
    (default (User.firstName u) (firstName p))
    (default (User.lastName u) (lastName p))
    (default (User.role u) (role p))
    (match avatar p with Some a => Some a | None => User.avatar u end)
    (match department p with Some a => Some a | None => User.department u end)
    (match position p with Some a => Some a | None => User.position u end)
    (default (User.timezone u) (timezone p))
    (default (User.isActive u) (isActive p))
    (default (User.onboardingCompleted u) (onboardingCompleted p))
    (default (User.notificationPreferences u) (notificationPreferences p))
    (default (User.fullName u) (fullName p)).
End UserPatch.

(** [interface AuthState], data fields. *)
Module AuthState.
Record t : Type := mk {
  user : option User.t;
  token : option string;
  isAuthenticated : bool;
  isLoading : bool;
  error : option string;
}.
Definition init : t := mk None None false true None.
End AuthState.

(** ** The axios client: requests, responses and errors *)

Inductive Method : Type := GET | POST | PATCH | DELETE.

(** Request bodies sent by the stores. *)
Inductive Body : Type :=
| NoBody
| TaskBody (data : TaskPatch.t)
| StatusBody (status : TaskStatus)
| CommentBody (content : string) (mentions : option (list string))
| MessageBody (content : string) (channel recipient : option string)
              (mentions : option (list string))
| ReadBody (messageIds : list string).

Module Request.
Record t : Type := mk { method : Method; url : string; body : Body }.
End Request.

(** A fulfilled response (axios fulfils a call only on a 2xx status); [R]
    is the shape of [response.data] that the backend contract gives for the
    endpoint. *)
Module Response.
Record t (R : Type) : Type := mk { status : Z; data : R }.
Arguments mk {R} _ _.
Arguments status {R} _.
Arguments data {R} _.
End Response.

(** [response.data] of a failed call: an HTML page (a string) or a JSON
    object with an optional [error] field. *)
Inductive ErrorData : Type :=
| DataString (s : string)
| DataObject (error : option string).

Module ErrorResponse.
Record t : Type := mk {
  status : Z;
  statusText : option string;
  data : ErrorData;
}.
End ErrorResponse.

(** The error object axios rejects with: [response] is set when the server
    answered outside 2xx, [request] when the request was sent. *)
Module AxiosError.
Record t : Type := mk {
  response : option ErrorResponse.t;
  request : bool;
  message : string;
}.

(** [error.response?.status === code] *)
Definition has_status (code : Z) (e : t) : bool :=
  match response e with
  | Some r => Z.eqb (ErrorResponse.status r) code
  | None => false
  end.

(** [error?.response?.data?.error] *)
Definition data_error (e : t) : option string :=
  match response e with
  | Some r =>
      match ErrorResponse.data r with
      | DataObject err => err
      | DataString _ => None
      end
  | None => None
  end.
End AxiosError.

(** Values a store method can throw: [new Error(message)] or the axios error
    itself. *)
Inductive Thrown : Type :=
| JsError (message : string)
| Rejected (error : AxiosError.t).

(** Payloads of the endpoints the stores call. *)
Module Payload.
Record TaskData : Type := mkTask { task : Task.t }.
Record MessageData : Type := mkMessage { message : Message.t }.
Record MessagesData : Type :=
  mkMessages { messages : list Message.t; hasMore : bool }.
Record ConversationsData : Type :=
  mkConversations { conversations : list Conversation.t }.

(** [GET /tasks] and [GET /tasks/my]: [{ data, pagination }]. *)
Record TasksData : Type := mkTasks { data : list Task.t; pagination : Pagination.t }.
(** [GET /auth/me], [POST /auth/complete-onboarding]: [{ user }]. *)
Record UserData : Type := mkUser { user : User.t }.
End Payload.

(** ** Process-wide state *)

(** [SocketManager.socket]: absent, or a socket.io socket with its
    [connected] flag. *)
Module SocketManager.
Record t : Type := mk { socket : option bool }.
(** [this.socket?.connected] *)
Definition connected (m : t) : bool :=
  match socket m with Some c => c | None => false end.
End SocketManager.

(** Everything a store method can read and write: the three stores, the
    default headers of the axios instance, [localStorage],
    [window.location.pathname] and the socket manager. *)
Record Stores : Type := mkStores {
  messageStore : MessageState.t;
  taskStore : TaskState.t;
  authStore : AuthState.t;
  headers : gmap string string;
  localStorage : gmap string string;
  pathname : string;
  socketManager : SocketManager.t;
}.

Definition set_messageStore (f : MessageState.t -> MessageState.t) (s : Stores) :=
  mkStores (f (messageStore s)) (taskStore s) (authStore s) (headers s)
           (localStorage s) (pathname s) (socketManager s).
Definition set_taskStore (f : TaskState.t -> TaskState.t) (s : Stores) :=
  mkStores (messageStore s) (f (taskStore s)) (authStore s) (headers s)
           (localStorage s) (pathname s) (socketManager s).
Definition set_authStore (f : AuthState.t -> AuthState.t) (s : Stores) :=
  mkStores (messageStore s) (taskStore s) (f (authStore s)) (headers s)
           (localStorage s) (pathname s) (socketManager s).
Definition set_headers (f : gmap string string -> gmap string string) (s : Stores) :=
  mkStores (messageStore s) (taskStore s) (authStore s) (f (headers s))
           (localStorage s) (pathname s) (socketManager s).
Definition set_localStorage (f : gmap string string -> gmap string string) (s : Stores) :=
  mkStores (messageStore s) (taskStore s) (authStore s) (headers s)
           (f (localStorage s)) (pathname s) (socketManager s).

(** Calls that leave the page, in the order they are made. *)
Inductive Event : Type :=
| Sent (rq : Request.t)                     (* a request handed to the transport *)
| SocketEmit (event data : string)           (* [this.socket.emit(event, data)] *)
| ConsoleError (text : string)               (* [console.error] *)
| StorageRemove (key : string)               (* [localStorage.removeItem(key)] *)
| LocationAssign (href : string)             (* [window.location.href = href] *)
| UnhandledRejection (e : Thrown).           (* a rejected promise nobody awaits *)

(** ** Programs *)

(** The commands of a store method.  [Await] suspends the method until the
    transport settles the request; [Spawn] calls an [async] function without
    awaiting it; [SetTimeout] schedules a callback. *)
Inductive Prog (A : Type) : Type :=
| Ret (a : A)
| Throw (e : Thrown)
| Get (k : Stores -> Prog A)
| Put (f : Stores -> Stores) (k : Prog A)
| Log (ev : Event) (k : Prog A)
| Await (R : Type) (rq : Request.t) (k : Response.t R + AxiosError.t -> Prog A)
| Spawn (p : Prog unit) (k : Prog A)
| SetTimeout (cb : Prog unit) (ms : Z) (k : Prog A).

Arguments Ret {A} a.
Arguments Throw {A} e.
Arguments Get {A} k.
Arguments Put {A} f k.
Arguments Log {A} ev k.
Arguments Await {A} R rq k.
Arguments Spawn {A} p k.
Arguments SetTimeout {A} cb ms k.

(** Sequencing: [p] then [k] on its result; a throw skips [k]. *)
Fixpoint bind {A B : Type} (p : Prog A) (k : A -> Prog B) : Prog B :=
  match p with
  | Ret a => k a
  | Throw e => Throw e
  | Get g => Get (fun s => bind (g s) k)
  | Put f q => Put f (bind q k)
  | Log ev q => Log ev (bind q k)
  | Await R rq g => Await R rq (fun o => bind (g o) k)
  | Spawn q r => Spawn q (bind r k)
  | SetTimeout cb ms q => SetTimeout cb ms (bind q k)
  end.

(** [try { p } catch (error) { h error }]: a throw in [p], before or after
    an [await], runs the handler.  A spawned call is not covered. *)
Fixpoint try_catch {A : Type} (p : Prog A) (h : Thrown -> Prog A) : Prog A :=
  match p with
  | Ret a => Ret a
  | Throw e => h e
  | Get g => Get (fun s => try_catch (g s) h)
  | Put f q => Put f (try_catch q h)
  | Log ev q => Log ev (try_catch q h)
  | Await R rq g => Await R rq (fun o => try_catch (g o) h)
  | Spawn q r => Spawn q (try_catch r h)
  | SetTimeout cb ms q => SetTimeout cb ms (try_catch q h)
  end.

(** stdpp's monad notations: [x ← p; q] and [p;; q]. *)
#[global] Instance prog_ret : MRet Prog := @Ret.
#[global] Instance prog_bind : MBind Prog := fun A B k p => bind p k.

Definition get : Prog Stores := Get Ret.
Definition put (f : Stores -> Stores) : Prog unit := Put f (Ret tt).
Definition log (ev : Event) : Prog unit := Log ev (Ret tt).
Definition spawn (p : Prog unit) : Prog unit := Spawn p (Ret tt).
Definition setTimeout (cb : Prog unit) (ms : Z) : Prog unit :=
  SetTimeout cb ms (Ret tt).
Definition when (b : bool) (p : Prog unit) : Prog unit :=
  if b then p else Ret tt.

(** ** The event loop *)

(** A suspended method: the request it waits for and what it does next. *)
Inductive Pending : Type :=
| Pend (R : Type) (rq : Request.t) (k : Response.t R + AxiosError.t -> Prog unit).

Record World : Type := mkWorld {
  stores : Stores;
  clock : Z;                              (* milliseconds *)
  timers : list (Z * Prog unit);          (* due time, callback *)
  pool : list Pending;                    (* suspended spawned calls *)
  trace : list Event;
}.

Definition with_stores (f : Stores -> Stores) (w : World) : World :=
  mkWorld (f (stores w)) (clock w) (timers w) (pool w) (trace w).
Definition emit_event (ev : Event) (w : World) : World :=
  mkWorld (stores w) (clock w) (timers w) (pool w) (trace w ++ [ev]).
Definition add_timer (due : Z) (cb : Prog unit) (w : World) : World :=
  mkWorld (stores w) (clock w) (timers w ++ [(due, cb)]) (pool w) (trace w).
Definition add_pending (p : Pending) (w : World) : World :=
  mkWorld (stores w) (clock w) (timers w) (pool w ++ [p]) (trace w).

(** How a run of a method ends: with a result, with a throw, or suspended at
    an [await]. *)
Inductive Status (A : Type) : Type :=
| Returned (a : A)
| Raised (e : Thrown)
| Awaiting (R : Type) (rq : Request.t) (k : Response.t R + AxiosError.t -> Prog A).

Arguments Returned {A} a.
Arguments Raised {A} e.
Arguments Awaiting {A} R rq k.

(** What the event loop keeps of a call nobody awaits. *)
Definition detach (st : Status unit) (w : World) : World :=
  match st with
  | Returned _ => w
  | Raised e => emit_event (UnhandledRejection e) w
  | Awaiting R rq k => add_pending (Pend R rq k) w
  end.

(** Run a method until it returns, throws or reaches an [await]. *)
Fixpoint exec {A : Type} (p : Prog A) (w : World) : World * Status A :=
  match p with
  | Ret a => (w, Returned a)
  | Throw e => (w, Raised e)
  | Get k => exec (k (stores w)) w
  | Put f k => exec k (with_stores f w)
  | Log ev k => exec k (emit_event ev w)
  | Await R rq k => (emit_event (Sent rq) w, Awaiting R rq k)
  | Spawn q k => let '(w1, st) := exec q w in exec k (detach st w1)
  | SetTimeout cb ms k => exec k (add_timer (clock w + ms) cb w)
  end.

(** A fire-and-forget call as the event loop sees it. *)
Definition call (p : Prog unit) (w : World) : World :=
  let '(w1, st) := exec p w in detach st w1.

(** The timer to fire next: the earliest due, the first registered among
    equals; with it, the timers that stay queued. *)
Fixpoint pick_timer (ts : list (Z * Prog unit))
    : option ((Z * Prog unit) * list (Z * Prog unit)) :=
  match ts with
  | [] => None
  | x :: rest =>
      match pick_timer rest with
      | Some (y, rest') =>
          if fst y <? fst x then Some (y, x :: rest') else Some (x, rest)
      | None => Some (x, [])
      end
  end.

Definition set_clock (t : Z) (w : World) : World :=
  mkWorld (stores w) (Z.max (clock w) t) (timers w) (pool w) (trace w).
Definition set_timers (ts : list (Z * Prog unit)) (w : World) : World :=
  mkWorld (stores w) (clock w) ts (pool w) (trace w).

(** Let time pass until [t]: the timers due by then fire in order, each at
    its due time.  [fuel] bounds the number of callbacks run; when it runs
    out with a timer still due the clock stays behind [t]. *)
Fixpoint advance (fuel : nat) (t : Z) (w : World) : World :=
  match pick_timer (timers w) with
  | Some ((due, cb), rest) =>
      if due <=? t then
        match fuel with
        | O => w
        | S n => advance n t (call cb (set_clock due (set_timers rest w)))
        end
      else set_clock t w
  | None => set_clock t w
  end.

(** ** lib/api.ts *)

Module Api.

(** [localStorage.removeItem(key)] *)
Definition localStorage_removeItem (key : string) : Prog unit :=
  log (StorageRemove key);;
  put (set_localStorage (delete key)).

(** The last part of the response interceptor's error handler: give every
    error a [response] with a [data.error] text. *)
Definition normalize (error : AxiosError.t) : AxiosError.t :=
  match AxiosError.response error with
  | Some r =>
      match ErrorResponse.data r with
      | DataString _ =>
          AxiosError.mk
            (Some (ErrorResponse.mk (ErrorResponse.status r)
                     (ErrorResponse.statusText r)
                     (DataObject (Some (Js.concat_undef "Server error: "
                                          (ErrorResponse.statusText r))))))
            (AxiosError.request error) (AxiosError.message error)
      | DataObject _ => error
      end
  | None =>
      if AxiosError.request error then
        AxiosError.mk
          (Some (ErrorResponse.mk 0 None
                   (DataObject (Some "No response from server"))))
          (AxiosError.request error) (AxiosError.message error)
      else
        AxiosError.mk
          (Some (ErrorResponse.mk 0 None
                   (DataObject (Some (AxiosError.message error)))))
          (AxiosError.request error) (AxiosError.message error)
  end.

(** [api.interceptors.response.use(_, (error) => ...)] *)
Definition responseRejected {A : Type} (error : AxiosError.t) : Prog A :=
  when (AxiosError.has_status 401 error)
    (localStorage_removeItem "auth-storage";;
     s ← get;
     when (negb (String.eqb (pathname s) "/login"))
       (log (LocationAssign "/login")));;
  Throw (Rejected (normalize error)).

(** [api.interceptors.response.use((response) => response, _)] *)
Definition responseFulfilled {R : Type} (response : Response.t R) : Prog (Response.t R) :=
  Ret response.

(** One call of the axios instance: the request goes to the transport and
    the outcome passes through the response interceptor. *)
Definition interceptors {R : Type} (o : Response.t R + AxiosError.t)
    : Prog (Response.t R) :=
  match o with
  | inl response => responseFulfilled response
  | inr error => responseRejected error
  end.

Definition request (R : Type) (m : Method) (url : string) (body : Body)
    : Prog (Response.t R) :=
  Await R (Request.mk m url body) interceptors.

Definition get_ (R : Type) (url : string) := request R GET url NoBody.
Definition post (R : Type) (url : string) (body : Body) := request R POST url body.
Definition patch (R : Type) (url : string) (body : Body) := request R PATCH url body.
Definition delete_ (R : Type) (url : string) := request R DELETE url NoBody.

(** [(error as {...})?.response?.data?.error || fallback] *)
Definition error_text (error : Thrown) (fallback : string) : string :=
  match error with
  | Rejected e => Js.or_else (AxiosError.data_error e) fallback
  | JsError _ => fallback
  end.

End Api.

(** ** lib/socket.ts *)

Module Socket.
(** [SocketManager.emit]: nothing is sent unless the socket is connected. *)
Definition emit (event data : string) : Prog unit :=
  s ← get;
  when (SocketManager.connected (socketManager s)) (log (SocketEmit event data)).
End Socket.

(** ** stores/messageStore.ts *)

Module MessageStore.
Import MessageState.

(** zustand's [get()] and [set(...)] of this store. *)
Definition getState : Prog MessageState.t := s ← get; mret (messageStore s).
Definition setState (f : MessageState.t -> MessageState.t) : Prog unit :=
  put (set_messageStore f).

Definition fetchConversations : Prog unit :=
  try_catch
    (response ← Api.get_ Payload.ConversationsData "/messages/conversations";
     setState (set_conversations (Payload.conversations (Response.data response))))
    (fun error => log (ConsoleError "Failed to fetch conversations:")).

Definition fetchChannelMessages (channel : string) : Prog unit :=
  setState (fun state =>
    set_isLoading true (set_messages [] (set_activeChannel (Some channel)
      (set_activeRecipient None state))));;
  try_catch
    (response ← Api.get_ Payload.MessagesData ("/messages/channel/" +:+ channel);
     setState (fun state =>
       set_messages (Payload.messages (Response.data response))
         (set_hasMore (Payload.hasMore (Response.data response))
            (set_isLoading false state)));;
     (* Join socket room *)
     Socket.emit "channel:join" channel)
    (fun error =>
       log (ConsoleError "Failed to fetch channel messages:");;
       setState (set_isLoading false)).

Definition fetchDirectMessages (userId : string) : Prog unit :=
  setState (fun state =>
    set_isLoading true (set_messages [] (set_activeRecipient (Some userId)
      (set_activeChannel None state))));;
  try_catch
    (response ← Api.get_ Payload.MessagesData ("/messages/dm/" +:+ userId);
     setState (fun state =>
       set_messages (Payload.messages (Response.data response))
         (set_hasMore (Payload.hasMore (Response.data response))
            (set_isLoading false state))))
    (fun error =>
       log (ConsoleError "Failed to fetch direct messages:");;
       setState (set_isLoading false)).

(** The argument of [sendMessage]. *)
Record SendData : Type := mkSendData {
  content : string;
  channel : option string;
  recipient : option string;
  mentions : option (list string);
}.

Definition sendMessage (data : SendData) : Prog unit :=
  try_catch
    (response ← Api.post Payload.MessageData "/messages"
                  (MessageBody (content data) (channel data) (recipient data)
                     (mentions data));
     let newMessage := Payload.message (Response.data response) in
     setState (fun state => set_messages (messages state ++ [newMessage]) state))
    (fun error =>
       log (ConsoleError "Failed to send message:");;
       Throw error).

Definition fetchUnreadCount : Prog unit :=
  try_catch
    (response ← Api.get_ UnreadCount.t "/messages/unread";
     setState (set_unreadCount (Response.data response)))
    (fun error => log (ConsoleError "Failed to fetch unread count:")).

Definition setActiveChannel (channel : option string) : Prog unit :=
  state ← getState;
  (* Leave previous channel *)
  match activeChannel state with
  | Some previous =>
      when (Js.truthy (Some previous)) (Socket.emit "channel:leave" previous)
  | None => mret tt
  end;;
  setState (fun state => set_activeChannel channel (set_activeRecipient None state));;
  match channel with
  | Some c => when (Js.truthy (Some c)) (spawn (fetchChannelMessages c))
  | None => mret tt
  end.

Definition setActiveRecipient (userId : option string) : Prog unit :=
  setState (fun state => set_activeRecipient userId (set_activeChannel None state));;
  match userId with
  | Some u => when (Js.truthy (Some u)) (spawn (fetchDirectMessages u))
  | None => mret tt
  end.

(** The test of [addMessage]:
    [(message.channel && message.channel === activeChannel) ||
     (message.recipient && (message.recipient._id === activeRecipient ||
                            message.sender._id === activeRecipient))] *)
Definition relevant (message : Message.t) (state : MessageState.t) : bool :=
  (Js.truthy (Message.channel message) &&
   match Message.channel message with
   | Some c => Js.strict_eq c (activeChannel state)
   | None => false
   end)
  ||
  match Message.recipient message with
  | Some r =>
      Js.strict_eq (Person._id r) (activeRecipient state)
      || Js.strict_eq (Person._id (Message.sender message)) (activeRecipient state)
  | None => false
  end.

(** [messages.find((m) => m._id === message._id)] as a test. *)
Definition cached (id : string) (ms : list Message.t) : bool :=
  existsb (fun m => String.eqb (Message._id m) id) ms.

Definition addMessage (message : Message.t) : Prog unit :=
  state ← getState;
  (* Only add if relevant to current view *)
  when (relevant message state)
    ((* Avoid duplicates *)
     when (negb (cached (Message._id message) (messages state)))
       (setState (fun state => set_messages (messages state ++ [message]) state)));;
  (* Update unread count *)
  spawn fetchUnreadCount.

(** The callback [setTyping] hands to [setTimeout]. *)
Definition clearTyping (userId : string) : Prog unit :=
  setState (fun state =>
    set_typingUsers (<[userId := false]> (typingUsers state)) state).

Definition setTyping (userId : string) (isTyping : bool) : Prog unit :=
  setState (fun state =>
    set_typingUsers (<[userId := isTyping]> (typingUsers state)) state);;
  (* Auto-clear typing after 3 seconds *)
  when isTyping (setTimeout (clearTyping userId) 3000).


(** [markAsRead] stamps each receipt with [new Date().toISOString()];
    [readAt i] is the reading of the clock when the callback of [map] is at
    the message at index [i]. *)
Section MarkAsRead.
Variable readAt : nat -> string.

(** [{ ...msg, readBy: [...msg.readBy, { user: 'currentUser', readAt }] }] *)
Definition with_receipt (stamp : string) (msg : Message.t) : Message.t :=
  Message.mk (Message._id msg) (Message.content msg) (Message.sender msg)
    (Message.recipient msg) (Message.channel msg) (Message.taskRef msg)
    (Message.mentions msg)
    (Message.readBy msg ++ [ReadReceipt.mk "currentUser" stamp])
    (Message.isEdited msg) (Message.replyTo msg) (Message.reactions msg)
    (Message.createdAt msg) (Message.updatedAt msg).

(** [state.messages.map((msg) => messageIds.includes(msg._id) ? ... : msg)] *)
Definition mark_read (messageIds : list string) (ms : list Message.t)
    : list Message.t :=
  imap (fun i msg =>
          if existsb (String.eqb (Message._id msg)) messageIds
          then with_receipt (readAt i) msg else msg) ms.

Definition markAsRead (messageIds : list string) : Prog unit :=
  try_catch
    (_ ← Api.post unit "/messages/read" (ReadBody messageIds);
     (* Update local state *)
     setState (fun state => set_messages (mark_read messageIds (messages state)) state))
    (fun error => log (ConsoleError "Failed to mark as read:")).
End MarkAsRead.

End MessageStore.

(** ** stores/taskStore.ts *)

Module TaskStore.
Import TaskState.

Definition getState : Prog TaskState.t := s ← get; mret (taskStore s).
Definition setState (f : TaskState.t -> TaskState.t) : Prog unit :=
  put (set_taskStore f).

(** [state.tasks.map((t) => (t._id === taskId ? updatedTask : t))] *)
Definition replace_task (taskId : string) (updatedTask : Task.t)
    (ts : list Task.t) : list Task.t :=
  map (fun t => if String.eqb (Task._id t) taskId then updatedTask else t) ts.

(** [state.currentTask?._id === taskId ? v : state.currentTask] *)
Definition replace_current (taskId : string) (v : option Task.t)
    (current : option Task.t) : option Task.t :=
  match current with
  | Some c => if String.eqb (Task._id c) taskId then v else current
  | None => current
  end.

(** The cache patch shared by [updateTask], [addComment] and
    [updateTaskStatus]. *)
Definition patch_cache (taskId : string) (updatedTask : Task.t)
    (state : TaskState.t) : TaskState.t :=
  set_tasks (replace_task taskId updatedTask (tasks state))
    (set_currentTask
       (replace_current taskId (Some updatedTask) (currentTask state)) state).

Definition createTask (data : TaskPatch.t) : Prog Task.t :=
  try_catch
    (response ← Api.post Payload.TaskData "/tasks" (TaskBody data);
     let newTask := Payload.task (Response.data response) in
     setState (fun state => set_tasks (newTask :: tasks state) state);;
     mret newTask)
    (fun error =>
       let message := Api.error_text error "Failed to create task" in
       Throw (JsError message)).

Definition updateTask (taskId : string) (updates : TaskPatch.t) : Prog Task.t :=
  try_catch
    (response ← Api.patch Payload.TaskData ("/tasks/" +:+ taskId) (TaskBody updates);
     let updatedTask := Payload.task (Response.data response) in
     setState (patch_cache taskId updatedTask);;
     mret updatedTask)
    (fun error =>
       let message := Api.error_text error "Failed to update task" in
       Throw (JsError message)).

Definition deleteTask (taskId : string) : Prog unit :=
  try_catch
    (_ ← Api.delete_ unit ("/tasks/" +:+ taskId);
     setState (fun state =>
       set_tasks (filter (fun t => Task._id t ≠ taskId) (tasks state))
         (set_currentTask (replace_current taskId None (currentTask state)) state)))
    (fun error =>
       let message := Api.error_text error "Failed to delete task" in
       Throw (JsError message)).

Definition addComment (taskId content : string) (mentions : option (list string))
    : Prog unit :=
  try_catch
    (response ← Api.post Payload.TaskData ("/tasks/" +:+ taskId +:+ "/comments")
                  (CommentBody content mentions);
     let updatedTask := Payload.task (Response.data response) in
     setState (patch_cache taskId updatedTask))
    (fun error =>
       let message := Api.error_text error "Failed to add comment" in
       Throw (JsError message)).

Definition updateTaskStatus (taskId : string) (status : TaskStatus) : Prog unit :=
  try_catch
    (response ← Api.patch Payload.TaskData ("/tasks/" +:+ taskId) (StatusBody status);
     let updatedTask := Payload.task (Response.data response) in
     setState (patch_cache taskId updatedTask))
    (fun error =>
       let message := Api.error_text error "Failed to update status" in
       Throw (JsError message)).

Definition clearCurrentTask : Prog unit := setState (set_currentTask None).


(** The string of a status or priority, as it goes into a query. *)
Definition status_name (s : TaskStatus) : string :=
  match s with
  | backlog => "backlog" | todo => "todo" | in_progress => "in_progress"
  | in_review => "in_review" | done => "done" | archived => "archived"
  end.
Definition priority_name (p : TaskPriority) : string :=
  match p with
  | low => "low" | medium => "medium" | high => "high" | urgent => "urgent"
  end.

(** [Array.isArray(v) ? v.join(',') : v] *)
Definition one_or_joined {A : Type} (name : A -> string) (v : A + list A) : string :=
  match v with
  | inl x => name x
  | inr xs => String.concat "," (map name xs)
  end.

(** The [params.append] calls of [fetchTasks], in order.  A status or
    priority filter is a non-empty string or an array, both truthy; tags count
    when the array has elements, [search] and [assignee] when non-empty,
    [overdue] when true. *)
Definition query_params (f : TaskFilters.t) : list (string * string) :=
  match TaskFilters.status f with
  | Some v => [("status", one_or_joined status_name v)]
  | None => []
  end
  ++ match TaskFilters.priority f with
     | Some v => [("priority", one_or_joined priority_name v)]
     | None => []
     end
  ++ match TaskFilters.assignee f with
     | Some a => if Js.truthy (Some a) then [("assignee", a)] else []
     | None => []
     end
  ++ match TaskFilters.tags f with
     | Some (t :: ts) => [("tags", String.concat "," (t :: ts))]
     | _ => []
     end
  ++ match TaskFilters.search f with
     | Some q => if Js.truthy (Some q) then [("search", q)] else []
     | None => []
     end
  ++ match TaskFilters.overdue f with
     | Some true => [("overdue", "true")]
     | _ => []
     end.

(** [set({ isLoading: true, error: null })] *)
Definition start_loading (state : TaskState.t) : TaskState.t :=
  TaskState.mk (tasks state) (currentTask state) true None (filters state)
    (pagination state).
(** [set({ error: message, isLoading: false })] *)
Definition fail_loading (message : string) (state : TaskState.t) : TaskState.t :=
  TaskState.mk (tasks state) (currentTask state) false (Some message)
    (filters state) (pagination state).

(** [URLSearchParams.prototype.toString] belongs to the browser; the stores
    only hand it the appended pairs. *)
Section Query.
Variable toString : list (string * string) -> string.

Definition fetchTasks (filters_arg : option TaskFilters.t) : Prog unit :=
  setState start_loading;;
  try_catch
    (state ← getState;
     let currentFilters := default (filters state) filters_arg in
     let params := query_params currentFilters in
     response ← Api.get_ Payload.TasksData ("/tasks?" +:+ toString params);
     setState (fun state =>
       TaskState.mk (Payload.data (Response.data response)) (currentTask state)
         false (error state) currentFilters
         (Payload.pagination (Response.data response))))
    (fun error =>
       let message := Api.error_text error "Failed to fetch tasks" in
       setState (fail_loading message)).

Definition setFilters (f : TaskFilters.t) : Prog unit :=
  setState (fun state =>
    TaskState.mk (tasks state) (currentTask state) (isLoading state)
      (error state) f (pagination state));;
  spawn (fetchTasks (Some f)).
End Query.

Definition fetchMyTasks : Prog unit :=
  setState start_loading;;
  try_catch
    (response ← Api.get_ Payload.TasksData "/tasks/my";
     setState (fun state =>
       TaskState.mk (Payload.data (Response.data response)) (currentTask state)
         false (error state) (filters state)
         (Payload.pagination (Response.data response))))
    (fun error =>
       let message := Api.error_text error "Failed to fetch tasks" in
       setState (fail_loading message)).

Definition fetchTaskById (taskId : string) : Prog unit :=
  setState start_loading;;
  try_catch
    (response ← Api.get_ Payload.TaskData ("/tasks/" +:+ taskId);
     setState (fun state =>
       TaskState.mk (tasks state) (Some (Payload.task (Response.data response)))
         false (error state) (filters state) (pagination state)))
    (fun error =>
       let message := Api.error_text error "Failed to fetch task" in
       setState (fail_loading message)).

End TaskStore.

(** ** stores/authStore.ts *)

Module AuthStore.

(** [set] of the store.  The store is created under zustand's [persist]
    middleware, which after every [set] writes the token to
    [localStorage['auth-storage']] and reads it back when the page loads;
    that copy is library code and is left out here: in this development
    [localStorage] changes only through the [removeItem] of the response
    interceptor, and nothing is stated about the entry after a [set] of this
    store. *)
Definition setState (f : AuthState.t -> AuthState.t) : Prog unit :=
  put (set_authStore f).

Definition logout : Prog unit :=
  try_catch
    (_ ← Api.post unit "/auth/logout" NoBody; mret tt)
    (fun _ => (* Ignore logout errors *) mret tt);;
  put (set_headers (delete "Authorization"));;
  setState (fun state =>
    AuthState.mk None None false false (AuthState.error state)).


Definition getState : Prog AuthState.t := s ← get; mret (authStore s).

(** [set({ user: null, token: null, isAuthenticated: false, isLoading: false })] *)
Definition signed_out (state : AuthState.t) : AuthState.t :=
  AuthState.mk None None false false (AuthState.error state).

Definition checkAuth : Prog unit :=
  state ← getState;
  match AuthState.token state with
  | Some token =>
      if Js.truthy (Some token) then
        put (set_headers (<["Authorization" := "Bearer " +:+ token]>));;
        try_catch
          (response ← Api.get_ Payload.UserData "/auth/me";
           setState (fun state =>
             AuthState.mk (Some (Payload.user (Response.data response)))
               (AuthState.token state) true false (AuthState.error state)))
          (fun _ =>
             put (set_headers (delete "Authorization"));;
             setState signed_out)
      else setState (fun state =>
             AuthState.mk (AuthState.user state) (AuthState.token state)
               (AuthState.isAuthenticated state) false (AuthState.error state))
  | None =>
      setState (fun state =>
        AuthState.mk (AuthState.user state) (AuthState.token state)
          (AuthState.isAuthenticated state) false (AuthState.error state))
  end.

(** [set({ user: v })] *)
Definition with_user (v : option User.t) (state : AuthState.t) : AuthState.t :=
  AuthState.mk v (AuthState.token state) (AuthState.isAuthenticated state)
    (AuthState.isLoading state) (AuthState.error state).

Definition completeOnboarding : Prog unit :=
  try_catch
    (response ← Api.post Payload.UserData "/auth/complete-onboarding" NoBody;
     setState (with_user (Some (Payload.user (Response.data response)))))
    (fun _ => (* Ignore errors *) mret tt).

Definition updateUser (updates : UserPatch.t) : Prog unit :=
  setState (fun state =>
    with_user
      match AuthState.user state with
      | Some u => Some (UserPatch.merge u updates)
      | None => None
      end state).

Definition clearError : Prog unit :=
  setState (fun state =>
    AuthState.mk (AuthState.user state) (AuthState.token state)
      (AuthState.isAuthenticated state) (AuthState.isLoading state) None).

End AuthStore.

(** ** components/tasks/KanbanBoard.tsx *)

Module KanbanBoard.

(** The ids of [columns]. *)
Definition columns : list TaskStatus := [todo; in_progress; in_review; done].

Definition status_eqb (a b : TaskStatus) : bool :=
  String.eqb (TaskStore.status_name a) (TaskStore.status_name b).

(** [columns.some((col) => col.id === overId)], with the column found:
    [overId as Task["status"]] is then that column's id. *)
Definition column_of (overId : string) : option TaskStatus :=
  List.find (fun col => String.eqb (TaskStore.status_name col) overId) columns.

(** [tasks.find((t) => t._id === id)] *)
Definition find_task (id : string) (tasks : list Task.t) : option Task.t :=
  List.find (fun t => String.eqb (Task._id t) id) tasks.

(** [handleDragEnd]: [tasks] is the component's prop, [active] the id of the
    dragged card and [over] the id of the drop target, if any.  The result is
    the component's [activeTask] after the handler ([setActiveTask(null)]). *)
Definition handleDragEnd (tasks : list Task.t) (active : string)
    (over : option string) : Prog (option Task.t) :=
  match over with
  | None => mret None
  | Some overId =>
      (* Find the task being dragged *)
      match find_task active tasks with
      | None => mret None
      | Some draggedTask =>
          (* Check if dropped over a column *)
          match column_of overId with
          | Some newStatus =>
              (* Dropped directly on a column *)
              if negb (status_eqb (Task.status draggedTask) newStatus) then
                _ ← TaskStore.updateTask active (TaskPatch.only_status newStatus);
                mret None
              else mret None
          | None =>
              (* Dropped on another task *)
              match find_task overId tasks with
              | Some overTask =>
                  if negb (status_eqb (Task.status draggedTask) (Task.status overTask))
                  then
                    _ ← TaskStore.updateTask active
                          (TaskPatch.only_status (Task.status overTask));
                    mret None
                  else mret None
              | None => mret None
              end
          end
      end
  end.

(** [handleStatusChange] *)
Definition handleStatusChange (taskId : string) (status : TaskStatus) : Prog unit :=
  _ ← TaskStore.updateTask taskId (TaskPatch.only_status status); mret tt.

(** [handleDelete]; [confirmed] is the answer of [window.confirm]. *)
Definition handleDelete (confirmed : bool) (taskId : string) : Prog unit :=
  if confirmed then TaskStore.deleteTask taskId else mret tt.

(** [list.sort((a, b) => a.order - b.order)]: [Array.prototype.sort] is
    stable, so the result is the list ordered by [order] with ties in their
    original order. *)
Fixpoint insert_by_order (t : Task.t) (sorted : list Task.t) : list Task.t :=
  match sorted with
  | [] => [t]
  | x :: rest =>
      if Task.order t <=? Task.order x then t :: x :: rest
      else x :: insert_by_order t rest
  end.
Definition sort_by_order (ts : list Task.t) : list Task.t :=
  fold_right insert_by_order [] ts.

(** [tasksByStatus[status]]: the tasks pushed into the group of the status,
    then sorted. *)
Definition tasksByStatus (tasks : list Task.t) (status : TaskStatus) : list Task.t :=
  sort_by_order (List.filter (fun t => status_eqb (Task.status t) status) tasks).

(** What the board renders: one list per entry of [columns]. *)
Definition board (tasks : list Task.t) : list (TaskStatus * list Task.t) :=
  map (fun col => (col, tasksByStatus tasks col)) columns.

End KanbanBoard.

(** ** lib/socket.ts, the [SocketManager] class in full *)

(** The stores above see the manager through [SocketManager.connected] only.
    This module has the whole class: the socket.io socket it holds and the
    [listeners] registry.  A listener is a JavaScript function; it is named
    by a number, and two listeners are [===] when their numbers are equal.
    What the manager does to a socket.io socket is kept as the list of calls
    made on it. *)
Module Manager.

Inductive Callback : Type :=
| LogConnect | LogDisconnect | LogConnectError   (* the three handlers of [connect] *)
| Listener (id : nat).

Inductive SocketCall : Type :=
| On (event : string) (cb : Callback)
| Off (event : string) (cb : Callback)
| EmitCall (event data : string)
| DisconnectCall.

(** A socket made by [io(WS_URL, { auth: { token }, ... })]. *)
Record IoSocket : Type := mkSocket {
  auth : string;
  connected : bool;
  calls : list SocketCall;
}.

(** [listeners] is a [Map<string, Set<fn>>]: both keep insertion order and
    hold an element at most once.  [released] lists the sockets the manager
    held before and no longer refers to. *)
Record t : Type := mk {
  socket : option IoSocket;
  listeners : list (string * list nat);
  released : list IoSocket;
}.

Definition init : t := mk None [] [].

(** [Set.prototype.add], [Set.prototype.delete] *)
Definition set_add (x : nat) (xs : list nat) : list nat :=
  if existsb (Nat.eqb x) xs then xs else xs ++ [x].
Definition set_delete (x : nat) (xs : list nat) : list nat :=
  List.filter (fun y => negb (Nat.eqb x y)) xs.

(** [Map.prototype.get] *)
Fixpoint map_get (event : string) (ls : list (string * list nat))
    : option (list nat) :=
  match ls with
  | [] => None
  | (e, cbs) :: rest => if String.eqb e event then Some cbs else map_get event rest
  end.

(** Replace the value stored under an existing key. *)
Fixpoint map_update (event : string) (f : list nat -> list nat)
    (ls : list (string * list nat)) : list (string * list nat) :=
  match ls with
  | [] => []
  | (e, cbs) :: rest =>
      if String.eqb e event then (e, f cbs) :: rest
      else (e, cbs) :: map_update event f rest
  end.

(** A call made on the socket. *)
Definition call_socket (c : SocketCall) (sk : IoSocket) : IoSocket :=
  mkSocket (auth sk) (connected sk) (calls sk ++ [c]).

(** The calls of the double [forEach] of [connect]. *)
Definition reattach (ls : list (string * list nat)) : list SocketCall :=
  flat_map (fun '(event, cbs) => map (fun cb => On event (Listener cb)) cbs) ls.

Definition connect (token : string) (m : t) : t :=
  match socket m with
  | Some sk =>
      if connected sk then m
      else
        mk (Some (mkSocket token false
                    ([On "connect" LogConnect; On "disconnect" LogDisconnect;
                      On "connect_error" LogConnectError]
                     ++ reattach (listeners m))))
           (listeners m) (released m ++ [sk])
  | None =>
      mk (Some (mkSocket token false
                  ([On "connect" LogConnect; On "disconnect" LogDisconnect;
                    On "connect_error" LogConnectError]
                   ++ reattach (listeners m))))
         (listeners m) (released m)
  end.

Definition disconnect (m : t) : t :=
  match socket m with
  | Some sk => mk None (listeners m) (released m ++ [call_socket DisconnectCall sk])
  | None => m
  end.

Definition on (event : string) (callback : nat) (m : t) : t :=
  let ls := match map_get event (listeners m) with
            | Some _ => listeners m
            | None => listeners m ++ [(event, [])]
            end in
  mk (option_map (call_socket (On event (Listener callback))) (socket m))
     (map_update event (set_add callback) ls) (released m).

Definition off (event : string) (callback : nat) (m : t) : t :=
  mk (option_map (call_socket (Off event (Listener callback))) (socket m))
     (match map_get event (listeners m) with
      | Some _ => map_update event (set_delete callback) (listeners m)
      | None => listeners m
      end)
     (released m).

Definition emit (event data : string) (m : t) : t :=
  match socket m with
  | Some sk =>
      if connected sk
      then mk (Some (call_socket (EmitCall event data) sk)) (listeners m) (released m)
      else m
  | None => m
  end.

(** [get isConnected()] *)
Definition isConnected (m : t) : bool :=
  match socket m with Some sk => connected sk | None => false end.

(** socket.io reports that the transport went up or down. *)
Definition transport (up : bool) (m : t) : t :=
  mk (option_map (fun sk => mkSocket (auth sk) up (calls sk)) (socket m))
     (listeners m) (released m).

(** What the stores see of the manager. *)
Definition view (m : t) : SocketManager.t :=
  SocketManager.mk (option_map connected (socket m)).


(** The effect of [useSocketEvent] and its cleanup. *)
Definition useSocketEvent (event : string) (callback : nat) (m : t) : t :=
  on event callback m.
Definition useSocketEvent_cleanup (event : string) (callback : nat) (m : t) : t :=
  off event callback m.

End Manager.

(** ** App.tsx: the route wrappers *)

Module Routes.

Inductive View : Type :=
| Spinner
| NavigateTo (path : string)
| Children.

(** [checking] is the wrapper's own flag, false once [checkAuth] has
    settled. *)
Definition ProtectedRoute (checking : bool) (s : AuthState.t) : View :=
  if checking || AuthState.isLoading s then Spinner
  else if negb (AuthState.isAuthenticated s) then NavigateTo "/login"
  else Children.

Definition PublicRoute (checking : bool) (s : AuthState.t) : View :=
  if checking || AuthState.isLoading s then Spinner
  else if AuthState.isAuthenticated s then NavigateTo "/dashboard"
  else Children.

(** [user?.role !== "manager"] *)
Definition ManagerRoute (s : AuthState.t) : View :=
  match AuthState.user s with
  | Some u =>
      match User.role u with
      | User.manager => Children
      | User.user => NavigateTo "/dashboard"
      end
  | None => NavigateTo "/dashboard"
  end.

(** [<Wrapper>{children}</Wrapper>]: what is on screen when the wrapper
    decides [outer] and its children render as [inner]. *)
Definition wrap (outer inner : View) : View :=
  match outer with
  | Children => inner
  | _ => outer
  end.

(** The [<Route>] entries of [App], named by their paths. *)
Inductive Route : Type :=
| login
| register
| index
| dashboard
| tasks
| tasks_taskId
| calendar
| messages
| messages_channelOrUserId
| settings
| team
| reports
| catch_all.

(** What [App] shows for a matched route; [Children] stands for the page
    of the route.  The routes under ["/"] are rendered by the [<Outlet />]
    of [Layout], which sits inside [ProtectedRoute]; [Layout] renders its
    outlet whatever the state.  [checking] is the flag of the wrapper the
    route mounts. *)
Definition App (route : Route) (checking : bool) (s : AuthState.t) : View :=
  match route with
  | login | register => wrap (PublicRoute checking s) Children
  | index => wrap (ProtectedRoute checking s) (NavigateTo "/dashboard")
  | dashboard | tasks | tasks_taskId | calendar | messages
  | messages_channelOrUserId | settings =>
      wrap (ProtectedRoute checking s) Children
  | team | reports =>
      wrap (ProtectedRoute checking s) (wrap (ManagerRoute s) Children)
  | catch_all => NavigateTo "/dashboard"
  end.

End Routes.

(** ** Notions used to state the properties *)

(** The visible message list of the store. *)
Definition visible (w : World) : list Message.t :=
  MessageState.messages (messageStore (stores w)).

(** How many messages of a list carry the id. *)
Definition copies (id : string) (ms : list Message.t) : nat :=
  length (filter (fun m => Message._id m = id) ms).

(** The push channel delivers [message:new] events one after the other. *)
Definition deliver (ms : list Message.t) (w : World) : World :=
  foldl (fun w m => call (MessageStore.addMessage m) w) w ms.

(** The active scope in the words of the specification: the message's channel
    is the active channel, or its sender or recipient is the active
    direct-conversation partner. *)
Definition in_active_scope (m : Message.t) (s : MessageState.t) : Prop :=
  (exists c, Message.channel m = Some c /\ MessageState.activeChannel s = Some c)
  \/ (exists u, MessageState.activeRecipient s = Some u /\
        (Person._id (Message.sender m) = u \/
         exists r, Message.recipient m = Some r /\ Person._id r = u)).

(** The request of [fetchUnreadCount]. *)
Definition unread_request : Request.t := Request.mk GET "/messages/unread" NoBody.

(** The events a run added to the trace. *)
Definition new_events (before after : World) : list Event :=
  drop (length (trace before)) (trace after).

(** The requests among some events, and the number of removals of a
    [localStorage] key. *)
Definition requests (evs : list Event) : list Request.t :=
  omap (fun ev => match ev with Sent rq => Some rq | _ => None end) evs.
Definition removals (key : string) (evs : list Event) : nat :=
  length (List.filter
            (fun ev => match ev with
                       | StorageRemove k => String.eqb k key
                       | _ => false
                       end) evs).

(** The typing flag of a user. *)
Definition typing (u : string) (w : World) : option bool :=
  MessageState.typingUsers (messageStore (stores w)) !! u.

(** The task cache: the list and the open record. *)
Definition tasks_of (w : World) : list Task.t := TaskState.tasks (taskStore (stores w)).
Definition currentTask_of (w : World) : option Task.t :=
  TaskState.currentTask (taskStore (stores w)).

(** The list part of [addMessage] as a function on the store: append when the
    message is relevant and its id is not cached. *)
Definition merge_message (m : Message.t) (s : MessageState.t) : MessageState.t :=
  if MessageStore.relevant m s
     && negb (MessageStore.cached (Message._id m) (MessageState.messages s))
  then MessageState.set_messages (MessageState.messages s ++ [m]) s
  else s.

(** What the response interceptor's error handler does to the page: on a
    401 the [auth-storage] entry is removed and, unless the page is already
    [/login], the browser is sent there. *)
Definition after_rejection (error : AxiosError.t) (w : World) : World :=
  if AxiosError.has_status 401 error then
    let w1 := with_stores (set_localStorage (delete "auth-storage"))
                (emit_event (StorageRemove "auth-storage") w) in
    if negb (String.eqb (pathname (stores w)) "/login")
    then emit_event (LocationAssign "/login") w1
    else w1
  else w.

(** The message of the [Error] a mutating method of the task store throws
    for a failed call, read off the error as axios hands it to the response
    interceptor: the [error] text of a JSON answer; ["Server error: "] and
    the status text for an answer that is a string; ["No response from
    server"] for a request that got no answer; the message of the error for a
    request that was never sent; and [fallback] wherever that text is missing
    or empty. *)
Definition surfaced_text (error : AxiosError.t) (fallback : string) : string :=
  match AxiosError.response error with
  | Some r =>
      match ErrorResponse.data r with
      | DataObject (Some text) => if String.eqb text "" then fallback else text
      | DataObject None => fallback
      | DataString _ =>
          match ErrorResponse.statusText r with
          | Some statusText => "Server error: " +:+ statusText
          | None => "Server error: undefined"
          end
      end
  | None =>
      if AxiosError.request error then "No response from server"
      else if String.eqb (AxiosError.message error) "" then fallback
      else AxiosError.message error
  end.

(** Confirm-then-patch: the method sends [rq] and suspends with the page
    state as it was; if the call fails it throws [new Error(text)], a value
    that holds the surfaced text of the failure and nothing else of it, and
    the task store is as it was; if the call succeeds the task store is
    patched by [patch]. *)
Definition confirm_then_patch {A R : Type} (p : Prog A) (rq : Request.t)
    (fallback : string) (patch : R -> TaskState.t -> TaskState.t) : Prop :=
  forall w, exists k : Response.t R + AxiosError.t -> Prog A,
    exec p w = (emit_event (Sent rq) w, Awaiting R rq k)
    /\ (forall w2 error,
          (exec (k (inr error)) w2).2
            = Raised (JsError (surfaced_text error fallback))
          /\ taskStore (stores (exec (k (inr error)) w2).1) = taskStore (stores w2))
    /\ (forall w2 r,
          taskStore (stores (exec (k (inl r)) w2).1)
            = patch (Response.data r) (taskStore (stores w2))).

(** A read that swallows its failure: the method suspends at a request, and
    when the request fails it returns normally; [keeps] is what it leaves
    untouched on that path. *)
Definition swallows_failure {St : Type} (p : Prog unit) (keeps : World -> St) : Prop :=
  forall w, exists (R : Type) (rq : Request.t)
                   (k : Response.t R + AxiosError.t -> Prog unit),
    (exec p w).2 = Awaiting R rq k
    /\ forall w2 e,
         (exec (k (inr e)) w2).2 = Returned tt
         /\ keeps (exec (k (inr e)) w2).1 = keeps w2.

(** Two messages that agree on every field but [readBy]. *)
Definition same_but_readBy (m m' : Message.t) : Prop :=
  Message._id m' = Message._id m
  /\ Message.content m' = Message.content m
  /\ Message.sender m' = Message.sender m
  /\ Message.recipient m' = Message.recipient m
  /\ Message.channel m' = Message.channel m
  /\ Message.taskRef m' = Message.taskRef m
  /\ Message.mentions m' = Message.mentions m
  /\ Message.isEdited m' = Message.isEdited m
  /\ Message.replyTo m' = Message.replyTo m
  /\ Message.reactions m' = Message.reactions m
  /\ Message.createdAt m' = Message.createdAt m
  /\ Message.updatedAt m' = Message.updatedAt m.

(** The parts of the message store a failed read leaves alone. *)
Definition message_data (w : World) :=
  (MessageState.messages (messageStore (stores w)),
   MessageState.conversations (messageStore (stores w)),
   MessageState.unreadCount (messageStore (stores w)),
   MessageState.activeChannel (messageStore (stores w)),
   MessageState.activeRecipient (messageStore (stores w)),
   MessageState.typingUsers (messageStore (stores w))).

(** A read of the task store: before the request [isLoading] is raised
    and the old error cleared; when the request fails the method returns
    normally, [error] holds the normalized text or else [fallback],
    [isLoading] is lowered and [keeps] is untouched. *)
Definition records_failure {St : Type} (p : Prog unit) (fallback : string)
    (keeps : World -> St) : Prop :=
  forall w, exists (R : Type) (rq : Request.t)
                   (k : Response.t R + AxiosError.t -> Prog unit),
    (exec p w).2 = Awaiting R rq k
    /\ TaskState.isLoading (taskStore (stores (exec p w).1)) = true
    /\ TaskState.error (taskStore (stores (exec p w).1)) = None
    /\ keeps (exec p w).1 = keeps w
    /\ forall w2 e,
         (exec (k (inr e)) w2).2 = Returned tt
         /\ TaskState.error (taskStore (stores (exec (k (inr e)) w2).1))
            = Some (Api.error_text (Rejected (Api.normalize e)) fallback)
         /\ TaskState.isLoading (taskStore (stores (exec (k (inr e)) w2).1)) = false
         /\ keeps (exec (k (inr e)) w2).1 = keeps w2.

(** The parts of the task store a failed read leaves alone. *)
Definition task_data (w : World) :=
  (TaskState.tasks (taskStore (stores w)),
   TaskState.currentTask (taskStore (stores w)),
   TaskState.filters (taskStore (stores w)),
   TaskState.pagination (taskStore (stores w))).

(** The parameter names [fetchTasks] can append, in the order of the
    source. *)
Definition query_keys : list string :=
  ["status"; "priority"; "assignee"; "tags"; "search"; "overdue"].

(** The status a drop asks for: the column the card was dropped on, or
    else the status of the card it was dropped on. *)
Definition drop_target (tasks : list Task.t) (overId : string) : option TaskStatus :=
  match KanbanBoard.column_of overId with
  | Some s => Some s
  | None => Task.status <$> KanbanBoard.find_task overId tasks
  end.

(** The ids of the cached tasks, in order. *)
Definition task_ids (w : World) : list string := map Task._id (tasks_of w).

(** The socket events among some events. *)
Definition socket_events (evs : list Event) : list (string * string) :=
  omap (fun ev => match ev with SocketEmit e d => Some (e, d) | _ => None end) evs.

(** A listener is registered for an event. *)
Definition registered (event : string) (cb : nat) (m : Manager.t) : Prop :=
  exists cbs, Manager.map_get event (Manager.listeners m) = Some cbs /\ In cb cbs.

(** The registry is a map of sets: no event twice, no listener twice under
    one event. *)
Definition registry_wf (m : Manager.t) : Prop :=
  NoDup (map fst (Manager.listeners m))
  /\ Forall (fun entry => NoDup (snd entry)) (Manager.listeners m).

(** What the pages can do to the manager. *)
Inductive ManagerOp : Type :=
| OpConnect (token : string)
| OpDisconnect
| OpOn (event : string) (cb : nat)
| OpOff (event : string) (cb : nat)
| OpEmit (event data : string)
| OpTransport (up : bool).

Definition run_op (m : Manager.t) (op : ManagerOp) : Manager.t :=
  match op with
  | OpConnect token => Manager.connect token m
  | OpDisconnect => Manager.disconnect m
  | OpOn e cb => Manager.on e cb m
  | OpOff e cb => Manager.off e cb m
  | OpEmit e d => Manager.emit e d m
  | OpTransport up => Manager.transport up m
  end.

(** How often a listener is attached by the calls made on a socket. *)
Definition attachments (event : string) (cb : nat) (cs : list Manager.SocketCall) : nat :=
  length (List.filter
            (fun c => match c with
                      | Manager.On e (Manager.Listener n) =>
                          String.eqb e event && Nat.eqb n cb
                      | _ => false
                      end) cs).

(** ** Sample data *)

Module Sample.
Definition alice : Person.t := Person.mk "u1" "Alice" "Ames" "alice@example.org" None.
Definition bob : Person.t := Person.mk "u2" "Bob" "Beck" "bob@example.org" None.

(** A message from Alice, to a channel or to a person. *)
Definition message (id : string) (channel : option string)
    (recipient : option Person.t) : Message.t :=
  Message.mk id "hello" alice recipient channel None [] [] false None []
    "2024-01-01T10:00:00Z" "2024-01-01T10:00:00Z".

Definition task (id : string) (status : TaskStatus) : Task.t :=
  Task.mk id "Write spec" None status high [] alice None None None None []
    [] [] [] [] None None 0 "2024-01-01T10:00:00Z" "2024-01-01T10:00:00Z".

(** A fresh page on [/tasks] with a connected socket. *)
Definition fresh : World :=
  mkWorld
    (mkStores MessageState.init TaskState.init AuthState.init ∅
       {["auth-storage" := "token"]} "/tasks" (SocketManager.mk (Some true)))
    0 [] [] [].

(** The same page with the channel [general] open. *)
Definition in_general : World :=
  with_stores
    (set_messageStore (MessageState.set_activeChannel (Some "general"))) fresh.

(** A board with two cached tasks, the second one also open. *)
Definition board : World :=
  with_stores
    (set_taskStore (fun s =>
       TaskState.set_tasks [task "t1" todo; task "t2" in_progress]
         (TaskState.set_currentTask (Some (task "t2" in_progress)) s)))
    fresh.

(** A 401 answer of the backend. *)
Definition unauthorized : AxiosError.t :=
  AxiosError.mk
    (Some (ErrorResponse.mk 401 (Some "Unauthorized")
             (DataObject (Some "Invalid token"))))
    true "Request failed with status code 401".

(** A manager, and the page after signing in. *)
Definition carol : User.t :=
  User.mk "u3" "carol@example.org" "Carol" "Cole" User.manager None None None
    "UTC" true true (User.mkPrefs true true true true true false) "Carol Cole".

Definition signed_in : World :=
  with_stores
    (set_authStore (fun _ => AuthState.mk (Some carol) (Some "tok") true false None))
    fresh.
End Sample.

(** * Properties *)

Section JsFacts.
Lemma strict_eq_true s o : Js.strict_eq s o = true <-> o = Some s.
Proof.
  destruct o as [x|]; simpl; [|split; discriminate].
  rewrite String.eqb_eq. split; [intros ->; reflexivity | congruence].
Qed.

Lemma truthy_true o : Js.truthy o = true <-> exists x, o = Some x /\ x <> "".
Proof.
  destruct o as [x|]; simpl.
  - rewrite negb_true_iff, String.eqb_neq. split.
    + intros H. exists x. split; [reflexivity | exact H].
    + intros (y & Hy & Hne). congruence.
  - split; [discriminate | intros (y & Hy & _); discriminate].
Qed.
End JsFacts.

(** ** Running programs *)

Lemma exec_bind {A B : Type} (p : Prog A) (k : A -> Prog B) (w : World) :
  exec (bind p k) w =
  match exec p w with
  | (w1, Returned a) => exec (k a) w1
  | (w1, Raised e) => (w1, Raised e)
  | (w1, Awaiting R rq g) => (w1, Awaiting R rq (fun o => bind (g o) k))
  end.
Proof.
  revert w. induction p; intros w; simpl; auto.
  destruct (exec p1 w) as [w1 st]. apply IHp2.
Qed.

Lemma exec_try_catch {A : Type} (p : Prog A) (h : Thrown -> Prog A) (w : World) :
  exec (try_catch p h) w =
  match exec p w with
  | (w1, Returned a) => (w1, Returned a)
  | (w1, Raised e) => exec (h e) w1
  | (w1, Awaiting R rq g) => (w1, Awaiting R rq (fun o => try_catch (g o) h))
  end.
Proof.
  revert w. induction p; intros w; simpl; auto.
  destruct (exec p1 w) as [w1 st]. apply IHp2.
Qed.

(** ** The axios client *)

Lemma responseRejected_exec {A : Type} (error : AxiosError.t) (w : World) :
  exec (@Api.responseRejected A error) w =
  (after_rejection error w, Raised (Rejected (Api.normalize error))).
Proof.
  unfold Api.responseRejected, after_rejection.
  destruct (AxiosError.has_status 401 error); cbn; [|reflexivity].
  destruct (negb _); reflexivity.
Qed.

Lemma after_rejection_stores (error : AxiosError.t) (w : World) :
  messageStore (stores (after_rejection error w)) = messageStore (stores w)
  /\ taskStore (stores (after_rejection error w)) = taskStore (stores w)
  /\ authStore (stores (after_rejection error w)) = authStore (stores w)
  /\ headers (stores (after_rejection error w)) = headers (stores w).
Proof.
  unfold after_rejection. destruct (AxiosError.has_status 401 error); [|auto].
  destruct (negb _); auto.
Qed.

Lemma after_rejection_events (error : AxiosError.t) (w : World) :
  AxiosError.has_status 401 error = true ->
  new_events w (after_rejection error w)
  = StorageRemove "auth-storage"
      :: (if negb (String.eqb (pathname (stores w)) "/login")
          then [LocationAssign "/login"] else []).
Proof.
  intros H. unfold new_events, after_rejection. rewrite H.
  destruct (negb _); simpl; rewrite <- ?app_assoc; apply drop_app_length.
Qed.

Lemma normalize_status (code : Z) (error : AxiosError.t) :
  AxiosError.has_status code error = true ->
  AxiosError.has_status code (Api.normalize error) = true.
Proof.
  destruct error as [[[st txt d]|] rq msg]; [|discriminate].
  destruct d; simpl; auto.
Qed.

(** C7 (401 side effect).  Every call of the client hands one request to
    the transport and suspends in the interceptors.  When the transport
    answers with status 401, the interceptor removes the [auth-storage] entry
    exactly once, sends the browser to [/login] unless it is there already,
    rejects with the normalized error (still carrying 401), and sends no
    further request: nothing is retried, nothing is left pending. *)
Theorem unauthorized_clears_credential (R : Type) (m : Method) (url : string)
    (body : Body) (w w2 : World) (error : AxiosError.t) :
  AxiosError.has_status 401 error = true ->
  exec (Api.request R m url body) w
    = (emit_event (Sent (Request.mk m url body)) w,
       Awaiting R (Request.mk m url body) Api.interceptors)
  /\ (exec (@Api.interceptors R (inr error)) w2).2
       = Raised (Rejected (Api.normalize error))
  /\ AxiosError.has_status 401 (Api.normalize error) = true
  /\ localStorage (stores (exec (@Api.interceptors R (inr error)) w2).1)
       !! "auth-storage" = None
  /\ removals "auth-storage"
       (new_events w2 (exec (@Api.interceptors R (inr error)) w2).1) = 1%nat
  /\ requests (new_events w2 (exec (@Api.interceptors R (inr error)) w2).1) = []
  /\ pool (exec (@Api.interceptors R (inr error)) w2).1 = pool w2
  /\ timers (exec (@Api.interceptors R (inr error)) w2).1 = timers w2
  /\ (pathname (stores w2) <> "/login" ->
        In (LocationAssign "/login")
           (new_events w2 (exec (@Api.interceptors R (inr error)) w2).1)).
Proof.
  intros H401. split; [reflexivity|].
  simpl Api.interceptors. rewrite responseRejected_exec. simpl fst. simpl snd.
  split; [reflexivity|]. split; [apply normalize_status, H401|].
  rewrite (after_rejection_events _ _ H401).
  unfold after_rejection. rewrite H401.
  split; [destruct (negb _); simpl; apply lookup_delete_eq|].
  split; [destruct (negb _); reflexivity|].
  split; [destruct (negb _); reflexivity|].
  split; [destruct (negb _); reflexivity|].
  split; [destruct (negb _); reflexivity|].
  intros Hne. apply String.eqb_neq in Hne. rewrite Hne. simpl. auto.
Qed.

Lemma unauthorized_clears_credential_witness :
  localStorage (stores Sample.fresh) !! "auth-storage" = Some "token"
  /\ localStorage (stores
        (exec (@Api.interceptors unit (inr Sample.unauthorized)) Sample.fresh).1)
       !! "auth-storage" = None
  /\ removals "auth-storage"
       (new_events Sample.fresh
          (exec (@Api.interceptors unit (inr Sample.unauthorized)) Sample.fresh).1)
     = 1%nat.
Proof.
  destruct (unauthorized_clears_credential unit GET "/tasks/my" NoBody
              Sample.fresh Sample.fresh Sample.unauthorized eq_refl)
    as (_ & _ & _ & Hgone & Hone & _).
  split; [reflexivity|]. split; [exact Hgone | exact Hone].
Defined.

(** ** The message store *)

Section MessageStoreFacts.
Import MessageState MessageStore.

(** [fetchUnreadCount] sends [GET /messages/unread] and suspends; when the
    call settles, the counters are replaced by the payload, or kept on a
    failure. *)
Lemma fetchUnreadCount_spec :
  exists k : Response.t UnreadCount.t + AxiosError.t -> Prog unit,
    (forall w, call fetchUnreadCount w =
               add_pending (Pend UnreadCount.t unread_request k)
                 (emit_event (Sent unread_request) w))
    /\ (forall w r, exec (k (inl r)) w =
          (with_stores (set_messageStore (set_unreadCount (Response.data r))) w,
           Returned tt))
    /\ (forall w e, (exec (k (inr e)) w).2 = Returned tt /\
          messageStore (stores (exec (k (inr e)) w).1) = messageStore (stores w)).
Proof.
  eexists. split; [|split].
  - intros w. reflexivity.
  - intros w r. reflexivity.
  - intros w e. cbn. unfold Api.responseRejected.
    destruct (AxiosError.has_status 401 e); cbn.
    + destruct (negb _); cbn; auto.
    + auto.
Qed.

Lemma addMessage_call m w :
  call (addMessage m) w =
  call fetchUnreadCount (with_stores (set_messageStore (merge_message m)) w).
Proof.
  destruct w as [[ms ts au hd ls pn sk] c tm pl tr].
  unfold call, addMessage, merge_message, with_stores, set_messageStore. cbn.
  destruct (relevant m ms); cbn; [|reflexivity].
  destruct (cached _ _); cbn; reflexivity.
Qed.

Lemma addMessage_store m w :
  messageStore (stores (call (addMessage m) w)) =
  merge_message m (messageStore (stores w)).
Proof. rewrite addMessage_call. reflexivity. Qed.

Lemma addMessage_trace m w :
  trace (call (addMessage m) w) = trace w ++ [Sent unread_request].
Proof. rewrite addMessage_call. reflexivity. Qed.

Lemma merge_message_scope m s :
  activeChannel (merge_message m s) = activeChannel s /\
  activeRecipient (merge_message m s) = activeRecipient s.
Proof. unfold merge_message. destruct (_ && _); auto. Qed.

Lemma relevant_scope m s s' :
  activeChannel s = activeChannel s' ->
  activeRecipient s = activeRecipient s' ->
  relevant m s = relevant m s'.
Proof. intros Hc Hr. unfold relevant. rewrite Hc, Hr. reflexivity. Qed.

Lemma copies_app id a b : copies id (a ++ b) = (copies id a + copies id b)%nat.
Proof. unfold copies. rewrite filter_app, length_app. reflexivity. Qed.

Lemma copies_single id m :
  copies id [m] = if decide (Message._id m = id) then 1%nat else 0%nat.
Proof. unfold copies. rewrite filter_cons, filter_nil. destruct (decide _); reflexivity. Qed.

Lemma cached_copies id ms : cached id ms = true <-> (0 < copies id ms)%nat.
Proof.
  unfold cached, copies. induction ms as [|m ms IH]; simpl.
  - split; [discriminate | lia].
  - rewrite filter_cons. rewrite orb_true_iff, IH, String.eqb_eq.
    destruct (decide (Message._id m = id)); simpl; split; intros; auto; try lia.
    destruct H; [contradiction | assumption].
Qed.

Lemma cached_false_copies id ms : cached id ms = false <-> copies id ms = 0%nat.
Proof.
  pose proof (cached_copies id ms) as H. destruct (cached id ms).
  - split; [discriminate|]. intros E. apply proj1 in H. specialize (H eq_refl). lia.
  - split; auto. intros _. destruct (copies id ms); [reflexivity|].
    apply proj2 in H. discriminate H. lia.
Qed.

(** A relevant message is in the list once merged, and a merge never
    brings the number of copies of an id above one. *)
Lemma merge_message_present m s :
  relevant m s = true ->
  (1 <= copies (Message._id m) (messages (merge_message m s)))%nat.
Proof.
  intros Hr. unfold merge_message. rewrite Hr. simpl.
  destruct (cached _ _) eqn:Hc; simpl.
  - apply cached_copies in Hc. lia.
  - rewrite copies_app, copies_single. destruct (decide _); [lia | congruence].
Qed.

Lemma merge_message_mono id m s :
  (copies id (messages s) <= copies id (messages (merge_message m s)))%nat.
Proof.
  unfold merge_message. destruct (_ && _); simpl; [|lia].
  rewrite copies_app. lia.
Qed.

Lemma merge_message_le_one id m s :
  (copies id (messages s) <= 1)%nat ->
  (copies id (messages (merge_message m s)) <= 1)%nat.
Proof.
  intros H. unfold merge_message.
  destruct (relevant m s); simpl; [|exact H].
  destruct (cached _ _) eqn:Hc; simpl; [exact H|].
  rewrite copies_app, copies_single. destruct (decide _) as [<-|]; [|lia].
  apply cached_false_copies in Hc. lia.
Qed.

Lemma merge_message_cached m s :
  cached (Message._id m) (messages s) = true -> merge_message m s = s.
Proof. intros H. unfold merge_message. rewrite H, andb_false_r. reflexivity. Qed.

Lemma deliver_app a b w : deliver (a ++ b) w = deliver b (deliver a w).
Proof. unfold deliver. apply foldl_app. Qed.

Lemma deliver_cons m ms w : deliver (m :: ms) w = deliver ms (call (addMessage m) w).
Proof. reflexivity. Qed.

Lemma deliver_scope ms w :
  activeChannel (messageStore (stores (deliver ms w))) =
    activeChannel (messageStore (stores w)) /\
  activeRecipient (messageStore (stores (deliver ms w))) =
    activeRecipient (messageStore (stores w)).
Proof.
  revert w. induction ms as [|m ms IH]; intros w; [auto|].
  rewrite deliver_cons. destruct (IH (call (addMessage m) w)) as [-> ->].
  rewrite addMessage_store. apply merge_message_scope.
Qed.

Lemma deliver_mono id ms w :
  (copies id (visible w) <= copies id (visible (deliver ms w)))%nat.
Proof.
  revert w. induction ms as [|m ms IH]; intros w; [reflexivity|].
  rewrite deliver_cons. etransitivity; [|apply IH].
  unfold visible. rewrite addMessage_store. apply merge_message_mono.
Qed.

Lemma deliver_le_one id ms w :
  (copies id (visible w) <= 1)%nat ->
  (copies id (visible (deliver ms w)) <= 1)%nat.
Proof.
  revert w. induction ms as [|m ms IH]; intros w H; [exact H|].
  rewrite deliver_cons. apply IH.
  unfold visible. rewrite addMessage_store. apply merge_message_le_one, H.
Qed.


(** C1 (dedup).  A message whose id is already cached is not appended
    again.  When two deliveries in a sequence of [addMessage] calls carry the
    same id, the first of them matching the active scope (the second may or
    may not), and the list held at most one message of that id beforehand,
    the second delivery leaves the list as it is and the list ends with
    exactly one message of that id. *)
Theorem addMessage_dedup (w : World) (pre mid post : list Message.t)
    (m1 m2 : Message.t) :
  Message._id m1 = Message._id m2 ->
  relevant m1 (messageStore (stores w)) = true ->
  (copies (Message._id m1) (visible w) <= 1)%nat ->
  (forall m w', cached (Message._id m) (visible w') = true ->
                visible (call (addMessage m) w') = visible w')
  /\ visible (deliver (pre ++ m1 :: mid ++ [m2]) w)
     = visible (deliver (pre ++ m1 :: mid) w)
  /\ copies (Message._id m1)
       (visible (deliver (pre ++ m1 :: mid ++ m2 :: post) w)) = 1%nat.
Proof.
  intros Hid Hr1 Hle.
  assert (Hcached : forall m w', cached (Message._id m) (visible w') = true ->
                      visible (call (addMessage m) w') = visible w').
  { intros m w' Hc. unfold visible. rewrite addMessage_store.
    rewrite merge_message_cached; auto. }
  assert (Hone : (1 <= copies (Message._id m1)
                        (visible (deliver (pre ++ [m1]) w)))%nat).
  { rewrite deliver_app. simpl. unfold visible. rewrite addMessage_store.
    apply merge_message_present.
    destruct (deliver_scope pre w) as [Hc Hrc].
    rewrite (relevant_scope m1 _ (messageStore (stores w))); auto. }
  split; [exact Hcached|]. split.
  - replace (pre ++ m1 :: mid ++ [m2]) with ((pre ++ m1 :: mid) ++ [m2])
      by (rewrite <- app_assoc; reflexivity).
    rewrite deliver_app. simpl. apply Hcached.
    apply cached_copies. rewrite <- Hid.
    replace (pre ++ m1 :: mid) with ((pre ++ [m1]) ++ mid)
      by (rewrite <- app_assoc; reflexivity).
    rewrite deliver_app.
    eapply Nat.lt_le_trans; [|apply deliver_mono]. lia.
  - apply Nat.le_antisymm.
    + apply deliver_le_one, Hle.
    + replace (pre ++ m1 :: mid ++ m2 :: post)
        with ((pre ++ [m1]) ++ mid ++ m2 :: post)
        by (rewrite <- app_assoc; reflexivity).
      rewrite deliver_app.
      etransitivity; [exact Hone | apply deliver_mono].
Qed.

Lemma addMessage_dedup_witness :
  copies "m1"
    (visible (deliver [Sample.message "m1" (Some "general") None;
                       Sample.message "m2" (Some "general") None;
                       Sample.message "m1" (Some "general") None]
                Sample.in_general)) = 1%nat.
Proof.
  refine (proj2 (proj2 (addMessage_dedup Sample.in_general []
            [Sample.message "m2" (Some "general") None] []
            (Sample.message "m1" (Some "general") None)
            (Sample.message "m1" (Some "general") None) _ _ _)));
    [reflexivity | reflexivity | vm_compute; lia].
Defined.

Lemma relevant_in_scope m s : relevant m s = true -> in_active_scope m s.
Proof.
  unfold relevant, in_active_scope. rewrite orb_true_iff. intros [H|H].
  - left. apply andb_true_iff in H as [_ H].
    destruct (Message.channel m) as [c|]; [|discriminate].
    exists c. split; [reflexivity|]. apply strict_eq_true, H.
  - right. destruct (Message.recipient m) as [r|]; [|discriminate].
    apply orb_true_iff in H as [H|H]; apply strict_eq_true in H.
    + exists (Person._id r). split; [exact H|]. right. exists r. auto.
    + exists (Person._id (Message.sender m)). split; [exact H|]. left. reflexivity.
Qed.

Lemma with_stores_id w : with_stores (set_messageStore (fun s => s)) w = w.
Proof. destruct w as [[? ? ? ? ? ? ?] ? ? ? ?]. reflexivity. Qed.

(** C2 (scope filtering).  [addMessage] appends the pushed message only
    if it belongs to the active scope; a message of another scope leaves the
    visible list as it is, and the call is then exactly a call of
    [fetchUnreadCount], which sends [GET /messages/unread]. *)
Theorem addMessage_scope_filter (w : World) (m : Message.t) :
  (visible (call (addMessage m) w) = visible w
   \/ (visible (call (addMessage m) w) = visible w ++ [m]
       /\ in_active_scope m (messageStore (stores w))))
  /\ (~ in_active_scope m (messageStore (stores w)) ->
        visible (call (addMessage m) w) = visible w
        /\ call (addMessage m) w = call fetchUnreadCount w
        /\ new_events w (call (addMessage m) w) = [Sent unread_request]).
Proof.
  split.
  - unfold visible. rewrite addMessage_store. unfold merge_message.
    destruct (relevant m _) eqn:Hr; simpl; [|left; reflexivity].
    destruct (cached _ _); simpl; [left; reflexivity|].
    right. split; [reflexivity | apply relevant_in_scope, Hr].
  - intros Hout.
    assert (Hr : relevant m (messageStore (stores w)) = false).
    { destruct (relevant m _) eqn:Hr; [|reflexivity].
      destruct Hout. apply relevant_in_scope, Hr. }
    assert (Hcall : call (addMessage m) w = call fetchUnreadCount w).
    { rewrite addMessage_call. rewrite <- (with_stores_id w) at 2.
      f_equal. destruct w as [[ms ? ? ? ? ? ?] ? ? ? ?]. simpl in *.
      unfold with_stores, set_messageStore, merge_message. simpl.
      rewrite Hr. reflexivity. }
    split; [|split].
    + unfold visible. rewrite addMessage_store. unfold merge_message.
      rewrite Hr. reflexivity.
    + exact Hcall.
    + unfold new_events. rewrite addMessage_trace. apply drop_app_length.
Qed.

Lemma addMessage_scope_filter_witness :
  visible (call (addMessage (Sample.message "m9" (Some "random") None))
             Sample.in_general) = visible Sample.in_general
  /\ new_events Sample.in_general
       (call (addMessage (Sample.message "m9" (Some "random") None))
          Sample.in_general) = [Sent unread_request].
Proof.
  destruct (proj2 (addMessage_scope_filter Sample.in_general
                     (Sample.message "m9" (Some "random") None)))
    as (Hv & _ & Hev).
  - intros [(c & Hc & Ha) | (u & Hu & _)]; simpl in *; congruence.
  - split; [exact Hv | exact Hev].
Defined.

(** *** Switching the active scope *)

Lemma setActiveChannel_scope (c : option string) (w : World) :
  activeChannel (messageStore (stores (call (setActiveChannel c) w))) = c
  /\ activeRecipient (messageStore (stores (call (setActiveChannel c) w))) = None.
Proof.
  destruct w as [[ms ts au hd ls pn sk] cl tm pl tr].
  unfold call, setActiveChannel. cbn.
  destruct (activeChannel ms) as [prev|]; cbn.
  - destruct (negb (String.eqb prev "")); cbn;
      [destruct (SocketManager.connected sk); cbn|];
      (destruct c as [x|]; cbn; [destruct (negb (String.eqb x "")); cbn|]; auto).
  - destruct c as [x|]; cbn; [destruct (negb (String.eqb x "")); cbn|]; auto.
Qed.

Lemma setActiveRecipient_scope (u : option string) (w : World) :
  activeRecipient (messageStore (stores (call (setActiveRecipient u) w))) = u
  /\ activeChannel (messageStore (stores (call (setActiveRecipient u) w))) = None.
Proof.
  destruct w as [[ms ts au hd ls pn sk] cl tm pl tr].
  unfold call, setActiveRecipient. cbn.
  destruct u as [x|]; cbn; [destruct (negb (String.eqb x "")); cbn|]; auto.
Qed.

(** The history fetch a setter starts keeps the selection when it is
    settled, whatever the outcome and whatever happened in between. *)
Lemma fetchChannelMessages_settled_scope (c : string) (w : World) :
  exists k : Response.t Payload.MessagesData + AxiosError.t -> Prog unit,
    (exec (fetchChannelMessages c) w).2
      = Awaiting Payload.MessagesData
          (Request.mk GET ("/messages/channel/" +:+ c) NoBody) k
    /\ forall o w2,
         activeChannel (messageStore (stores (exec (k o) w2).1))
           = activeChannel (messageStore (stores w2))
         /\ activeRecipient (messageStore (stores (exec (k o) w2).1))
           = activeRecipient (messageStore (stores w2)).
Proof.
  eexists. split; [reflexivity|]. intros [r|e] w2.
  - cbn. destruct (SocketManager.connected _); cbn; auto.
  - rewrite exec_try_catch, exec_bind. simpl Api.interceptors.
    rewrite responseRejected_exec. cbn.
    destruct (after_rejection_stores e w2) as (-> & _). auto.
Qed.

Lemma fetchDirectMessages_settled_scope (u : string) (w : World) :
  exists k : Response.t Payload.MessagesData + AxiosError.t -> Prog unit,
    (exec (fetchDirectMessages u) w).2
      = Awaiting Payload.MessagesData
          (Request.mk GET ("/messages/dm/" +:+ u) NoBody) k
    /\ forall o w2,
         activeChannel (messageStore (stores (exec (k o) w2).1))
           = activeChannel (messageStore (stores w2))
         /\ activeRecipient (messageStore (stores (exec (k o) w2).1))
           = activeRecipient (messageStore (stores w2)).
Proof.
  eexists. split; [reflexivity|]. intros [r|e] w2.
  - cbn. auto.
  - rewrite exec_try_catch, exec_bind. simpl Api.interceptors.
    rewrite responseRejected_exec. cbn.
    destruct (after_rejection_stores e w2) as (-> & _). auto.
Qed.

(** C5 (mutual exclusivity).  [setActiveRecipient(u)] after
    [setActiveChannel(c)] leaves [activeChannel] null, [setActiveChannel(c)]
    after [setActiveRecipient(u)] leaves [activeRecipient] null, and after
    either setter one of the two selections is null. *)
Theorem active_scope_exclusive (w : World) (c u : option string) :
  activeChannel (messageStore (stores
      (call (setActiveRecipient u) (call (setActiveChannel c) w)))) = None
  /\ activeRecipient (messageStore (stores
      (call (setActiveChannel c) (call (setActiveRecipient u) w)))) = None
  /\ (activeChannel (messageStore (stores (call (setActiveChannel c) w))) = c
      /\ activeRecipient (messageStore (stores (call (setActiveChannel c) w))) = None)
  /\ (activeRecipient (messageStore (stores (call (setActiveRecipient u) w))) = u
      /\ activeChannel (messageStore (stores (call (setActiveRecipient u) w))) = None).
Proof.
  split; [apply setActiveRecipient_scope|].
  split; [apply setActiveChannel_scope|].
  split; [apply setActiveChannel_scope | apply setActiveRecipient_scope].
Qed.

(** *** Leaving the previous channel *)

(** [setActiveChannel] leaves the previous channel: with a connected socket
    its first event is [channel:leave] for the channel that was active. *)
Lemma setActiveChannel_leaves_previous (w : World) (prev : string)
    (next : option string) :
  activeChannel (messageStore (stores w)) = Some prev ->
  prev <> "" ->
  SocketManager.connected (socketManager (stores w)) = true ->
  exists rest,
    new_events w (call (setActiveChannel next) w)
    = SocketEmit "channel:leave" prev :: rest.
Proof.
  destruct w as [[ms ts au hd ls pn sk] cl tm pl tr]. simpl.
  intros Hprev Hne Hconn. apply String.eqb_neq in Hne.
  unfold new_events, call, setActiveChannel. cbn.
  rewrite Hprev. cbn. rewrite Hne. cbn. rewrite Hconn. cbn.
  destruct next as [x|]; cbn; [destruct (negb (String.eqb x "")); cbn|];
    rewrite <- ?app_assoc, drop_app_length; eexists; reflexivity.
Qed.

(** [setActiveRecipient] sends nothing on the socket: all it adds to the
    trace is the history request. *)
Lemma setActiveRecipient_events (w : World) (u : option string) :
  new_events w (call (setActiveRecipient u) w)
  = match u with
    | Some x =>
        if Js.truthy (Some x)
        then [Sent (Request.mk GET ("/messages/dm/" +:+ x) NoBody)]
        else []
    | None => []
    end.
Proof.
  destruct w as [[ms ts au hd ls pn sk] cl tm pl tr].
  unfold new_events, call, setActiveRecipient. cbn.
  destruct u as [x|]; cbn; [destruct (negb (String.eqb x "")); cbn|];
    rewrite ?drop_app_length; try reflexivity;
    rewrite <- (app_nil_r tr) at 2; apply drop_app_length.
Qed.

(** C6 (leaving the previous channel), evaluated.  With [general] active
    and the socket connected, [setActiveRecipient("u2")] clears the active
    channel and sends only the history request, no [channel:leave]; from the
    same state [setActiveChannel("random")] does send [channel:leave] for
    [general]. *)
Theorem setActiveRecipient_keeps_subscription :
  activeChannel (messageStore (stores Sample.in_general)) = Some "general"
  /\ SocketManager.connected (socketManager (stores Sample.in_general)) = true
  /\ new_events Sample.in_general
       (call (setActiveRecipient (Some "u2")) Sample.in_general)
     = [Sent (Request.mk GET "/messages/dm/u2" NoBody)]
  /\ activeChannel (messageStore (stores
       (call (setActiveRecipient (Some "u2")) Sample.in_general))) = None
  /\ new_events Sample.in_general
       (call (setActiveChannel (Some "random")) Sample.in_general)
     = [SocketEmit "channel:leave" "general";
        Sent (Request.mk GET "/messages/channel/random" NoBody)].
Proof. repeat split. Qed.

(** *** Unread counters *)

(** C8, as stated, fails for [sendMessage].  Sending to [general] from the
    sample page and settling the call with the stored message appends the
    message and nothing else: the only request in the whole trace is the
    [POST], no call is left pending, so no [GET /messages/unread] was or will
    be sent, and the counters are the ones from before. *)
Lemma sendMessage_skips_unread_refresh :
  exists k : Response.t Payload.MessageData + AxiosError.t -> Prog unit,
    let data := mkSendData "hello" (Some "general") None None in
    let rq := Request.mk POST "/messages"
                (MessageBody "hello" (Some "general") None None) in
    let stored := Sample.message "m1" (Some "general") None in
    exec (sendMessage data) Sample.in_general
      = (emit_event (Sent rq) Sample.in_general, Awaiting Payload.MessageData rq k)
    /\ let r := exec (k (inl (Response.mk 201 (Payload.mkMessage stored))))
                  (emit_event (Sent rq) Sample.in_general) in
       r.2 = Returned tt
       /\ visible r.1 = [stored]
       /\ requests (trace r.1) = [rq]
       /\ ~ In unread_request (requests (trace r.1))
       /\ pool r.1 = []
       /\ unreadCount (messageStore (stores r.1))
          = unreadCount (messageStore (stores Sample.in_general)).
Proof.
  eexists. cbv zeta. split; [reflexivity|].
  repeat split. intros [H|[]]. discriminate H.
Qed.

(** C8, amended.  Every [addMessage] call sends [GET /messages/unread]
    and leaves the counters alone until the answer is there; the answer
    replaces the counters wholesale, a failure keeps them.  [sendMessage],
    settled with a response, appends the returned message and neither sends
    a request nor touches the counters. *)
Theorem unread_refresh_on_addMessage (w : World) (m : Message.t)
    (data : SendData) :
  (exists k : Response.t UnreadCount.t + AxiosError.t -> Prog unit,
      new_events w (call (addMessage m) w) = [Sent unread_request]
      /\ pool (call (addMessage m) w)
         = pool w ++ [Pend UnreadCount.t unread_request k]
      /\ unreadCount (messageStore (stores (call (addMessage m) w)))
         = unreadCount (messageStore (stores w))
      /\ (forall w2 r,
            unreadCount (messageStore (stores (exec (k (inl r)) w2).1))
            = Response.data r)
      /\ (forall w2 e,
            unreadCount (messageStore (stores (exec (k (inr e)) w2).1))
            = unreadCount (messageStore (stores w2))))
  /\ (exists k : Response.t Payload.MessageData + AxiosError.t -> Prog unit,
        (exec (sendMessage data) w).2
          = Awaiting Payload.MessageData
              (Request.mk POST "/messages"
                 (MessageBody (content data) (channel data) (recipient data)
                    (mentions data))) k
        /\ forall w2 r,
             (exec (k (inl r)) w2).2 = Returned tt
             /\ visible (exec (k (inl r)) w2).1
                = visible w2 ++ [Payload.message (Response.data r)]
             /\ trace (exec (k (inl r)) w2).1 = trace w2
             /\ pool (exec (k (inl r)) w2).1 = pool w2
             /\ unreadCount (messageStore (stores (exec (k (inl r)) w2).1))
                = unreadCount (messageStore (stores w2))).
Proof.
  split.
  - destruct fetchUnreadCount_spec as (k & Hcall & Hok & Hfail).
    exists k. rewrite addMessage_call, Hcall.
    split; [unfold new_events; simpl; apply drop_app_length|].
    split; [reflexivity|].
    split; [simpl; unfold merge_message; destruct (_ && _); reflexivity|].
    split.
    + intros w2 r. rewrite Hok. reflexivity.
    + intros w2 e. destruct (Hfail w2 e) as [_ ->]. reflexivity.
  - eexists. split; [reflexivity|]. intros w2 r. repeat split.
Qed.

(** *** Typing indicators *)

Lemma advance_eq (fuel : nat) (t : Z) (w : World) :
  advance fuel t w =
  match pick_timer (timers w) with
  | Some ((due, cb), rest) =>
      if due <=? t then
        match fuel with
        | O => w
        | S n => advance n t (call cb (set_clock due (set_timers rest w)))
        end
      else set_clock t w
  | None => set_clock t w
  end.
Proof. destruct fuel; reflexivity. Qed.

Lemma setTyping_call (u : string) (w : World) :
  call (setTyping u true) w =
  add_timer (clock w + 3000) (clearTyping u)
    (with_stores (set_messageStore (fun state =>
       set_typingUsers (<[u := true]> (typingUsers state)) state)) w).
Proof. reflexivity. Qed.

Lemma clearTyping_call (u : string) (w : World) :
  call (clearTyping u) w =
  with_stores (set_messageStore (fun state =>
    set_typingUsers (<[u := false]> (typingUsers state)) state)) w.
Proof. reflexivity. Qed.

(** One pending clear: the flag is up until the clear is due and down
    from then on. *)
Lemma advance_one_clear (u : string) (due : Z) (w : World) :
  timers w = [(due, clearTyping u)] ->
  typing u w = Some true ->
  (forall fuel t, t < due -> typing u (advance fuel t w) = Some true)
  /\ (forall fuel t, due <= t -> typing u (advance (S fuel) t w) = Some false).
Proof.
  intros Htm Hup. split; intros fuel t Ht.
  - rewrite advance_eq, Htm. simpl.
    destruct (Z.leb_spec due t); [lia | exact Hup].
  - rewrite advance_eq, Htm. simpl.
    destruct (Z.leb_spec due t); [|lia].
    rewrite advance_eq, clearTyping_call. simpl.
    unfold typing. simpl. apply lookup_insert_eq.
Qed.

(** Two pending clears: the flag goes down when the earlier one is due,
    and the later one finds it down. *)
Lemma advance_two_clears (u : string) (d1 d2 : Z) (w : World) :
  timers w = [(d1, clearTyping u); (d2, clearTyping u)] ->
  d1 <= d2 ->
  typing u w = Some true ->
  (forall fuel t, t < d1 -> typing u (advance fuel t w) = Some true)
  /\ (forall fuel t, d1 <= t -> typing u (advance (S (S fuel)) t w) = Some false).
Proof.
  intros Htm Hle Hup.
  assert (Hpick : pick_timer (timers w)
                  = Some ((d1, clearTyping u), [(d2, clearTyping u)])).
  { rewrite Htm. simpl. destruct (Z.ltb_spec d2 d1); [lia | reflexivity]. }
  split; intros fuel t Ht.
  - rewrite advance_eq, Hpick.
    destruct (Z.leb_spec d1 t); [lia | exact Hup].
  - rewrite advance_eq, Hpick.
    destruct (Z.leb_spec d1 t); [|lia].
    rewrite advance_eq, clearTyping_call. simpl.
    destruct (Z.leb_spec d2 t).
    + rewrite advance_eq, clearTyping_call. simpl.
      unfold typing. simpl. apply lookup_insert_eq.
    + unfold typing. simpl. apply lookup_insert_eq.
Qed.

(** C9, as stated, fails when the flag is set again inside the window.
    [setTyping("u1", true)] at 0 ms and again at 2000 ms: at 3500 ms, which
    is less than 3 seconds after the second call, the flag is already
    false. *)
Lemma setTyping_rearm_clears_early :
  let w1 := call (setTyping "u1" true) Sample.fresh in
  let w2 := call (setTyping "u1" true) (advance 0 2000 w1) in
  clock Sample.fresh = 0
  /\ clock w2 = 2000
  /\ typing "u1" w2 = Some true
  /\ clock (advance 2 3500 w2) = 3500
  /\ 3500 < 2000 + 3000
  /\ typing "u1" (advance 2 3500 w2) = Some false.
Proof. cbv zeta. repeat split. Qed.

(** C9, amended.  With no timer pending, [setTyping(u, true)] raises the
    flag; if no further call is made the flag stays up at every time before
    3000 ms have passed and is down at every time from then on, the timer
    queue then being empty.  A second [setTyping(u, true)] inside the window
    does not move the first clear: the flag stays up until 3000 ms after the
    first call and is down from then on. *)
Theorem setTyping_auto_clear (w : World) (u : string) :
  timers w = [] ->
  typing u (call (setTyping u true) w) = Some true
  /\ (forall fuel t, t < clock w + 3000 ->
        typing u (advance fuel t (call (setTyping u true) w)) = Some true)
  /\ (forall fuel t, clock w + 3000 <= t ->
        typing u (advance (S fuel) t (call (setTyping u true) w)) = Some false
        /\ timers (advance (S fuel) t (call (setTyping u true) w)) = []
        /\ clock (advance (S fuel) t (call (setTyping u true) w)) = t)
  /\ (forall fuel t1, clock w <= t1 < clock w + 3000 ->
        typing u (call (setTyping u true)
                    (advance fuel t1 (call (setTyping u true) w))) = Some true
        /\ (forall fuel' t, t < clock w + 3000 ->
              typing u (advance fuel' t
                          (call (setTyping u true)
                             (advance fuel t1 (call (setTyping u true) w))))
              = Some true)
        /\ (forall fuel' t, clock w + 3000 <= t ->
              typing u (advance (S (S fuel')) t
                          (call (setTyping u true)
                             (advance fuel t1 (call (setTyping u true) w))))
              = Some false)).
Proof.
  intros Htm.
  assert (Hup : forall w', typing u (call (setTyping u true) w') = Some true).
  { intros w'. rewrite setTyping_call. unfold typing. simpl.
    apply lookup_insert_eq. }
  assert (Htm1 : timers (call (setTyping u true) w)
                 = [(clock w + 3000, clearTyping u)]).
  { rewrite setTyping_call. simpl. rewrite Htm. reflexivity. }
  destruct (advance_one_clear u (clock w + 3000) _ Htm1 (Hup w)) as [Hin Hout].
  split; [apply Hup|]. split; [exact Hin|]. split.
  - intros fuel t Ht. split; [apply Hout, Ht|].
    rewrite advance_eq, Htm1. simpl.
    destruct (Z.leb_spec (clock w + 3000) t); [|lia].
    rewrite advance_eq, clearTyping_call. simpl.
    split; [reflexivity | lia].
  - intros fuel t1 Ht1.
    assert (Hadv : advance fuel t1 (call (setTyping u true) w)
                   = set_clock t1 (call (setTyping u true) w)).
    { rewrite advance_eq, Htm1. simpl.
      destruct (Z.leb_spec (clock w + 3000) t1); [lia | reflexivity]. }
    rewrite Hadv. split; [apply Hup|].
    apply (advance_two_clears u (clock w + 3000) (t1 + 3000)).
    + rewrite setTyping_call. simpl. rewrite Htm. simpl.
      replace (Z.max (clock w) t1) with t1 by lia. reflexivity.
    + lia.
    + apply Hup.
Qed.

Lemma setTyping_auto_clear_witness :
  typing "u1" (advance 0 2999 (call (setTyping "u1" true) Sample.fresh)) = Some true
  /\ typing "u1" (advance 1 3000 (call (setTyping "u1" true) Sample.fresh))
     = Some false.
Proof.
  destruct (setTyping_auto_clear Sample.fresh "u1" eq_refl)
    as (_ & Hin & Hout & _).
  split.
  - apply Hin. reflexivity.
  - apply Hout. discriminate.
Defined.

End MessageStoreFacts.

(** ** The task store *)

Section TaskStoreFacts.
Import TaskState TaskStore.

(** The text a [catch] block of the store reads from the interceptor's
    rejection is the surfaced text of the failure. *)
Lemma error_text_surfaced (error : AxiosError.t) (fallback : string) :
  Api.error_text (Rejected (Api.normalize error)) fallback
  = surfaced_text error fallback.
Proof.
  destruct error as [[[st [stx|] [page|[text|]]]|] [|] msg]; reflexivity.
Qed.

(** The failure path shared by the five mutating methods. *)
Lemma mutation_failure {A R : Type} (f : Response.t R -> Prog A)
    (fallback : string) (error : AxiosError.t) (w : World) :
  exec (try_catch (bind (Api.interceptors (inr error)) f)
          (fun e => Throw (JsError (Api.error_text e fallback)))) w
  = (after_rejection error w, Raised (JsError (surfaced_text error fallback))).
Proof.
  rewrite exec_try_catch, exec_bind. simpl Api.interceptors.
  rewrite responseRejected_exec. cbn -[Api.error_text Api.normalize surfaced_text].
  rewrite error_text_surfaced. reflexivity.
Qed.

(** A method of the shape
    [try { response = await api.m(url, body); f(response) }
     catch (error) { throw new Error(text(error) || fallback) }]
    is confirm-then-patch when [f] patches the store by [patch]. *)
Lemma confirm_then_patch_intro {A R : Type} (m : Method) (url : string)
    (body : Body) (f : Response.t R -> Prog A) (fallback : string)
    (patch : R -> TaskState.t -> TaskState.t) :
  (forall r w,
      taskStore (stores (exec (try_catch (f r)
          (fun e => Throw (JsError (Api.error_text e fallback)))) w).1)
      = patch (Response.data r) (taskStore (stores w))) ->
  confirm_then_patch
    (try_catch (bind (Api.request R m url body) f)
       (fun e => Throw (JsError (Api.error_text e fallback))))
    (Request.mk m url body) fallback patch.
Proof.
  intros Hpatch w.
  exists (fun o => try_catch (bind (Api.interceptors o) f)
                     (fun e => Throw (JsError (Api.error_text e fallback)))).
  split; [reflexivity|]. split.
  - intros w2 error. rewrite mutation_failure. split; [reflexivity|].
    apply after_rejection_stores.
  - intros w2 r. apply Hpatch.
Qed.

(** C3, as stated, fails: a failed call is not re-raised.
    [updateTask("t1", { status: "done" })] on the sample board, the [PATCH]
    answered 404 with [{ error: "Task not found" }]: the interceptor rejects
    with the normalized axios error, status 404 in it, but the method throws
    [new Error("Task not found")], another value, which holds the text and
    neither the status nor the response.  Answered 500 with an empty JSON
    object, the method throws [new Error("Failed to update task")], which
    holds nothing of the error at all. *)
Lemma updateTask_throws_new_error :
  exists k : Response.t Payload.TaskData + AxiosError.t -> Prog Task.t,
    let rq := Request.mk PATCH "/tasks/t1" (TaskBody (TaskPatch.only_status done)) in
    let not_found :=
      AxiosError.mk
        (Some (ErrorResponse.mk 404 (Some "Not Found")
                 (DataObject (Some "Task not found"))))
        true "Request failed with status code 404" in
    let internal :=
      AxiosError.mk
        (Some (ErrorResponse.mk 500 (Some "Internal Server Error")
                 (DataObject None)))
        true "Request failed with status code 500" in
    exec (updateTask "t1" (TaskPatch.only_status done)) Sample.board
      = (emit_event (Sent rq) Sample.board, Awaiting Payload.TaskData rq k)
    /\ (exec (Api.request Payload.TaskData PATCH "/tasks/t1"
                (TaskBody (TaskPatch.only_status done))) Sample.board).2
       = Awaiting Payload.TaskData rq Api.interceptors
    /\ (exec (Api.interceptors (R := Payload.TaskData) (inr not_found))
          (emit_event (Sent rq) Sample.board)).2
       = Raised (Rejected (Api.normalize not_found))
    /\ AxiosError.has_status 404 (Api.normalize not_found) = true
    /\ (exec (k (inr not_found)) (emit_event (Sent rq) Sample.board)).2
       = Raised (JsError "Task not found")
    /\ (exec (k (inr not_found)) (emit_event (Sent rq) Sample.board)).2
       <> Raised (Rejected (Api.normalize not_found))
    /\ (exec (k (inr internal)) (emit_event (Sent rq) Sample.board)).2
       = Raised (JsError "Failed to update task").
Proof.
  eexists. cbv zeta. split; [reflexivity|].
  repeat split. discriminate.
Qed.

(** C3, amended (no optimistic pre-commit).  Each of [createTask],
    [updateTask], [deleteTask], [addComment] and [updateTaskStatus] sends its
    request and suspends without touching the page state.  If the call fails
    the method throws a new [Error] that holds only a message: the [error]
    text of the server's JSON answer, ["Server error: "] and the status text
    for an answer that is a string, ["No response from server"] for an
    unanswered request, the message of the error for a request that was never
    sent, and the method's own fallback text wherever that text is missing or
    empty; the task store is as before.  The patch is applied only when the
    call is settled with a response. *)
Theorem mutations_confirm_then_patch (data updates : TaskPatch.t)
    (taskId content : string) (mentions : option (list string))
    (status : TaskStatus) :
  confirm_then_patch (createTask data)
    (Request.mk POST "/tasks" (TaskBody data)) "Failed to create task"
    (fun d state => set_tasks (Payload.task d :: tasks state) state)
  /\ confirm_then_patch (updateTask taskId updates)
       (Request.mk PATCH ("/tasks/" +:+ taskId) (TaskBody updates))
       "Failed to update task"
       (fun d => patch_cache taskId (Payload.task d))
  /\ confirm_then_patch (R := unit) (deleteTask taskId)
       (Request.mk DELETE ("/tasks/" +:+ taskId) NoBody)
       "Failed to delete task"
       (fun _ state =>
          set_tasks (filter (fun t => Task._id t ≠ taskId) (tasks state))
            (set_currentTask (replace_current taskId None (currentTask state))
               state))
  /\ confirm_then_patch (addComment taskId content mentions)
       (Request.mk POST ("/tasks/" +:+ taskId +:+ "/comments")
          (CommentBody content mentions))
       "Failed to add comment"
       (fun d => patch_cache taskId (Payload.task d))
  /\ confirm_then_patch (updateTaskStatus taskId status)
       (Request.mk PATCH ("/tasks/" +:+ taskId) (StatusBody status))
       "Failed to update status"
       (fun d => patch_cache taskId (Payload.task d)).
Proof.
  repeat apply conj;
    refine (confirm_then_patch_intro _ _ _ _ _ _ _); intros r w; reflexivity.
Qed.

Lemma replace_task_lookup taskId updated (ts : list Task.t) (i : nat) :
  replace_task taskId updated ts !! i
  = (fun t => if String.eqb (Task._id t) taskId then updated else t) <$> ts !! i.
Proof.
  unfold replace_task. revert i.
  induction ts as [|t ts IH]; intros [|i]; simpl; auto.
Qed.

Lemma replace_task_length taskId updated (ts : list Task.t) :
  length (replace_task taskId updated ts) = length ts.
Proof. apply length_map. Qed.

(** C4 (write-then-cache).  [updateTask(id, {status: "done"})] suspends
    with the cache as it was.  When the call is settled with a record whose
    status is [done], the method returns that record; in the cache the
    entries with that id are replaced by it, every other entry is the one it
    was, the list keeps its length, and [currentTask] is kept when it is null
    or has another id. *)
Theorem updateTask_patches_only_target (w : World) (taskId : string)
    (updated : Task.t) :
  Task.status updated = done ->
  exists k : Response.t Payload.TaskData + AxiosError.t -> Prog Task.t,
    let rq := Request.mk PATCH ("/tasks/" +:+ taskId)
                (TaskBody (TaskPatch.only_status done)) in
    exec (updateTask taskId (TaskPatch.only_status done)) w
      = (emit_event (Sent rq) w, Awaiting Payload.TaskData rq k)
    /\ stores (emit_event (Sent rq) w) = stores w
    /\ forall (w2 : World) (code : Z),
         let r := exec (k (inl (Response.mk code (Payload.mkTask updated)))) w2 in
         r.2 = Returned updated
         /\ length (tasks_of r.1) = length (tasks_of w2)
         /\ (forall i t, tasks_of w2 !! i = Some t -> Task._id t = taskId ->
               tasks_of r.1 !! i = Some updated
               /\ Task.status <$> tasks_of r.1 !! i = Some done)
         /\ (forall i t, tasks_of w2 !! i = Some t -> Task._id t = taskId ->
               updated = Task.with_status done t ->
               tasks_of r.1 !! i = Some (Task.with_status done t))
         /\ (forall i t, tasks_of w2 !! i = Some t -> Task._id t <> taskId ->
               tasks_of r.1 !! i = Some t)
         /\ (forall c, currentTask_of w2 = Some c -> Task._id c <> taskId ->
               currentTask_of r.1 = Some c)
         /\ (currentTask_of w2 = None -> currentTask_of r.1 = None).
Proof.
  intros Hdone. eexists. cbv zeta. split; [reflexivity|]. split; [reflexivity|].
  intros w2 code.
  assert (Hhit : forall i t, tasks_of w2 !! i = Some t -> Task._id t = taskId ->
            replace_task taskId updated (tasks_of w2) !! i = Some updated).
  { intros i t Hi Hid. rewrite replace_task_lookup, Hi. simpl.
    apply String.eqb_eq in Hid. rewrite Hid. reflexivity. }
  split; [reflexivity|]. split; [apply replace_task_length|].
  split; [|split; [|split; [|split]]].
  - intros i t Hi Hid. split; [exact (Hhit i t Hi Hid)|].
    change (Task.status <$> replace_task taskId updated (tasks_of w2) !! i = Some done).
    rewrite (Hhit i t Hi Hid). simpl. rewrite Hdone. reflexivity.
  - intros i t Hi Hid Hup. rewrite <- Hup. exact (Hhit i t Hi Hid).
  - intros i t Hi Hid.
    change (replace_task taskId updated (tasks_of w2) !! i = Some t).
    rewrite replace_task_lookup, Hi. simpl.
    apply String.eqb_neq in Hid. rewrite Hid. reflexivity.
  - intros c Hc Hid.
    change (replace_current taskId (Some updated) (currentTask_of w2) = Some c).
    rewrite Hc. simpl. apply String.eqb_neq in Hid. rewrite Hid. reflexivity.
  - intros Hc.
    change (replace_current taskId (Some updated) (currentTask_of w2) = None).
    rewrite Hc. reflexivity.
Qed.

Lemma updateTask_patches_only_target_witness :
  exists k : Response.t Payload.TaskData + AxiosError.t -> Prog Task.t,
    (exec (updateTask "t1" (TaskPatch.only_status done)) Sample.board).2
      = Awaiting Payload.TaskData
          (Request.mk PATCH "/tasks/t1" (TaskBody (TaskPatch.only_status done))) k
    /\ tasks_of (exec (k (inl (Response.mk 200
                    (Payload.mkTask (Sample.task "t1" done))))) Sample.board).1
       = [Sample.task "t1" done; Sample.task "t2" in_progress].
Proof.
  destruct (updateTask_patches_only_target Sample.board "t1"
              (Sample.task "t1" done) eq_refl) as (k & Hk & _ & Hres).
  exists k. split.
  - cbv zeta in Hk. rewrite Hk. reflexivity.
  - destruct (Hres Sample.board 200) as (_ & Hlen & Hhit & _ & Hmiss & _).
    destruct (Hhit 0%nat (Sample.task "t1" todo) eq_refl eq_refl) as [H0 _].
    pose proof (Hmiss 1%nat (Sample.task "t2" in_progress) eq_refl
                  ltac:(discriminate)) as H1.
    apply list_eq. intros [|[|i]]; [exact H0 | exact H1 |].
    simpl. apply lookup_ge_None. rewrite Hlen. simpl. lia.
Defined.

End TaskStoreFacts.

(** ** The auth store *)

(** C10 (logout).  [logout] sends [POST /auth/logout] and suspends; however
    the call is settled, with a response or with an error, the method returns
    normally with [user] and [token] null, [isAuthenticated] false and no
    [Authorization] default header. *)
Theorem logout_always_clears (w : World) :
  exists k : Response.t unit + AxiosError.t -> Prog unit,
    exec AuthStore.logout w
      = (emit_event (Sent (Request.mk POST "/auth/logout" NoBody)) w,
         Awaiting unit (Request.mk POST "/auth/logout" NoBody) k)
    /\ forall o w2,
         (exec (k o) w2).2 = Returned tt
         /\ AuthState.user (authStore (stores (exec (k o) w2).1)) = None
         /\ AuthState.token (authStore (stores (exec (k o) w2).1)) = None
         /\ AuthState.isAuthenticated (authStore (stores (exec (k o) w2).1)) = false
         /\ headers (stores (exec (k o) w2).1) !! "Authorization" = None.
Proof.
  eexists. split; [reflexivity|]. intros [r|e] w2.
  - cbn. repeat split. apply lookup_delete_eq.
  - rewrite exec_bind, exec_try_catch, exec_bind. simpl Api.interceptors.
    rewrite responseRejected_exec. cbn. repeat split. apply lookup_delete_eq.
Qed.

(** * Further properties *)

(** ** Failure paths *)

(** A failed call inside [try { await ... } catch]: the interceptor runs,
    then the handler. *)
Lemma caught_failure {A R : Type} (f : Response.t R -> Prog A)
    (h : Thrown -> Prog A) (error : AxiosError.t) (w : World) :
  exec (try_catch (bind (Api.interceptors (inr error)) f) h) w
  = exec (h (Rejected (Api.normalize error))) (after_rejection error w).
Proof.
  rewrite exec_try_catch, exec_bind. simpl Api.interceptors.
  rewrite responseRejected_exec. reflexivity.
Qed.

Lemma after_rejection_message_data (error : AxiosError.t) (w : World) :
  message_data (after_rejection error w) = message_data w.
Proof.
  unfold message_data. destruct (after_rejection_stores error w) as (-> & _).
  reflexivity.
Qed.

Lemma after_rejection_task_data (error : AxiosError.t) (w : World) :
  task_data (after_rejection error w) = task_data w.
Proof.
  unfold task_data. destruct (after_rejection_stores error w) as (_ & -> & _).
  reflexivity.
Qed.

Section MessageReads.
Import MessageState MessageStore.
Variable readAt : nat -> string.

(** X1.  The five calls of the message store that do not rethrow
    ([fetchConversations], [fetchChannelMessages], [fetchDirectMessages],
    [fetchUnreadCount], [markAsRead]) suspend at their request and, when it
    fails, return normally with the list, the conversations, the counters,
    the selection and the typing flags as they were at that moment. *)
Theorem message_reads_swallow_failure (c u : string) (ids : list string) :
  swallows_failure fetchConversations message_data
  /\ swallows_failure (fetchChannelMessages c) message_data
  /\ swallows_failure (fetchDirectMessages u) message_data
  /\ swallows_failure fetchUnreadCount message_data
  /\ swallows_failure (markAsRead readAt ids) message_data.
Proof.
  repeat apply conj; intros w; do 3 eexists; (split; [reflexivity|]);
    intros w2 e; cbv beta; rewrite caught_failure; cbn;
    (split; [reflexivity|]); apply after_rejection_message_data.
Qed.

(** X2.  [fetchChannelMessages(c)] selects the channel and empties the
    list before its request.  Settled with a response it shows the payload
    and joins the channel room, provided the socket is connected; settled with
    an error it sends nothing on the socket and only lowers [isLoading]. *)
Theorem fetchChannelMessages_joins_after_load (c : string) (w : World) :
  exists k : Response.t Payload.MessagesData + AxiosError.t -> Prog unit,
    (exec (fetchChannelMessages c) w).2
      = Awaiting Payload.MessagesData
          (Request.mk GET ("/messages/channel/" +:+ c) NoBody) k
    /\ visible (exec (fetchChannelMessages c) w).1 = []
    /\ activeChannel (messageStore (stores (exec (fetchChannelMessages c) w).1)) = Some c
    /\ activeRecipient (messageStore (stores (exec (fetchChannelMessages c) w).1)) = None
    /\ isLoading (messageStore (stores (exec (fetchChannelMessages c) w).1)) = true
    /\ socket_events (new_events w (exec (fetchChannelMessages c) w).1) = []
    /\ (forall w2 r,
          visible (exec (k (inl r)) w2).1 = Payload.messages (Response.data r)
          /\ hasMore (messageStore (stores (exec (k (inl r)) w2).1))
             = Payload.hasMore (Response.data r)
          /\ isLoading (messageStore (stores (exec (k (inl r)) w2).1)) = false
          /\ new_events w2 (exec (k (inl r)) w2).1
             = if SocketManager.connected (socketManager (stores w2))
               then [SocketEmit "channel:join" c] else [])
    /\ (forall w2 e,
          visible (exec (k (inr e)) w2).1 = visible w2
          /\ isLoading (messageStore (stores (exec (k (inr e)) w2).1)) = false
          /\ socket_events (new_events w2 (exec (k (inr e)) w2).1) = []).
Proof.
  eexists. split; [reflexivity|].
  split; [reflexivity|]. split; [reflexivity|]. split; [reflexivity|].
  split; [reflexivity|].
  split; [unfold new_events; cbn; rewrite drop_app_length; reflexivity|].
  split.
  - intros w2 r. cbn.
    destruct (SocketManager.connected _); cbn; repeat split.
    + unfold new_events. cbn. apply drop_app_length.
    + unfold new_events. cbn.
      rewrite <- (app_nil_r (trace w2)) at 2. apply drop_app_length.
  - intros w2 e. cbv beta. rewrite caught_failure. cbn.
    split; [|split; [reflexivity|]].
    + unfold visible. destruct (after_rejection_stores e w2) as (-> & _). reflexivity.
    + unfold new_events. cbn. unfold after_rejection.
      destruct (AxiosError.has_status 401 e); [destruct (negb _)|]; cbn;
        rewrite <- ?app_assoc, drop_app_length; reflexivity.
Qed.

(** X3.  A history response is applied to the list whatever is selected
    when it arrives: if a direct conversation is opened while the history of a
    channel is still on its way, the channel's messages end up in the list of
    the direct conversation. *)
Theorem stale_history_overwrites (w : World) (c u : string)
    (r : Response.t Payload.MessagesData) :
  c <> "" -> u <> "" ->
  exists k : Response.t Payload.MessagesData + AxiosError.t -> Prog unit,
    pool (call (setActiveChannel (Some c)) w)
      = pool w ++ [Pend Payload.MessagesData
                     (Request.mk GET ("/messages/channel/" +:+ c) NoBody) k]
    /\ let w2 := call (setActiveRecipient (Some u))
                   (call (setActiveChannel (Some c)) w) in
       activeRecipient (messageStore (stores (exec (k (inl r)) w2).1)) = Some u
       /\ activeChannel (messageStore (stores (exec (k (inl r)) w2).1)) = None
       /\ visible (exec (k (inl r)) w2).1 = Payload.messages (Response.data r).
Proof.
  intros Hc Hu. apply String.eqb_neq in Hc, Hu.
  destruct w as [[ms ts au hd ls pn sk] cl tm pl tr].
  eexists. split.
  - unfold call, setActiveChannel. cbn.
    destruct (activeChannel ms) as [prev|]; cbn;
      [destruct (negb (String.eqb prev "")); cbn;
       [destruct (SocketManager.connected sk); cbn|]|];
      rewrite Hc; cbn; reflexivity.
  - cbv zeta.
    assert (Hscope := setActiveRecipient_scope (Some u)
              (call (setActiveChannel (Some c))
                 (mkWorld (mkStores ms ts au hd ls pn sk) cl tm pl tr))).
    destruct Hscope as [Hr Hch].
    set (w2 := call (setActiveRecipient (Some u)) _) in *.
    cbn. destruct (SocketManager.connected _); cbn; auto.
Qed.

Lemma stale_history_overwrites_witness :
  exists k : Response.t Payload.MessagesData + AxiosError.t -> Prog unit,
    pool (call (setActiveChannel (Some "general")) Sample.fresh)
      = [Pend Payload.MessagesData
           (Request.mk GET "/messages/channel/general" NoBody) k]
    /\ visible (exec (k (inl (Response.mk 200
                   (Payload.mkMessages [Sample.message "m1" (Some "general") None]
                      false))))
                  (call (setActiveRecipient (Some "u2"))
                     (call (setActiveChannel (Some "general")) Sample.fresh))).1
       = [Sample.message "m1" (Some "general") None].
Proof.
  destruct (stale_history_overwrites Sample.fresh "general" "u2"
              (Response.mk 200
                 (Payload.mkMessages [Sample.message "m1" (Some "general") None]
                    false))
              ltac:(discriminate) ltac:(discriminate)) as (k & Hpool & _ & _ & Hv).
  exists k. split; [exact Hpool | exact Hv].
Defined.

(** [sendMessage] in three steps: the request, the fulfilled path and the
    rejected path. *)
Lemma sendMessage_spec (data : SendData) :
  exists k : Response.t Payload.MessageData + AxiosError.t -> Prog unit,
    (forall w,
        exec (sendMessage data) w
        = (emit_event (Sent (Request.mk POST "/messages"
             (MessageBody (content data) (channel data) (recipient data)
                (mentions data)))) w,
           Awaiting Payload.MessageData
             (Request.mk POST "/messages"
                (MessageBody (content data) (channel data) (recipient data)
                   (mentions data))) k))
    /\ (forall w2 r,
          exec (k (inl r)) w2
          = (with_stores (set_messageStore (fun state =>
               set_messages (messages state ++ [Payload.message (Response.data r)])
                 state)) w2,
             Returned tt))
    /\ (forall w2 e,
          exec (k (inr e)) w2
          = (emit_event (ConsoleError "Failed to send message:")
               (after_rejection e w2),
             Raised (Rejected (Api.normalize e)))).
Proof.
  eexists. split; [reflexivity|]. split; [reflexivity|].
  intros w2 e. cbv beta. rewrite caught_failure. reflexivity.
Qed.

(** X4.  When [POST /messages] fails, [sendMessage] logs, rethrows the
    error the interceptor rejected with, and leaves the list as it was. *)
Theorem sendMessage_rethrows (data : SendData) (w : World) :
  exists k : Response.t Payload.MessageData + AxiosError.t -> Prog unit,
    (exec (sendMessage data) w).2
      = Awaiting Payload.MessageData
          (Request.mk POST "/messages"
             (MessageBody (content data) (channel data) (recipient data)
                (mentions data))) k
    /\ forall w2 e,
         (exec (k (inr e)) w2).2 = Raised (Rejected (Api.normalize e))
         /\ message_data (exec (k (inr e)) w2).1 = message_data w2
         /\ trace (exec (k (inr e)) w2).1
            = trace (after_rejection e w2) ++ [ConsoleError "Failed to send message:"].
Proof.
  destruct (sendMessage_spec data) as (k & Hrun & _ & Hfail).
  exists k. rewrite Hrun. split; [reflexivity|]. intros w2 e. rewrite Hfail.
  split; [reflexivity|]. split; [apply after_rejection_message_data | reflexivity].
Qed.

(** X5.  The duplicate check protects one order only.  For a message of
    the active scope that is not cached yet: when the response of
    [sendMessage] arrives before the [message:new] echo the list holds the
    message once; when the echo arrives first, the response appends it a
    second time. *)
Theorem send_echo_order (data : SendData) (w w2 : World)
    (r : Response.t Payload.MessageData) :
  relevant (Payload.message (Response.data r)) (messageStore (stores w2)) = true ->
  cached (Message._id (Payload.message (Response.data r))) (visible w2) = false ->
  exists k : Response.t Payload.MessageData + AxiosError.t -> Prog unit,
    (exec (sendMessage data) w).2
      = Awaiting Payload.MessageData
          (Request.mk POST "/messages"
             (MessageBody (content data) (channel data) (recipient data)
                (mentions data))) k
    /\ copies (Message._id (Payload.message (Response.data r)))
         (visible (call (addMessage (Payload.message (Response.data r)))
                     (exec (k (inl r)) w2).1))
       = 1%nat
    /\ copies (Message._id (Payload.message (Response.data r)))
         (visible (exec (k (inl r))
                     (call (addMessage (Payload.message (Response.data r))) w2)).1)
       = 2%nat.
Proof.
  intros Hrel Hnew.
  destruct (sendMessage_spec data) as (k & Hrun & Hok & _).
  exists k. rewrite Hrun. split; [reflexivity|].
  set (m := Payload.message (Response.data r)) in *.
  assert (Hsend : forall w', visible (exec (k (inl r)) w').1 = visible w' ++ [m]).
  { intros w'. rewrite Hok. reflexivity. }
  apply cached_false_copies in Hnew as Hzero.
  assert (Hself : copies (Message._id m) [m] = 1%nat).
  { rewrite copies_single. destruct (decide _); [reflexivity | congruence]. }
  split.
  - unfold visible at 1. rewrite addMessage_store, merge_message_cached.
    + fold (visible (exec (k (inl r)) w2).1).
      rewrite Hsend, copies_app, Hzero, Hself. reflexivity.
    + fold (visible (exec (k (inl r)) w2).1). rewrite Hsend.
      apply cached_copies. rewrite copies_app, Hself. lia.
  - rewrite Hsend. unfold visible at 1. rewrite addMessage_store.
    unfold merge_message. rewrite Hrel. fold (visible w2). rewrite Hnew. simpl.
    rewrite !copies_app, Hself. fold (visible w2). rewrite Hzero. reflexivity.
Qed.

Lemma send_echo_order_witness :
  exists k : Response.t Payload.MessageData + AxiosError.t -> Prog unit,
    copies "m1"
      (visible (exec (k (inl (Response.mk 201
                   (Payload.mkMessage (Sample.message "m1" (Some "general") None)))))
                  (call (addMessage (Sample.message "m1" (Some "general") None))
                     Sample.in_general)).1)
    = 2%nat.
Proof.
  destruct (send_echo_order (mkSendData "hello" (Some "general") None None)
              Sample.in_general Sample.in_general
              (Response.mk 201
                 (Payload.mkMessage (Sample.message "m1" (Some "general") None)))
              eq_refl eq_refl) as (k & _ & _ & Htwo).
  exists k. exact Htwo.
Defined.

(** *** Read receipts *)

Lemma mark_read_lookup (ids : list string) (ms : list Message.t) (i : nat) :
  mark_read readAt ids ms !! i
  = (fun msg => if existsb (String.eqb (Message._id msg)) ids
                then with_receipt (readAt i) msg else msg) <$> ms !! i.
Proof. unfold mark_read. apply list_lookup_imap. Qed.

Lemma mark_read_ids (ids : list string) (ms : list Message.t) :
  map Message._id (mark_read readAt ids ms) = map Message._id ms.
Proof.
  unfold mark_read. generalize readAt as stamp.
  induction ms as [|m ms IH]; intros stamp; [reflexivity|].
  simpl. f_equal.
  - destruct (existsb _ ids); reflexivity.
  - apply (IH (fun i => stamp (S i))).
Qed.

Lemma includes_true (ids : list string) (id : string) :
  existsb (String.eqb id) ids = true <-> In id ids.
Proof.
  rewrite existsb_exists. split.
  - intros (x & Hx & Heq). apply String.eqb_eq in Heq. subst. exact Hx.
  - intros H. exists id. split; [exact H | apply String.eqb_refl].
Qed.

(** X6.  [markAsRead(ids)] changes the list only when the call succeeds,
    and then only the listed messages: the ids and the order of the list are
    kept, a listed message gains one receipt for ['currentUser'] at the end of
    [readBy] and keeps every other field, every other message is untouched. *)
Theorem markAsRead_marks_listed (ids : list string) (w : World) :
  exists k : Response.t unit + AxiosError.t -> Prog unit,
    (exec (markAsRead readAt ids) w).2
      = Awaiting unit (Request.mk POST "/messages/read" (ReadBody ids)) k
    /\ visible (exec (markAsRead readAt ids) w).1 = visible w
    /\ forall w2 r,
         (exec (k (inl r)) w2).2 = Returned tt
         /\ map Message._id (visible (exec (k (inl r)) w2).1)
            = map Message._id (visible w2)
         /\ (forall i m, visible w2 !! i = Some m -> In (Message._id m) ids ->
               exists m', visible (exec (k (inl r)) w2).1 !! i = Some m'
                 /\ Message.readBy m'
                    = Message.readBy m ++ [ReadReceipt.mk "currentUser" (readAt i)]
                 /\ same_but_readBy m m')
         /\ (forall i m, visible w2 !! i = Some m -> ~ In (Message._id m) ids ->
               visible (exec (k (inl r)) w2).1 !! i = Some m).
Proof.
  eexists. split; [reflexivity|]. split; [reflexivity|]. intros w2 r.
  split; [reflexivity|].
  change (visible (exec _ w2).1) with (mark_read readAt ids (visible w2)).
  split; [|split].
  - apply mark_read_ids.
  - intros i m Hi Hin. exists (with_receipt (readAt i) m).
    rewrite mark_read_lookup, Hi. simpl.
    apply includes_true in Hin. rewrite Hin.
    split; [reflexivity|]. split; [reflexivity|]. repeat split.
  - intros i m Hi Hout. rewrite mark_read_lookup, Hi. simpl.
    destruct (existsb _ ids) eqn:E; [|reflexivity].
    apply includes_true in E. contradiction.
Qed.

(** *** Typing flags *)

(** X7.  [setTyping(u, b)] sets the flag of [u] to [b] and touches no
    other user's flag; with [b] false it schedules nothing.  The clear it
    schedules with [b] true leaves the other users' flags alone whenever it
    fires. *)
Theorem setTyping_frame (w : World) (u u' : string) (b : bool) :
  u' <> u ->
  typing u (call (setTyping u b) w) = Some b
  /\ typing u' (call (setTyping u b) w) = typing u' w
  /\ timers (call (setTyping u false) w) = timers w
  /\ (timers w = [] ->
        forall fuel t,
          typing u' (advance fuel t (call (setTyping u true) w)) = typing u' w).
Proof.
  intros Hne.
  assert (Hother : forall w', typing u' (call (setTyping u true) w') = typing u' w').
  { intros w'. rewrite setTyping_call. unfold typing. simpl.
    apply lookup_insert_ne. auto. }
  split; [|split; [|split]].
  - destruct b; unfold typing; cbn; apply lookup_insert_eq.
  - destruct b; unfold typing; cbn; apply lookup_insert_ne; auto.
  - reflexivity.
  - intros Htm fuel t.
    assert (Htm1 : timers (call (setTyping u true) w)
                   = [(clock w + 3000, clearTyping u)]).
    { rewrite setTyping_call. simpl. rewrite Htm. reflexivity. }
    rewrite advance_eq, Htm1. simpl.
    destruct (Z.leb_spec (clock w + 3000) t); [|apply Hother].
    destruct fuel as [|fuel]; [apply Hother|].
    rewrite advance_eq, clearTyping_call. simpl.
    unfold typing. simpl. rewrite lookup_insert_ne by auto.
    rewrite lookup_insert_ne by auto. reflexivity.
Qed.

Lemma setTyping_frame_witness :
  typing "u1" (call (setTyping "u1" false) Sample.fresh) = Some false
  /\ typing "u2" (advance 1 5000 (call (setTyping "u1" true) Sample.fresh)) = None.
Proof.
  destruct (setTyping_frame Sample.fresh "u1" "u2" false ltac:(discriminate))
    as (Hset & _).
  destruct (setTyping_frame Sample.fresh "u1" "u2" true ltac:(discriminate))
    as (_ & _ & _ & Hlater).
  split; [exact Hset | exact (Hlater eq_refl 1%nat 5000)].
Defined.

End MessageReads.

Lemma markAsRead_marks_listed_witness :
  exists (k : Response.t unit + AxiosError.t -> Prog unit) (m' : Message.t),
    visible (exec (k (inl (Response.mk 200 tt)))
               (call (MessageStore.addMessage (Sample.message "m1" (Some "general") None))
                  Sample.in_general)).1 !! 0%nat
    = Some m'
    /\ Message.readBy m'
       = [ReadReceipt.mk "currentUser" "2024-01-01T10:05:00.000Z"]
    /\ same_but_readBy (Sample.message "m1" (Some "general") None) m'.
Proof.
  destruct (markAsRead_marks_listed (fun _ => "2024-01-01T10:05:00.000Z") ["m1"]
              Sample.in_general) as (k & _ & _ & H).
  exists k.
  destruct (H (call (MessageStore.addMessage (Sample.message "m1" (Some "general") None))
                Sample.in_general) (Response.mk 200 tt)) as (_ & _ & Hmark & _).
  destruct (Hmark 0%nat (Sample.message "m1" (Some "general") None) eq_refl
              (or_introl eq_refl)) as (m' & Hm' & Hread & Hsame).
  exists m'. split; [exact Hm'|]. split; [exact Hread | exact Hsame].
Defined.

(** ** The task store: reads *)

Section TaskReads.
Import TaskState TaskStore.
Variable toString : list (string * string) -> string.

(** A failed read ends with the error text in [error] and [isLoading]
    false. *)
Lemma task_read_failure {R : Type} (f : Response.t R -> Prog unit)
    (fallback : string) (e : AxiosError.t) (w : World) :
  exec (try_catch (bind (Api.interceptors (inr e)) f)
          (fun error => setState (fail_loading (Api.error_text error fallback)))) w
  = (with_stores (set_taskStore
       (fail_loading (Api.error_text (Rejected (Api.normalize e)) fallback)))
       (after_rejection e w),
     Returned tt).
Proof. rewrite caught_failure. reflexivity. Qed.

(** X8.  The three reads of the task store ([fetchTasks], [fetchMyTasks],
    [fetchTaskById]) clear the old error and raise [isLoading] before the
    request.  When the request fails they return normally, put the normalized
    error text (or their fallback) into [error], lower [isLoading] and keep
    the list, the open task, the filters and the pagination. *)
Theorem task_reads_record_failure (filters_arg : option TaskFilters.t)
    (taskId : string) :
  records_failure (fetchTasks toString filters_arg) "Failed to fetch tasks" task_data
  /\ records_failure fetchMyTasks "Failed to fetch tasks" task_data
  /\ records_failure (fetchTaskById taskId) "Failed to fetch task" task_data.
Proof.
  repeat apply conj; intros w;
    do 3 eexists; (split; [reflexivity|]); repeat (split; [reflexivity|]);
    intros w2 e; cbv beta;
    match goal with
    | |- context [Api.error_text _ ?fb] =>
        rewrite (task_read_failure _ fb e w2)
    end;
    repeat (split; [reflexivity|]);
    unfold task_data; cbn;
    destruct (after_rejection_stores e w2) as (_ & -> & _); reflexivity.
Qed.

Lemma query_params_keys (f : TaskFilters.t) :
  sublist (map fst (query_params f)) query_keys.
Proof.
  destruct f as [st pr asg tg se ov]. unfold query_params, query_keys. simpl.
  destruct st, pr; simpl;
    (destruct asg as [a|]; [destruct (negb (String.eqb a ""))|]); simpl;
    (destruct tg as [[|t ts]|]); simpl;
    (destruct se as [q|]; [destruct (negb (String.eqb q ""))|]); simpl;
    (destruct ov as [[|]|]); simpl;
    repeat first [apply sublist_nil | apply sublist_skip | apply sublist_cons].
Qed.

(** X9.  [fetchTasks] asks for [/tasks?] followed by the serialized
    parameters of the filters it was given, or of the stored filters when it
    was given none.  Each parameter name appears at most once and in the fixed
    order status, priority, assignee, tags, search, overdue; filters that are
    all absent, and also empty tags, an empty search text or [overdue: false],
    add no parameter.  On success the filters used for the request are
    stored with the list. *)
Theorem fetchTasks_query (filters_arg : option TaskFilters.t) (w : World) :
  exists k : Response.t Payload.TasksData + AxiosError.t -> Prog unit,
    (exec (fetchTasks toString filters_arg) w).2
      = Awaiting Payload.TasksData
          (Request.mk GET
             ("/tasks?" +:+ toString (query_params
                (default (filters (taskStore (stores w))) filters_arg)))
             NoBody) k
    /\ sublist (map fst (query_params
                  (default (filters (taskStore (stores w))) filters_arg)))
         query_keys
    /\ NoDup (map fst (query_params
                  (default (filters (taskStore (stores w))) filters_arg)))
    /\ query_params TaskFilters.empty = []
    /\ query_params (TaskFilters.mk None None (Some "") (Some []) (Some "")
                       (Some false)) = []
    /\ forall w2 r,
         (exec (k (inl r)) w2).2 = Returned tt
         /\ tasks_of (exec (k (inl r)) w2).1 = Payload.data (Response.data r)
         /\ pagination (taskStore (stores (exec (k (inl r)) w2).1))
            = Payload.pagination (Response.data r)
         /\ filters (taskStore (stores (exec (k (inl r)) w2).1))
            = default (filters (taskStore (stores w))) filters_arg
         /\ isLoading (taskStore (stores (exec (k (inl r)) w2).1)) = false
         /\ currentTask_of (exec (k (inl r)) w2).1 = currentTask_of w2.
Proof.
  eexists. split; [reflexivity|].
  split; [apply query_params_keys|].
  split.
  { apply (sublist_NoDup _ query_keys); [|apply query_params_keys].
    apply (bool_decide_unpack _). vm_compute. exact I. }
  split; [reflexivity|]. split; [reflexivity|].
  intros w2 r. repeat split.
Qed.

(** X10.  [setFilters(f)] stores [f] at once and starts [fetchTasks(f)].
    When that request succeeds the list belongs to [f]; when it fails, [f]
    stays stored next to the list of the filters before. *)
Theorem setFilters_then_fetch (f : TaskFilters.t) (w : World) :
  exists k : Response.t Payload.TasksData + AxiosError.t -> Prog unit,
    filters (taskStore (stores (call (setFilters toString f) w))) = f
    /\ tasks_of (call (setFilters toString f) w) = tasks_of w
    /\ new_events w (call (setFilters toString f) w)
       = [Sent (Request.mk GET ("/tasks?" +:+ toString (query_params f)) NoBody)]
    /\ pool (call (setFilters toString f) w)
       = pool w ++ [Pend Payload.TasksData
                      (Request.mk GET ("/tasks?" +:+ toString (query_params f)) NoBody)
                      k]
    /\ (forall r,
          tasks_of (exec (k (inl r)) (call (setFilters toString f) w)).1
            = Payload.data (Response.data r)
          /\ filters (taskStore (stores
                (exec (k (inl r)) (call (setFilters toString f) w)).1)) = f)
    /\ (forall e,
          tasks_of (exec (k (inr e)) (call (setFilters toString f) w)).1 = tasks_of w
          /\ filters (taskStore (stores
                (exec (k (inr e)) (call (setFilters toString f) w)).1)) = f
          /\ error (taskStore (stores
                (exec (k (inr e)) (call (setFilters toString f) w)).1))
             = Some (Api.error_text (Rejected (Api.normalize e))
                       "Failed to fetch tasks")).
Proof.
  eexists. split; [reflexivity|]. split; [reflexivity|].
  split; [unfold new_events; cbn; apply drop_app_length|].
  split; [reflexivity|]. split.
  - intros r. split; reflexivity.
  - intros e. cbv beta.
    rewrite (task_read_failure _ "Failed to fetch tasks" e).
    set (w1 := call (setFilters toString f) w).
    destruct (after_rejection_stores e w1) as (_ & Hts & _).
    unfold tasks_of. simpl fst.
    change (taskStore (stores (with_stores (set_taskStore ?g) ?x)))
      with (g (taskStore (stores x))).
    rewrite Hts. repeat split.
Qed.

End TaskReads.

(** ** The task store: what a settled mutation does to the cache *)

Section TaskCache.
Import TaskState TaskStore.

Lemma deleteTask_spec (taskId : string) :
  exists k : Response.t unit + AxiosError.t -> Prog unit,
    (forall w, exec (deleteTask taskId) w
       = (emit_event (Sent (Request.mk DELETE ("/tasks/" +:+ taskId) NoBody)) w,
          Awaiting unit (Request.mk DELETE ("/tasks/" +:+ taskId) NoBody) k))
    /\ forall w2 r,
         exec (k (inl r)) w2
         = (with_stores (set_taskStore (fun state =>
              set_tasks (filter (fun t => Task._id t ≠ taskId) (tasks state))
                (set_currentTask (replace_current taskId None (currentTask state))
                   state))) w2,
            Returned tt).
Proof. eexists. split; reflexivity. Qed.

Lemma updateTask_spec (taskId : string) (updates : TaskPatch.t) :
  exists k : Response.t Payload.TaskData + AxiosError.t -> Prog Task.t,
    (forall w, exec (updateTask taskId updates) w
       = (emit_event (Sent (Request.mk PATCH ("/tasks/" +:+ taskId)
                              (TaskBody updates))) w,
          Awaiting Payload.TaskData
            (Request.mk PATCH ("/tasks/" +:+ taskId) (TaskBody updates)) k))
    /\ (forall w2 r,
          exec (k (inl r)) w2
          = (with_stores (set_taskStore
               (patch_cache taskId (Payload.task (Response.data r)))) w2,
             Returned (Payload.task (Response.data r))))
    /\ (forall w2 e,
          exec (k (inr e)) w2
          = (after_rejection e w2,
             Raised (JsError (Api.error_text (Rejected (Api.normalize e))
                                "Failed to update task")))).
Proof.
  eexists. split; [reflexivity|]. split; [reflexivity|].
  intros w2 e. cbv beta. rewrite caught_failure. reflexivity.
Qed.

Lemma ids_filter (taskId : string) (ts : list Task.t) :
  map Task._id (filter (fun t => Task._id t ≠ taskId) ts)
  = filter (fun i => i ≠ taskId) (map Task._id ts).
Proof.
  induction ts as [|t ts IH]; [reflexivity|]. simpl.
  rewrite !filter_cons. destruct (decide (Task._id t ≠ taskId)); simpl; congruence.
Qed.

Lemma filter_all {A : Type} (P : A -> Prop) `{forall x, Decision (P x)}
    (l : list A) :
  (forall x, x ∈ l -> P x) -> filter P l = l.
Proof.
  induction l as [|x l IH]; intros Hall; [reflexivity|].
  rewrite filter_cons_True by (apply Hall; left).
  f_equal. apply IH. intros y Hy. apply Hall. right. exact Hy.
Qed.

(** X11.  A settled [deleteTask(id)] removes every cached task with that
    id, duplicates included, and nothing else: the other tasks stay, in their
    order; the id is gone from the cache afterwards; a cache without the id
    is left as it is; distinct ids stay distinct; the open task is closed
    exactly when it has that id. *)
Theorem deleteTask_removes_all (taskId : string) (w : World) :
  exists k : Response.t unit + AxiosError.t -> Prog unit,
    (exec (deleteTask taskId) w).2
      = Awaiting unit (Request.mk DELETE ("/tasks/" +:+ taskId) NoBody) k
    /\ forall w2 r,
         (exec (k (inl r)) w2).2 = Returned tt
         /\ (forall t, (t ∈ tasks_of (exec (k (inl r)) w2).1)
                       <-> (t ∈ tasks_of w2 /\ Task._id t <> taskId))
         /\ sublist (tasks_of (exec (k (inl r)) w2).1) (tasks_of w2)
         /\ (taskId ∉ task_ids (exec (k (inl r)) w2).1)
         /\ (taskId ∉ task_ids w2 ->
               tasks_of (exec (k (inl r)) w2).1 = tasks_of w2)
         /\ (NoDup (task_ids w2) -> NoDup (task_ids (exec (k (inl r)) w2).1))
         /\ currentTask_of (exec (k (inl r)) w2).1
            = match currentTask_of w2 with
              | Some c => if String.eqb (Task._id c) taskId then None else Some c
              | None => None
              end.
Proof.
  destruct (deleteTask_spec taskId) as (k & Hrun & Hok).
  exists k. rewrite Hrun. split; [reflexivity|]. intros w2 r. rewrite Hok.
  split; [reflexivity|].
  change (tasks_of (with_stores _ w2, Returned tt).1)
    with (filter (fun t => Task._id t ≠ taskId) (tasks_of w2)).
  unfold task_ids.
  change (tasks_of (with_stores _ w2, Returned tt).1)
    with (filter (fun t => Task._id t ≠ taskId) (tasks_of w2)).
  split; [|split; [|split; [|split; [|split]]]].
  - intros t. rewrite list_elem_of_filter. tauto.
  - apply sublist_filter.
  - rewrite ids_filter, list_elem_of_filter. tauto.
  - intros Hout. apply filter_all. intros t Ht Heq. apply Hout.
    rewrite <- Heq. apply list_elem_of_In, in_map, list_elem_of_In, Ht.
  - intros Hnd. rewrite ids_filter. apply NoDup_filter, Hnd.
  - unfold currentTask_of. simpl. destruct (currentTask _); reflexivity.
Qed.

Lemma replace_task_ids (taskId : string) (updated : Task.t) (ts : list Task.t) :
  Task._id updated = taskId ->
  map Task._id (replace_task taskId updated ts) = map Task._id ts.
Proof.
  intros Hid. unfold replace_task. rewrite map_map. apply map_ext. intros t.
  destruct (String.eqb (Task._id t) taskId) eqn:E; [|reflexivity].
  apply String.eqb_eq in E. congruence.
Qed.

Lemma replace_task_absent (taskId : string) (updated : Task.t) (ts : list Task.t) :
  ~ In taskId (map Task._id ts) -> replace_task taskId updated ts = ts.
Proof.
  intros Hout. unfold replace_task. rewrite <- (map_id ts) at 2.
  apply map_ext_in. intros t Ht.
  destruct (String.eqb (Task._id t) taskId) eqn:E; [|reflexivity].
  apply String.eqb_eq in E. destruct Hout. rewrite <- E. apply in_map, Ht.
Qed.

(** X12.  A settled [updateTask(id, ...)] never changes the shape of the
    cache: when the backend answers with a record of the same id, the ids of
    the cached tasks and their order are exactly as before; when no cached
    task has the id, the list is left as it is, and so is an open task with
    another id. *)
Theorem updateTask_keeps_ids (taskId : string) (updates : TaskPatch.t) (w : World) :
  exists k : Response.t Payload.TaskData + AxiosError.t -> Prog Task.t,
    (exec (updateTask taskId updates) w).2
      = Awaiting Payload.TaskData
          (Request.mk PATCH ("/tasks/" +:+ taskId) (TaskBody updates)) k
    /\ forall w2 r,
         (Task._id (Payload.task (Response.data r)) = taskId ->
            task_ids (exec (k (inl r)) w2).1 = task_ids w2)
         /\ (~ In taskId (task_ids w2) ->
               tasks_of (exec (k (inl r)) w2).1 = tasks_of w2)
         /\ (forall c, currentTask_of w2 = Some c -> Task._id c <> taskId ->
               currentTask_of (exec (k (inl r)) w2).1 = Some c).
Proof.
  destruct (updateTask_spec taskId updates) as (k & Hrun & Hok & _).
  exists k. rewrite Hrun. split; [reflexivity|]. intros w2 r. rewrite Hok.
  unfold task_ids.
  change (tasks_of (with_stores _ w2, _).1)
    with (replace_task taskId (Payload.task (Response.data r)) (tasks_of w2)).
  split; [|split].
  - apply replace_task_ids.
  - apply replace_task_absent.
  - intros c Hc Hne. unfold currentTask_of in *. simpl. rewrite Hc. simpl.
    apply String.eqb_neq in Hne. rewrite Hne. reflexivity.
Qed.

Lemma deleteTask_removes_all_witness :
  exists k : Response.t unit + AxiosError.t -> Prog unit,
    tasks_of (exec (k (inl (Response.mk 200 tt))) Sample.board).1
    = tasks_of Sample.board.
Proof.
  destruct (deleteTask_removes_all "t9" Sample.board) as (k & _ & H).
  exists k. destruct (H Sample.board (Response.mk 200 tt)) as (_ & _ & _ & _ & Hnoop & _).
  apply Hnoop. vm_compute. intros Hin.
  apply list_elem_of_In in Hin. simpl in Hin.
  destruct Hin as [H1|[H2|[]]]; discriminate.
Defined.

Lemma updateTask_keeps_ids_witness :
  exists k : Response.t Payload.TaskData + AxiosError.t -> Prog Task.t,
    task_ids (exec (k (inl (Response.mk 200 (Payload.mkTask (Sample.task "t1" done)))))
                Sample.board).1
    = ["t1"; "t2"].
Proof.
  destruct (updateTask_keeps_ids "t1" (TaskPatch.only_status done) Sample.board)
    as (k & _ & H).
  exists k.
  destruct (H Sample.board (Response.mk 200 (Payload.mkTask (Sample.task "t1" done))))
    as (Hids & _).
  rewrite (Hids eq_refl). reflexivity.
Defined.

End TaskCache.

(** ** The board *)

Section Board.
Import KanbanBoard.

Lemma status_eqb_eq (a b : TaskStatus) : status_eqb a b = true <-> a = b.
Proof. destruct a, b; simpl; split; intros H; try reflexivity; discriminate. Qed.

(** X13.  Ending a drag sends at most one request.  Nothing is sent, and
    nothing changes, when the card was dropped outside every target, when the
    dragged id is not among the tasks, when the target is neither a column nor
    a task, and when the target column or target card has the status the card
    already has.  Otherwise the one request is [PATCH /tasks/<dragged id>]
    with [{ status }] for the status of the target, which is not the card's;
    the handler has no [catch], so a failure of that request is raised, with
    the cache as it was.  [activeTask] ends up null. *)
Theorem handleDragEnd_requests (tasks : list Task.t) (active : string)
    (over : option string) (w : World) :
  match over, find_task active tasks with
  | Some overId, Some dragged =>
      match drop_target tasks overId with
      | Some s =>
          if status_eqb (Task.status dragged) s
          then exec (handleDragEnd tasks active over) w = (w, Returned None)
          else
            s <> Task.status dragged
            /\ exists k : Response.t Payload.TaskData + AxiosError.t
                          -> Prog (option Task.t),
                 exec (handleDragEnd tasks active over) w
                 = (emit_event (Sent (Request.mk PATCH ("/tasks/" +:+ active)
                                        (TaskBody (TaskPatch.only_status s)))) w,
                    Awaiting Payload.TaskData
                      (Request.mk PATCH ("/tasks/" +:+ active)
                         (TaskBody (TaskPatch.only_status s))) k)
                 /\ (forall w2 r, (exec (k (inl r)) w2).2 = Returned None)
                 /\ (forall w2 e,
                       (exec (k (inr e)) w2).2
                         = Raised (JsError (Api.error_text
                                     (Rejected (Api.normalize e))
                                     "Failed to update task"))
                       /\ tasks_of (exec (k (inr e)) w2).1 = tasks_of w2)
      | None => exec (handleDragEnd tasks active over) w = (w, Returned None)
      end
  | _, _ => exec (handleDragEnd tasks active over) w = (w, Returned None)
  end.
Proof.
  unfold handleDragEnd, drop_target.
  destruct over as [overId|]; [|destruct (find_task active tasks); reflexivity].
  destruct (find_task active tasks) as [dragged|] eqn:Hd; [|reflexivity].
  assert (Hgo : forall s, status_eqb (Task.status dragged) s = false ->
    s <> Task.status dragged
    /\ exists k : Response.t Payload.TaskData + AxiosError.t -> Prog (option Task.t),
      exec (_ ← TaskStore.updateTask active (TaskPatch.only_status s); mret None) w
         = (emit_event (Sent (Request.mk PATCH ("/tasks/" +:+ active)
                                (TaskBody (TaskPatch.only_status s)))) w,
            Awaiting Payload.TaskData
              (Request.mk PATCH ("/tasks/" +:+ active)
                 (TaskBody (TaskPatch.only_status s))) k)
      /\ (forall w2 r, (exec (k (inl r)) w2).2 = Returned None)
      /\ (forall w2 e,
            (exec (k (inr e)) w2).2
              = Raised (JsError (Api.error_text (Rejected (Api.normalize e))
                                   "Failed to update task"))
            /\ tasks_of (exec (k (inr e)) w2).1 = tasks_of w2)).
  { intros s Hs. split.
    { intros ->. rewrite (proj2 (status_eqb_eq _ _) eq_refl) in Hs. discriminate. }
    destruct (updateTask_spec active (TaskPatch.only_status s))
      as (k & Hrun & Hok & Hfail).
    exists (fun o => bind (k o) (fun _ => Ret (@None Task.t))).
    split; [|split].
    - unfold mbind, prog_bind. rewrite exec_bind, Hrun. reflexivity.
    - intros w2 r. rewrite exec_bind, Hok. reflexivity.
    - intros w2 e. rewrite exec_bind, Hfail. simpl. split; [reflexivity|].
      unfold tasks_of. destruct (after_rejection_stores e w2) as (_ & -> & _).
      reflexivity. }
  destruct (column_of overId) as [newStatus|].
  - destruct (status_eqb (Task.status dragged) newStatus) eqn:E; simpl.
    + reflexivity.
    + apply Hgo, E.
  - destruct (find_task overId tasks) as [overTask|]; simpl; [|reflexivity].
    destruct (status_eqb (Task.status dragged) (Task.status overTask)) eqn:E; simpl.
    + reflexivity.
    + apply Hgo, E.
Qed.

Lemma handleDragEnd_requests_witness :
  exists k : Response.t Payload.TaskData + AxiosError.t -> Prog (option Task.t),
    exec (handleDragEnd (tasks_of Sample.board) "t1" (Some "done")) Sample.board
    = (emit_event (Sent (Request.mk PATCH "/tasks/t1"
                           (TaskBody (TaskPatch.only_status done)))) Sample.board,
       Awaiting Payload.TaskData
         (Request.mk PATCH "/tasks/t1" (TaskBody (TaskPatch.only_status done))) k).
Proof.
  pose proof (handleDragEnd_requests (tasks_of Sample.board) "t1" (Some "done")
                Sample.board) as H.
  simpl in H. destruct H as (_ & k & Hk & _). exists k. exact Hk.
Defined.

End Board.

(** ** The axios client: what the interceptor does and does not do *)

(** X14.  A fulfilled response passes the interceptors untouched.  An
    error whose status is not 401 is rejected without any side effect: no
    storage key removed, no redirect, nothing logged.  A 401 received while
    the page is [/login] removes the stored credential but does not assign
    the location again. *)
Theorem interceptor_side_effects (R : Type) (w : World) (e : AxiosError.t)
    (r : Response.t R) :
  exec (Api.interceptors (inl r)) w = (w, Returned r)
  /\ (AxiosError.has_status 401 e = false ->
        exec (@Api.interceptors R (inr e)) w
        = (w, Raised (Rejected (Api.normalize e))))
  /\ (AxiosError.has_status 401 e = true -> pathname (stores w) = "/login" ->
        new_events w (exec (@Api.interceptors R (inr e)) w).1
        = [StorageRemove "auth-storage"]).
Proof.
  split; [reflexivity|]. split.
  - intros H. simpl Api.interceptors. rewrite responseRejected_exec.
    unfold after_rejection. rewrite H. reflexivity.
  - intros H Hp. simpl Api.interceptors. rewrite responseRejected_exec.
    simpl fst. rewrite (after_rejection_events _ _ H), Hp. reflexivity.
Qed.

Lemma interceptor_side_effects_witness :
  exec (@Api.interceptors unit
          (inr (AxiosError.mk
                  (Some (ErrorResponse.mk 404 (Some "Not Found")
                           (DataObject (Some "Task not found"))))
                  true "Request failed with status code 404"))) Sample.fresh
  = (Sample.fresh,
     Raised (Rejected (AxiosError.mk
                  (Some (ErrorResponse.mk 404 (Some "Not Found")
                           (DataObject (Some "Task not found"))))
                  true "Request failed with status code 404"))).
Proof.
  exact (proj1 (proj2 (interceptor_side_effects unit Sample.fresh
    (AxiosError.mk
       (Some (ErrorResponse.mk 404 (Some "Not Found")
                (DataObject (Some "Task not found"))))
       true "Request failed with status code 404")
    (Response.mk 200 tt))) eq_refl).
Defined.

(** X15.  Whatever the transport rejects with, the error that reaches the
    stores has a [response] whose [data] is an object, never a string.  The
    status of a real response is kept; an error without a response gets
    status 0 and a text: ["No response from server"] when the request was
    sent, the error's own message otherwise; an HTML body is replaced by
    ["Server error: "] and the status text.  Normalizing twice changes
    nothing more. *)
Theorem normalize_shape (e : AxiosError.t) :
  (exists r o, AxiosError.response (Api.normalize e) = Some r
               /\ ErrorResponse.data r = DataObject o)
  /\ AxiosError.message (Api.normalize e) = AxiosError.message e
  /\ (forall r0, AxiosError.response e = Some r0 ->
        exists r, AxiosError.response (Api.normalize e) = Some r
          /\ ErrorResponse.status r = ErrorResponse.status r0
          /\ (forall o, ErrorResponse.data r0 = DataObject o ->
                ErrorResponse.data r = DataObject o)
          /\ (forall html, ErrorResponse.data r0 = DataString html ->
                ErrorResponse.data r
                = DataObject (Some (Js.concat_undef "Server error: "
                                      (ErrorResponse.statusText r0)))))
  /\ (AxiosError.response e = None ->
        AxiosError.response (Api.normalize e)
        = Some (ErrorResponse.mk 0 None
                  (DataObject (Some (if AxiosError.request e
                                     then "No response from server"
                                     else AxiosError.message e)))))
  /\ Api.normalize (Api.normalize e) = Api.normalize e.
Proof.
  destruct e as [[[st txt d]|] rq msg].
  - destruct d as [html|o]; simpl;
      (split; [eauto|]); (split; [reflexivity|]); (split; [|split; [discriminate|reflexivity]]);
      intros r0 [= <-]; eexists; (split; [reflexivity|]); simpl;
      (split; [reflexivity|]); split; congruence.
  - destruct rq; simpl;
      (split; [eauto|]); (split; [reflexivity|]);
      (split; [discriminate|]); split; reflexivity.
Qed.

Lemma normalize_shape_witness :
  AxiosError.response (Api.normalize (AxiosError.mk None true "Network Error"))
  = Some (ErrorResponse.mk 0 None (DataObject (Some "No response from server"))).
Proof.
  exact (proj1 (proj2 (proj2 (proj2 (normalize_shape
           (AxiosError.mk None true "Network Error"))))) eq_refl).
Defined.

(** X16.  The text a store shows for a failure is never empty when its
    fallback is not, and it is the server's own [error] text whenever that
    is a non-empty string; for a request that got no answer it reads
    ["No response from server"]. *)
Theorem error_text_never_empty (thrown : Thrown) (e : AxiosError.t)
    (fallback : string) :
  fallback <> "" ->
  Api.error_text thrown fallback <> ""
  /\ (forall r txt, AxiosError.response e = Some r ->
        ErrorResponse.data r = DataObject (Some txt) -> txt <> "" ->
        Api.error_text (Rejected (Api.normalize e)) fallback = txt)
  /\ (AxiosError.response e = None -> AxiosError.request e = true ->
        Api.error_text (Rejected (Api.normalize e)) fallback
        = "No response from server").
Proof.
  intros Hfb. split; [|split].
  - destruct thrown as [msg|err]; simpl; [exact Hfb|].
    unfold Js.or_else. destruct (AxiosError.data_error err) as [x|]; [|exact Hfb].
    destruct (String.eqb x "") eqn:E; [exact Hfb|]. apply String.eqb_neq, E.
  - intros r txt Hr Hd Htxt. destruct e as [[r0|] rq msg]; [|discriminate].
    simpl in Hr. injection Hr as ->. destruct r as [st stx d]. simpl in Hd. subst d.
    simpl. apply String.eqb_neq in Htxt. rewrite Htxt. reflexivity.
  - intros Hr Hq. destruct e as [[r0|] rq msg]; [discriminate|].
    simpl in Hq. subst rq. reflexivity.
Qed.

Lemma error_text_never_empty_witness :
  Api.error_text (Rejected (Api.normalize (AxiosError.mk None true "Network Error")))
    "Failed to fetch tasks" = "No response from server".
Proof.
  exact (proj2 (proj2 (error_text_never_empty (JsError "x")
           (AxiosError.mk None true "Network Error") "Failed to fetch tasks"
           ltac:(discriminate))) eq_refl eq_refl).
Defined.

(** ** The auth store *)

Section AuthFacts.
Import AuthStore.

(** X17.  Without a token (null or empty) [checkAuth] sends nothing: it
    returns at once, lowers [isLoading] and leaves the user, the token, the
    authenticated flag and the default headers alone. *)
Theorem checkAuth_without_token (w : World) :
  Js.truthy (AuthState.token (authStore (stores w))) = false ->
  (exec checkAuth w).2 = Returned tt
  /\ trace (exec checkAuth w).1 = trace w
  /\ pool (exec checkAuth w).1 = pool w
  /\ headers (stores (exec checkAuth w).1) = headers (stores w)
  /\ AuthState.isLoading (authStore (stores (exec checkAuth w).1)) = false
  /\ AuthState.user (authStore (stores (exec checkAuth w).1))
     = AuthState.user (authStore (stores w))
  /\ AuthState.token (authStore (stores (exec checkAuth w).1))
     = AuthState.token (authStore (stores w))
  /\ AuthState.isAuthenticated (authStore (stores (exec checkAuth w).1))
     = AuthState.isAuthenticated (authStore (stores w)).
Proof.
  intros Hno. unfold checkAuth. cbn.
  destruct (AuthState.token (authStore (stores w))) as [t|] eqn:Ht; cbn.
  - simpl in Hno. rewrite Hno. cbn. repeat split; auto.
  - repeat split; auto.
Qed.

Lemma checkAuth_without_token_witness :
  trace (exec checkAuth Sample.fresh).1 = []
  /\ AuthState.isLoading (authStore (stores (exec checkAuth Sample.fresh).1)) = false.
Proof.
  destruct (checkAuth_without_token Sample.fresh eq_refl) as (_ & Htr & _ & _ & Hl & _).
  split; [exact Htr | exact Hl].
Defined.

(** [checkAuth] with a token, step by step. *)
Lemma checkAuth_with_token (w : World) (token : string) :
  AuthState.token (authStore (stores w)) = Some token ->
  token <> "" ->
  exists k : Response.t Payload.UserData + AxiosError.t -> Prog unit,
    (exec checkAuth w).2
      = Awaiting Payload.UserData (Request.mk GET "/auth/me" NoBody) k
    /\ headers (stores (exec checkAuth w).1) !! "Authorization"
       = Some ("Bearer " +:+ token)
    /\ authStore (stores (exec checkAuth w).1) = authStore (stores w)
    /\ (forall w2 e,
          (exec (k (inr e)) w2).2 = Returned tt
          /\ AuthState.user (authStore (stores (exec (k (inr e)) w2).1)) = None
          /\ AuthState.token (authStore (stores (exec (k (inr e)) w2).1)) = None
          /\ AuthState.isAuthenticated (authStore (stores (exec (k (inr e)) w2).1))
             = false
          /\ AuthState.isLoading (authStore (stores (exec (k (inr e)) w2).1)) = false
          /\ headers (stores (exec (k (inr e)) w2).1) !! "Authorization" = None)
    /\ (forall w2 r,
          (exec (k (inl r)) w2).2 = Returned tt
          /\ AuthState.user (authStore (stores (exec (k (inl r)) w2).1))
             = Some (Payload.user (Response.data r))
          /\ AuthState.isAuthenticated (authStore (stores (exec (k (inl r)) w2).1))
             = true
          /\ AuthState.isLoading (authStore (stores (exec (k (inl r)) w2).1)) = false
          /\ AuthState.token (authStore (stores (exec (k (inl r)) w2).1))
             = AuthState.token (authStore (stores w2))
          /\ headers (stores (exec (k (inl r)) w2).1) = headers (stores w2)).
Proof.
  intros Htok Hne. apply String.eqb_neq in Hne.
  destruct w as [[ms ts au hd ls pn sk] cl tm pl tr]. simpl in Htok.
  unfold checkAuth. cbn. rewrite Htok. cbn. rewrite Hne. cbn.
  eexists. split; [reflexivity|]. split; [apply lookup_insert_eq|].
  split; [reflexivity|]. split.
  - intros w2 e. cbv beta. rewrite caught_failure. cbn.
    repeat split. apply lookup_delete_eq.
  - intros w2 r. repeat split.
Qed.

(** X18.  With a token [checkAuth] installs [Authorization: Bearer <token>]
    as default header and asks [GET /auth/me].  If that fails, for whatever
    reason, the method returns normally and the session is gone: user and
    token null, not authenticated, the default header removed.  If it
    succeeds, the user of the answer is stored, the session is authenticated
    and the token is the one held at that moment. *)
Theorem checkAuth_revalidates (w : World) (token : string) :
  AuthState.token (authStore (stores w)) = Some token ->
  token <> "" ->
  exists k : Response.t Payload.UserData + AxiosError.t -> Prog unit,
    (exec checkAuth w).2
      = Awaiting Payload.UserData (Request.mk GET "/auth/me" NoBody) k
    /\ headers (stores (exec checkAuth w).1) !! "Authorization"
       = Some ("Bearer " +:+ token)
    /\ authStore (stores (exec checkAuth w).1) = authStore (stores w)
    /\ (forall w2 e,
          (exec (k (inr e)) w2).2 = Returned tt
          /\ AuthState.user (authStore (stores (exec (k (inr e)) w2).1)) = None
          /\ AuthState.token (authStore (stores (exec (k (inr e)) w2).1)) = None
          /\ AuthState.isAuthenticated (authStore (stores (exec (k (inr e)) w2).1))
             = false
          /\ AuthState.isLoading (authStore (stores (exec (k (inr e)) w2).1)) = false
          /\ headers (stores (exec (k (inr e)) w2).1) !! "Authorization" = None)
    /\ (forall w2 r,
          (exec (k (inl r)) w2).2 = Returned tt
          /\ AuthState.user (authStore (stores (exec (k (inl r)) w2).1))
             = Some (Payload.user (Response.data r))
          /\ AuthState.isAuthenticated (authStore (stores (exec (k (inl r)) w2).1))
             = true
          /\ AuthState.isLoading (authStore (stores (exec (k (inl r)) w2).1)) = false
          /\ AuthState.token (authStore (stores (exec (k (inl r)) w2).1))
             = AuthState.token (authStore (stores w2))
          /\ headers (stores (exec (k (inl r)) w2).1) = headers (stores w2)).
Proof. exact (checkAuth_with_token w token). Qed.

(** X19.  [completeOnboarding] never raises.  A failure leaves the auth
    store exactly as it was; a success replaces the user and nothing else. *)
Theorem completeOnboarding_quiet (w : World) :
  exists k : Response.t Payload.UserData + AxiosError.t -> Prog unit,
    (exec completeOnboarding w).2
      = Awaiting Payload.UserData
          (Request.mk POST "/auth/complete-onboarding" NoBody) k
    /\ stores (exec completeOnboarding w).1 = stores w
    /\ (forall w2 e,
          (exec (k (inr e)) w2).2 = Returned tt
          /\ authStore (stores (exec (k (inr e)) w2).1) = authStore (stores w2)
          /\ headers (stores (exec (k (inr e)) w2).1) = headers (stores w2))
    /\ (forall w2 r,
          (exec (k (inl r)) w2).2 = Returned tt
          /\ authStore (stores (exec (k (inl r)) w2).1)
             = with_user (Some (Payload.user (Response.data r)))
                 (authStore (stores w2))).
Proof.
  eexists. split; [reflexivity|]. split; [reflexivity|]. split.
  - intros w2 e. cbv beta. rewrite caught_failure. cbn.
    destruct (after_rejection_stores e w2) as (_ & _ & Ha & Hh). auto.
  - intros w2 r. split; reflexivity.
Qed.

Lemma merge_empty (u : User.t) : UserPatch.merge u UserPatch.empty = u.
Proof. destruct u. reflexivity. Qed.

Lemma merge_twice (u : User.t) (p : UserPatch.t) :
  UserPatch.merge (UserPatch.merge u p) p = UserPatch.merge u p.
Proof.
  destruct u, p. unfold UserPatch.merge. simpl.
  repeat match goal with
         | o : option _ |- _ => destruct o
         end; reflexivity.
Qed.

(** X20.  [updateUser] cannot create a user: with no user stored it leaves
    the store as it is.  It never touches the token, the authenticated flag,
    [isLoading] or [error]; an empty update keeps the user; applying the same
    update twice is the same as applying it once. *)
Theorem updateUser_merges (w : World) (updates : UserPatch.t) :
  (exec (updateUser updates) w).2 = Returned tt
  /\ trace (exec (updateUser updates) w).1 = trace w
  /\ AuthState.token (authStore (stores (exec (updateUser updates) w).1))
     = AuthState.token (authStore (stores w))
  /\ AuthState.isAuthenticated (authStore (stores (exec (updateUser updates) w).1))
     = AuthState.isAuthenticated (authStore (stores w))
  /\ AuthState.user (authStore (stores (exec (updateUser updates) w).1))
     = (fun u => UserPatch.merge u updates) <$> AuthState.user (authStore (stores w))
  /\ (AuthState.user (authStore (stores w)) = None ->
        AuthState.user (authStore (stores (exec (updateUser updates) w).1)) = None)
  /\ AuthState.user (authStore (stores (exec (updateUser UserPatch.empty) w).1))
     = AuthState.user (authStore (stores w))
  /\ AuthState.user (authStore (stores
       (exec (updateUser updates) (exec (updateUser updates) w).1).1))
     = AuthState.user (authStore (stores (exec (updateUser updates) w).1)).
Proof.
  split; [reflexivity|]. split; [reflexivity|]. split; [reflexivity|].
  split; [reflexivity|]. cbn.
  destruct (AuthState.user (authStore (stores w))) as [u|]; simpl.
  - rewrite merge_empty, merge_twice. repeat split. discriminate.
  - repeat split.
Qed.

(** X21.  After a failed [checkAuth] every route under the layout, the
    manager-only ones among them, is sent to [/login], and the public routes
    render their page.  After a successful [checkAuth] the public routes are
    sent to [/dashboard], the pages under the layout are rendered, and a
    manager-only page is rendered for a manager and sent to [/dashboard] for
    any other user.  While [isLoading] is up, as in the initial state, every
    wrapped route shows the spinner. *)
Theorem routes_follow_session (w w2 : World) (token : string) :
  AuthState.token (authStore (stores w)) = Some token ->
  token <> "" ->
  exists k : Response.t Payload.UserData + AxiosError.t -> Prog unit,
    (exec checkAuth w).2
      = Awaiting Payload.UserData (Request.mk GET "/auth/me" NoBody) k
    /\ (forall e route,
          let s := authStore (stores (exec (k (inr e)) w2).1) in
          (route <> Routes.login -> route <> Routes.register ->
           route <> Routes.catch_all ->
           Routes.App route false s = Routes.NavigateTo "/login")
          /\ Routes.App Routes.login false s = Routes.Children
          /\ Routes.App Routes.register false s = Routes.Children)
    /\ (forall r route,
          let s := authStore (stores (exec (k (inl r)) w2).1) in
          Routes.App Routes.login false s = Routes.NavigateTo "/dashboard"
          /\ Routes.App Routes.register false s = Routes.NavigateTo "/dashboard"
          /\ Routes.App Routes.index false s = Routes.NavigateTo "/dashboard"
          /\ (route <> Routes.login -> route <> Routes.register ->
              route <> Routes.index -> route <> Routes.catch_all ->
              route <> Routes.team -> route <> Routes.reports ->
              Routes.App route false s = Routes.Children)
          /\ (User.role (Payload.user (Response.data r)) = User.manager ->
              Routes.App Routes.team false s = Routes.Children
              /\ Routes.App Routes.reports false s = Routes.Children)
          /\ (User.role (Payload.user (Response.data r)) <> User.manager ->
              Routes.App Routes.team false s = Routes.NavigateTo "/dashboard"
              /\ Routes.App Routes.reports false s
                 = Routes.NavigateTo "/dashboard"))
    /\ (forall checking route,
          route <> Routes.catch_all ->
          Routes.App route checking AuthState.init = Routes.Spinner).
Proof.
  intros Htok Hne.
  destruct (checkAuth_with_token w token Htok Hne) as (k & Hk & _ & _ & Hfail & Hok).
  exists k. split; [exact Hk|]. split; [|split].
  - intros e route. cbv zeta.
    destruct (Hfail w2 e) as (_ & Hu & _ & Ha & Hl & _).
    unfold Routes.App, Routes.ProtectedRoute, Routes.PublicRoute.
    rewrite Ha, Hl. simpl. split; [|split; reflexivity].
    intros H1 H2 H3. destruct route; try reflexivity; contradiction.
  - intros r route. cbv zeta.
    destruct (Hok w2 r) as (_ & Hu & Ha & Hl & _).
    unfold Routes.App, Routes.ProtectedRoute, Routes.PublicRoute,
      Routes.ManagerRoute.
    rewrite Hu, Ha, Hl. simpl.
    split; [reflexivity|]. split; [reflexivity|]. split; [reflexivity|].
    split; [|split].
    + intros H1 H2 H3 H4 H5 H6. destruct route; try reflexivity; contradiction.
    + intros Hrole. rewrite Hrole. split; reflexivity.
    + intros Hrole.
      destruct (User.role (Payload.user (Response.data r)));
        [contradiction | split; reflexivity].
  - intros checking route Hroute.
    unfold Routes.App, Routes.ProtectedRoute, Routes.PublicRoute. simpl.
    rewrite orb_true_r. destruct route; try reflexivity; contradiction.
Qed.

Lemma checkAuth_revalidates_witness :
  exists k : Response.t Payload.UserData + AxiosError.t -> Prog unit,
    headers (stores (exec checkAuth Sample.signed_in).1) !! "Authorization"
      = Some "Bearer tok"
    /\ AuthState.token (authStore (stores
          (exec (k (inr Sample.unauthorized)) Sample.signed_in).1)) = None.
Proof.
  destruct (checkAuth_revalidates Sample.signed_in "tok" eq_refl ltac:(discriminate))
    as (k & _ & Hh & _ & Hfail & _).
  exists k. split; [exact Hh|].
  destruct (Hfail Sample.signed_in Sample.unauthorized) as (_ & _ & Ht & _). exact Ht.
Defined.

Lemma updateUser_merges_witness :
  AuthState.user (authStore (stores
    (exec (updateUser (UserPatch.mk None None (Some "Caro") None None None None
                         None None None None None None)) Sample.fresh).1)) = None.
Proof.
  destruct (updateUser_merges Sample.fresh
              (UserPatch.mk None None (Some "Caro") None None None None
                 None None None None None None))
    as (_ & _ & _ & _ & _ & Hnone & _).
  exact (Hnone eq_refl).
Defined.

Lemma routes_follow_session_witness :
  exists k : Response.t Payload.UserData + AxiosError.t -> Prog unit,
    Routes.App Routes.team false
      (authStore (stores (exec (k (inr Sample.unauthorized)) Sample.signed_in).1))
    = Routes.NavigateTo "/login"
    /\ Routes.App Routes.team false
         (authStore (stores
            (exec (k (inl (Response.mk 200 (Payload.mkUser Sample.carol))))
               Sample.signed_in).1))
       = Routes.Children.
Proof.
  destruct (routes_follow_session Sample.signed_in Sample.signed_in "tok" eq_refl
              ltac:(discriminate)) as (k & _ & Hfail & Hok & _).
  exists k. split.
  - apply (proj1 (Hfail Sample.unauthorized Routes.team)); discriminate.
  - destruct (Hok (Response.mk 200 (Payload.mkUser Sample.carol)) Routes.team)
      as (_ & _ & _ & _ & Hmanager & _).
    exact (proj1 (Hmanager eq_refl)).
Defined.

End AuthFacts.

(** ** The socket manager *)

Section ManagerFacts.
Import Manager.

Lemma map_get_None (event : string) (ls : list (string * list nat)) :
  map_get event ls = None <-> ~ In event (map fst ls).
Proof.
  induction ls as [|[e cbs] ls IH]; simpl; [tauto|].
  destruct (String.eqb e event) eqn:E.
  - apply String.eqb_eq in E. split; [discriminate | intros H; destruct H; auto].
  - apply String.eqb_neq in E. rewrite IH. tauto.
Qed.

Lemma map_update_keys (event : string) (f : list nat -> list nat)
    (ls : list (string * list nat)) :
  map fst (map_update event f ls) = map fst ls.
Proof.
  induction ls as [|[e cbs] ls IH]; simpl; [reflexivity|].
  destruct (String.eqb e event); simpl; congruence.
Qed.

Lemma map_get_update (event event' : string) (f : list nat -> list nat)
    (ls : list (string * list nat)) :
  map_get event' (map_update event f ls)
  = if String.eqb event event' then f <$> map_get event' ls else map_get event' ls.
Proof.
  induction ls as [|[e cbs] ls IH]; simpl; [destruct (String.eqb _ _); reflexivity|].
  destruct (String.eqb e event) eqn:E; simpl.
  - apply String.eqb_eq in E. subst e.
    destruct (String.eqb event event'); reflexivity.
  - destruct (String.eqb e event') eqn:E'; simpl.
    + apply String.eqb_eq in E'. subst e. rewrite String.eqb_sym, E. reflexivity.
    + exact IH.
Qed.

Lemma map_get_app_new (event event' : string) (ls : list (string * list nat)) :
  map_get event ls = None ->
  map_get event' (ls ++ [(event, [])])
  = if String.eqb event event'
    then Some [] else map_get event' ls.
Proof.
  intros Hnone. induction ls as [|[e cbs] ls IH]; simpl.
  - destruct (String.eqb event event'); reflexivity.
  - simpl in Hnone. destruct (String.eqb e event) eqn:E; [discriminate|].
    destruct (String.eqb e event') eqn:E'.
    + apply String.eqb_eq in E'. subst e. rewrite String.eqb_sym, E. reflexivity.
    + apply IH, Hnone.
Qed.

Lemma set_add_In (x y : nat) (xs : list nat) :
  In y (set_add x xs) <-> y = x \/ In y xs.
Proof.
  unfold set_add. destruct (existsb (Nat.eqb x) xs) eqn:E.
  - apply existsb_exists in E as (z & Hz & Heq). apply Nat.eqb_eq in Heq. subst z.
    split; [auto | intros [->|H]; auto].
  - rewrite in_app_iff. simpl. intuition.
Qed.

Lemma set_add_NoDup (x : nat) (xs : list nat) : NoDup xs -> NoDup (set_add x xs).
Proof.
  intros Hnd. unfold set_add. destruct (existsb (Nat.eqb x) xs) eqn:E; [exact Hnd|].
  apply NoDup_app. split; [exact Hnd|]. split; [|apply NoDup_singleton].
  intros y Hy Hin. apply list_elem_of_In in Hin. destruct Hin as [<-|[]].
  assert (existsb (Nat.eqb x) xs = true); [|congruence].
  apply existsb_exists. exists x. split; [apply list_elem_of_In, Hy | apply Nat.eqb_refl].
Qed.

Lemma set_delete_In (x y : nat) (xs : list nat) :
  In y (set_delete x xs) <-> y <> x /\ In y xs.
Proof.
  unfold set_delete. rewrite filter_In, negb_true_iff, Nat.eqb_neq. intuition.
Qed.

Lemma set_delete_NoDup (x : nat) (xs : list nat) : NoDup xs -> NoDup (set_delete x xs).
Proof.
  intros Hnd. unfold set_delete. apply NoDup_ListNoDup, List.NoDup_filter.
  apply NoDup_ListNoDup, Hnd.
Qed.

Lemma map_update_Forall (event : string) (f : list nat -> list nat)
    (ls : list (string * list nat)) :
  (forall xs, NoDup xs -> NoDup (f xs)) ->
  Forall (fun entry => NoDup (snd entry)) ls ->
  Forall (fun entry => NoDup (snd entry)) (map_update event f ls).
Proof.
  intros Hf. induction 1 as [|[e cbs] ls Hx Hls IH]; simpl; [constructor|].
  destruct (String.eqb e event); constructor; simpl in *; auto.
Qed.

Lemma on_wf (event : string) (cb : nat) (m : t) :
  registry_wf m -> registry_wf (on event cb m).
Proof.
  intros [Hkeys Hsets]. unfold registry_wf, on. simpl.
  rewrite map_update_keys. split.
  - destruct (map_get event (listeners m)) eqn:E; [exact Hkeys|].
    rewrite map_app. simpl. apply NoDup_app. split; [exact Hkeys|].
    split; [|apply NoDup_singleton].
    intros x Hx Hin. apply list_elem_of_In in Hin. destruct Hin as [<-|[]].
    apply map_get_None in E. apply E, list_elem_of_In, Hx.
  - apply map_update_Forall; [apply set_add_NoDup|].
    destruct (map_get event (listeners m)); [exact Hsets|].
    apply Forall_app. split; [exact Hsets|]. repeat constructor.
Qed.

Lemma off_wf (event : string) (cb : nat) (m : t) :
  registry_wf m -> registry_wf (off event cb m).
Proof.
  intros [Hkeys Hsets]. unfold registry_wf, off. simpl.
  destruct (map_get event (listeners m)); [|split; assumption].
  rewrite map_update_keys. split; [exact Hkeys|].
  apply map_update_Forall; [apply set_delete_NoDup | exact Hsets].
Qed.

Lemma run_op_wf (m : t) (op : ManagerOp) :
  registry_wf m -> registry_wf (run_op m op).
Proof.
  intros Hm. destruct op; simpl.
  - unfold connect. destruct (socket m) as [sk|]; [destruct (connected sk)|]; exact Hm.
  - unfold disconnect. destruct (socket m); exact Hm.
  - apply on_wf, Hm.
  - apply off_wf, Hm.
  - unfold emit. destruct (socket m) as [sk|]; [destruct (connected sk)|]; exact Hm.
  - exact Hm.
Qed.

Lemma foldl_run_op_wf (ops : list ManagerOp) (m : t) :
  registry_wf m -> registry_wf (foldl run_op m ops).
Proof.
  revert m. induction ops as [|op ops IH]; intros m Hm; [exact Hm|].
  simpl. apply IH, run_op_wf, Hm.
Qed.

Lemma init_wf : registry_wf Manager.init.
Proof. split; constructor. Qed.

(** Whatever the pages do with the manager, in whatever order, the
    registry stays a map of sets: no event is listed twice and no listener is
    held twice under one event. *)
Lemma registry_stays_wf (ops : list ManagerOp) :
  registry_wf (foldl run_op Manager.init ops).
Proof. apply foldl_run_op_wf, init_wf. Qed.

Lemma registered_on (event event' : string) (cb cb' : nat) (m : t) :
  registered event' cb' (on event cb m)
  <-> (event' = event /\ cb' = cb) \/ registered event' cb' m.
Proof.
  unfold registered, on. simpl. rewrite map_get_update.
  destruct (String.eqb event event') eqn:E.
  - apply String.eqb_eq in E. subst event'.
    destruct (map_get event (listeners m)) as [cbs|] eqn:G.
    + rewrite G. simpl. split.
      * intros (xs & [= <-] & Hin). apply set_add_In in Hin as [->|Hin]; eauto.
      * intros [[_ ->]|(xs & [= <-] & Hin)];
          (eexists; split; [reflexivity|]; apply set_add_In; auto).
    + rewrite (map_get_app_new _ _ _ G), String.eqb_refl. simpl. split.
      * intros (xs & [= <-] & Hin). apply set_add_In in Hin as [->|[]]. auto.
      * intros [[_ ->]|(xs & Hx & _)]; [|discriminate].
        eexists. split; [reflexivity|]. apply set_add_In. auto.
  - apply String.eqb_neq in E.
    destruct (map_get event (listeners m)) as [cbs|] eqn:G.
    + split; [intros H; right; exact H|].
      intros [[-> _]|H]; [contradiction | exact H].
    + rewrite (map_get_app_new _ _ _ G).
      apply String.eqb_neq in E. rewrite E.
      split; [intros H; right; exact H|].
      apply String.eqb_neq in E. intros [[-> _]|H]; [contradiction | exact H].
Qed.

Lemma registered_off (event event' : string) (cb cb' : nat) (m : t) :
  registered event' cb' (off event cb m)
  <-> registered event' cb' m /\ ~ (event' = event /\ cb' = cb).
Proof.
  unfold registered, off. simpl.
  destruct (map_get event (listeners m)) as [cbs|] eqn:G.
  - rewrite map_get_update. destruct (String.eqb event event') eqn:E.
    + apply String.eqb_eq in E. subst event'. rewrite G. simpl. split.
      * intros (xs & [= <-] & Hin). apply set_delete_In in Hin as [Hne Hin].
        split; [eauto | intros [_ ->]; contradiction].
      * intros [(xs & [= <-] & Hin) Hne]. eexists. split; [reflexivity|].
        apply set_delete_In. split; [|exact Hin]. intros ->. apply Hne. auto.
    + apply String.eqb_neq in E. split.
      * intros H. split; [exact H | intros [-> _]; contradiction].
      * intros [H _]. exact H.
  - split.
    + intros (xs & Hx & Hin). split; [eauto|].
      intros [-> _]. congruence.
    + intros [H _]. exact H.
Qed.

Lemma on_registered (event : string) (cb : nat) (m : t) :
  registered event cb m -> listeners (on event cb m) = listeners m.
Proof.
  intros (cbs & Hget & Hin). unfold on. simpl. rewrite Hget.
  revert Hget. generalize (listeners m) as ls.
  induction ls as [|[e xs] ls IH]; simpl; [discriminate|].
  destruct (String.eqb e event) eqn:E.
  - intros [= ->]. f_equal. f_equal. unfold set_add.
    assert (existsb (Nat.eqb cb) cbs = true) as ->; [|reflexivity].
    apply existsb_exists. exists cb. split; [exact Hin | apply Nat.eqb_refl].
  - intros H. f_equal. apply IH, H.
Qed.

(** X22.  The registry is an insert/delete map of sets.  After
    [on(event, cb)] the listener is registered; after [off(event, cb)] it is
    not; neither changes whether any other listener is registered, and
    connecting, disconnecting, emitting and transport changes never touch the
    registry.  The live socket, however, is told every time: registering the
    same listener twice makes two [on] calls on it although the registry
    holds the listener once. *)
Theorem registry_round_trip (event : string) (cb : nat) (m : t) :
  registered event cb (on event cb m)
  /\ ~ registered event cb (off event cb m)
  /\ ~ registered event cb (off event cb (on event cb m))
  /\ (forall event' cb', (event', cb') <> (event, cb) ->
        (registered event' cb' (on event cb m) <-> registered event' cb' m)
        /\ (registered event' cb' (off event cb m) <-> registered event' cb' m))
  /\ (forall token e d up,
        listeners (connect token m) = listeners m
        /\ listeners (disconnect m) = listeners m
        /\ listeners (emit e d m) = listeners m
        /\ listeners (transport up m) = listeners m)
  /\ listeners (on event cb (on event cb m)) = listeners (on event cb m)
  /\ (forall sk, socket m = Some sk ->
        exists sk', socket (on event cb (on event cb m)) = Some sk'
          /\ attachments event cb (calls sk')
             = (attachments event cb (calls sk) + 2)%nat).
Proof.
  split; [apply registered_on; auto|].
  split; [rewrite registered_off; tauto|].
  split; [rewrite registered_off; tauto|].
  split.
  { intros event' cb' Hne. rewrite registered_on, registered_off. split.
    - split; [|auto]. intros [[-> ->]|H]; [contradiction | exact H].
    - split; [tauto|]. intros H. split; [exact H|].
      intros [-> ->]. contradiction. }
  split.
  { intros token e d up. unfold connect, disconnect, emit, transport.
    destruct (socket m) as [sk|]; [destruct (connected sk)|]; auto. }
  split; [apply on_registered, registered_on; auto|].
  intros sk Hsk. unfold on. simpl. rewrite Hsk. simpl.
  eexists. split; [reflexivity|]. unfold attachments. simpl.
  rewrite <- !app_assoc. rewrite List.filter_app, length_app. simpl.
  rewrite String.eqb_refl, Nat.eqb_refl. simpl. reflexivity.
Qed.

Lemma attachments_app (event : string) (cb : nat) (a b : list SocketCall) :
  attachments event cb (a ++ b)
  = (attachments event cb a + attachments event cb b)%nat.
Proof. unfold attachments. rewrite List.filter_app, length_app. reflexivity. Qed.

Lemma attachments_entry (event event' : string) (cb : nat) (cbs : list nat) :
  NoDup cbs ->
  attachments event cb (map (fun c => On event' (Listener c)) cbs)
  = if String.eqb event' event && existsb (Nat.eqb cb) cbs then 1%nat else 0%nat.
Proof.
  induction 1 as [|c cbs Hc Hnd IH].
  - simpl. rewrite andb_false_r. reflexivity.
  - change (map (fun c0 => On event' (Listener c0)) (c :: cbs))
      with ([On event' (Listener c)] ++ map (fun c0 => On event' (Listener c0)) cbs).
    rewrite attachments_app, IH. unfold attachments at 1. simpl.
    rewrite (Nat.eqb_sym cb c).
    destruct (String.eqb event' event); simpl; [|reflexivity].
    destruct (Nat.eqb c cb) eqn:E; simpl; [|reflexivity].
    apply Nat.eqb_eq in E. subst c.
    destruct (existsb (Nat.eqb cb) cbs) eqn:X; [|reflexivity].
    apply existsb_exists in X as (z & Hz & Heq). apply Nat.eqb_eq in Heq. subst z.
    destruct Hc. apply list_elem_of_In, Hz.
Qed.

Lemma attachments_reattach (event : string) (cb : nat)
    (ls : list (string * list nat)) :
  NoDup (map fst ls) ->
  Forall (fun entry => NoDup (snd entry)) ls ->
  attachments event cb (reattach ls)
  = match map_get event ls with
    | Some cbs => if existsb (Nat.eqb cb) cbs then 1%nat else 0%nat
    | None => 0%nat
    end.
Proof.
  induction ls as [|[e cbs] ls IH]; simpl; intros Hkeys Hsets; [reflexivity|].
  apply NoDup_cons in Hkeys as [Hfresh Hkeys].
  apply Forall_cons in Hsets as [Hset Hsets]. simpl in Hset.
  change (reattach ((e, cbs) :: ls))
    with (map (fun c => On e (Listener c)) cbs ++ reattach ls).
  rewrite attachments_app, attachments_entry by exact Hset.
  rewrite (IH Hkeys Hsets).
  destruct (String.eqb e event) eqn:E; simpl; [|reflexivity].
  apply String.eqb_eq in E. subst e.
  assert (map_get event ls = None) as ->.
  { apply map_get_None. intros Hin. apply Hfresh, list_elem_of_In, Hin. }
  lia.
Qed.

(** X23.  Listeners survive reconnects.  In any state the manager can
    reach, when it is not connected, [connect(token)] makes a new socket with
    that token, not yet connected, and attaches to it each registered
    listener exactly once and no listener that is not registered; the
    registry itself is unchanged. *)
Theorem listeners_reattached (ops : list ManagerOp) (token event : string)
    (cb : nat) :
  isConnected (foldl run_op Manager.init ops) = false ->
  exists sk,
    socket (connect token (foldl run_op Manager.init ops)) = Some sk
    /\ auth sk = token
    /\ connected sk = false
    /\ listeners (connect token (foldl run_op Manager.init ops))
       = listeners (foldl run_op Manager.init ops)
    /\ (registered event cb (foldl run_op Manager.init ops) ->
          attachments event cb (calls sk) = 1%nat)
    /\ (~ registered event cb (foldl run_op Manager.init ops) ->
          attachments event cb (calls sk) = 0%nat).
Proof.
  pose proof (foldl_run_op_wf ops Manager.init init_wf) as [Hkeys Hsets].
  set (m := foldl run_op Manager.init ops) in *. intros Hdown.
  assert (Hcount : attachments event cb
            ([On "connect" LogConnect; On "disconnect" LogDisconnect;
              On "connect_error" LogConnectError] ++ reattach (listeners m))
          = match map_get event (listeners m) with
            | Some cbs => if existsb (Nat.eqb cb) cbs then 1%nat else 0%nat
            | None => 0%nat
            end).
  { rewrite attachments_app, attachments_reattach by assumption. reflexivity. }
  assert (Hreg : registered event cb m ->
            match map_get event (listeners m) with
            | Some cbs => if existsb (Nat.eqb cb) cbs then 1%nat else 0%nat
            | None => 0%nat
            end = 1%nat).
  { intros (cbs & -> & Hin).
    assert (existsb (Nat.eqb cb) cbs = true) as ->; [|reflexivity].
    apply existsb_exists. exists cb. split; [exact Hin | apply Nat.eqb_refl]. }
  assert (Hnot : ~ registered event cb m ->
            match map_get event (listeners m) with
            | Some cbs => if existsb (Nat.eqb cb) cbs then 1%nat else 0%nat
            | None => 0%nat
            end = 0%nat).
  { intros Hn. destruct (map_get event (listeners m)) as [cbs|] eqn:G; [|reflexivity].
    destruct (existsb (Nat.eqb cb) cbs) eqn:X; [|reflexivity].
    apply existsb_exists in X as (z & Hz & Heq). apply Nat.eqb_eq in Heq. subst z.
    destruct Hn. exists cbs. auto. }
  unfold isConnected in Hdown. unfold connect.
  destruct (socket m) as [old|]; [rewrite Hdown|];
    (eexists; split; [reflexivity|];
     split; [reflexivity|]; split; [reflexivity|]; split; [reflexivity|];
     split; [intros H; exact (eq_trans Hcount (Hreg H))
            |intros H; exact (eq_trans Hcount (Hnot H))]).
Qed.

Lemma listeners_reattached_witness :
  exists sk,
    socket (connect "tok"
              (foldl run_op Manager.init
                 [OpOn "message:new" 7; OpConnect "tok"; OpTransport true;
                  OpOn "message:new" 7; OpDisconnect])) = Some sk
    /\ attachments "message:new" 7 (calls sk) = 1%nat.
Proof.
  destruct (listeners_reattached
              [OpOn "message:new" 7; OpConnect "tok"; OpTransport true;
               OpOn "message:new" 7; OpDisconnect] "tok" "message:new" 7 eq_refl)
    as (sk & Hsk & _ & _ & _ & Hreg & _).
  exists sk. split; [exact Hsk|]. apply Hreg.
  exists [7%nat]. split; [reflexivity | left; reflexivity].
Defined.

(** X24.  [disconnect] may be called at any time and any number of
    times: without a socket it does nothing; with one it calls
    [disconnect()] on it once and forgets it; a second call changes nothing.
    The registry is kept, and nothing is emitted until a new socket is
    connected. *)
Theorem disconnect_idempotent (m : t) (event data : string) :
  disconnect (disconnect m) = disconnect m
  /\ socket (disconnect m) = None
  /\ isConnected (disconnect m) = false
  /\ listeners (disconnect m) = listeners m
  /\ emit event data (disconnect m) = disconnect m
  /\ match socket m with
     | Some sk => released (disconnect m)
                  = released m ++ [call_socket DisconnectCall sk]
     | None => disconnect m = m
     end.
Proof.
  unfold disconnect, emit, isConnected.
  destruct (socket m) as [sk|] eqn:E; simpl; rewrite ?E; repeat split.
Qed.

(** X25.  [emit] reaches the socket only while it is connected: without a
    socket or before the connection is up the manager is left exactly as it
    is, nothing is queued; while connected exactly one [emit] call is made.
    The stores' [socket.emit] agrees: it puts the event on the trace exactly
    when the manager is connected. *)
Theorem emit_needs_connection (m : t) (event data : string) (w : World) :
  (isConnected m = false -> emit event data m = m)
  /\ (forall sk, socket m = Some sk -> connected sk = true ->
        emit event data m
        = mk (Some (call_socket (EmitCall event data) sk)) (listeners m) (released m))
  /\ (socketManager (stores w) = view m ->
        new_events w (call (Socket.emit event data) w)
        = if isConnected m then [SocketEmit event data] else []).
Proof.
  unfold emit, isConnected. split; [|split].
  - destruct (socket m) as [sk|]; [|reflexivity]. intros ->. reflexivity.
  - intros sk -> ->. reflexivity.
  - intros Hview. unfold new_events, call, Socket.emit. cbn. rewrite Hview.
    unfold SocketManager.connected, view. simpl.
    destruct (socket m) as [sk|]; simpl; [destruct (connected sk)|]; cbn.
    + apply drop_app_length.
    + rewrite <- (app_nil_r (trace w)) at 2. apply drop_app_length.
    + rewrite <- (app_nil_r (trace w)) at 2. apply drop_app_length.
Qed.

Lemma emit_needs_connection_witness :
  emit "channel:join" "general" (connect "tok" Manager.init) = connect "tok" Manager.init.
Proof.
  exact (proj1 (emit_needs_connection (connect "tok" Manager.init)
                  "channel:join" "general" Sample.fresh) eq_refl).
Defined.

(** X26.  [connect] does nothing while the socket is connected.  While a
    socket exists that is not connected (still connecting, or dropped), a
    further [connect] makes a new socket and lets go of the old one without
    calling [disconnect()] on it: two [connect] calls in a row, before the
    first connection is up, leave the first socket behind untouched. *)
Theorem connect_replaces_idle_socket (token : string) (m : t) :
  (isConnected m = true -> connect token m = m)
  /\ (forall sk, socket m = Some sk -> connected sk = false ->
        released (connect token m) = released m ++ [sk])
  /\ (isConnected m = false ->
        exists sk1,
          socket (connect token m) = Some sk1
          /\ released (connect token (connect token m))
             = released (connect token m) ++ [sk1]
          /\ ~ In DisconnectCall (calls sk1)).
Proof.
  unfold isConnected, connect. split; [|split].
  - destruct (socket m) as [sk|]; [|discriminate]. intros ->. reflexivity.
  - intros sk -> ->. reflexivity.
  - intros Hdown.
    assert (Hno : ~ In DisconnectCall
              ([On "connect" LogConnect; On "disconnect" LogDisconnect;
                On "connect_error" LogConnectError] ++ reattach (listeners m))).
    { rewrite in_app_iff. intros [H|H].
      - simpl in H. intuition discriminate.
      - unfold reattach in H. apply in_flat_map in H as ([e cbs] & _ & H).
        apply in_map_iff in H as (c & Hc & _). discriminate. }
    destruct (socket m) as [sk|]; [rewrite Hdown|];
      (eexists; split; [reflexivity|]; simpl; split; [reflexivity | exact Hno]).
Qed.

Lemma connect_replaces_idle_socket_witness :
  exists sk1,
    socket (connect "tok" Manager.init) = Some sk1
    /\ released (connect "tok" (connect "tok" Manager.init)) = [sk1].
Proof.
  destruct (proj2 (proj2 (connect_replaces_idle_socket "tok" Manager.init)) eq_refl)
    as (sk1 & Hsk & Hrel & _).
  exists sk1. split; [exact Hsk | exact Hrel].
Defined.



Lemma registry_round_trip_witness :
  registered "task:updated" 3 (on "message:new" 7 (on "task:updated" 3 Manager.init)).
Proof.
  destruct (registry_round_trip "message:new" 7 (on "task:updated" 3 Manager.init))
    as (_ & _ & _ & Hframe & _).
  apply (Hframe "task:updated" 3%nat); [discriminate|].
  exists [3%nat]. split; [reflexivity | left; reflexivity].
Defined.


End ManagerFacts.

(** ** The columns of the board *)

Section BoardColumns.
Import KanbanBoard.

Lemma insert_by_order_perm (t : Task.t) (l : list Task.t) :
  insert_by_order t l ≡ₚ t :: l.
Proof.
  induction l as [|x l IH]; simpl; [reflexivity|].
  destruct (Task.order t <=? Task.order x); [reflexivity|].
  rewrite IH. apply Permutation_swap.
Qed.

Lemma sort_by_order_perm (l : list Task.t) : sort_by_order l ≡ₚ l.
Proof.
  induction l as [|t l IH]; simpl; [reflexivity|].
  rewrite insert_by_order_perm, IH. reflexivity.
Qed.

Lemma insert_by_order_sorted (t : Task.t) (l : list Task.t) :
  StronglySorted (fun a b => Task.order a <= Task.order b) l ->
  StronglySorted (fun a b => Task.order a <= Task.order b) (insert_by_order t l).
Proof.
  induction 1 as [|x l Hs IH Hx]; simpl; [repeat constructor|].
  destruct (Z.leb_spec (Task.order t) (Task.order x)).
  - constructor; [constructor; assumption|].
    constructor; [assumption|].
    eapply Forall_impl; [exact Hx|]. simpl. intros y Hy. lia.
  - constructor; [exact IH|].
    rewrite insert_by_order_perm. constructor; [lia | exact Hx].
Qed.

Lemma sort_by_order_sorted (l : list Task.t) :
  StronglySorted (fun a b => Task.order a <= Task.order b) (sort_by_order l).
Proof.
  induction l as [|t l IH]; simpl; [constructor|].
  apply insert_by_order_sorted, IH.
Qed.

(** X28.  Each column of the board shows exactly the tasks of its status,
    each as often as it is in the list, ordered by [order]; so the count in a
    column header is the number of tasks with that status.  The board has no
    column for [backlog] and [archived]: a task is on the board if and only
    if its status is one of the four others, and then only in the column of
    its status. *)
Theorem board_columns (tasks : list Task.t) (col : TaskStatus) (t : Task.t) :
  tasksByStatus tasks col
    ≡ₚ List.filter (fun x => status_eqb (Task.status x) col) tasks
  /\ StronglySorted (fun a b => Task.order a <= Task.order b) (tasksByStatus tasks col)
  /\ length (tasksByStatus tasks col)
     = length (List.filter (fun x => status_eqb (Task.status x) col) tasks)
  /\ (t ∈ tasksByStatus tasks col <-> (t ∈ tasks /\ Task.status t = col))
  /\ ((exists c shown, (c, shown) ∈ board tasks /\ t ∈ shown)
      <-> (t ∈ tasks /\ Task.status t <> backlog /\ Task.status t <> archived)).
Proof.
  assert (Hperm : forall c, tasksByStatus tasks c
            ≡ₚ List.filter (fun x => status_eqb (Task.status x) c) tasks)
    by (intros c; apply sort_by_order_perm).
  assert (Hin : forall c, t ∈ tasksByStatus tasks c <-> (t ∈ tasks /\ Task.status t = c)).
  { intros c. rewrite (Hperm c), list_elem_of_In, filter_In, status_eqb_eq.
    rewrite <- list_elem_of_In. reflexivity. }
  split; [apply Hperm|]. split; [apply sort_by_order_sorted|].
  split; [rewrite (Hperm col); reflexivity|]. split; [apply Hin|].
  unfold board. split.
  - intros (c & shown & Hc & Ht).
    apply list_elem_of_In, in_map_iff in Hc as (c0 & [= <- <-] & Hcol).
    apply Hin in Ht as [Ht Hst]. split; [exact Ht|]. rewrite Hst.
    simpl in Hcol. destruct Hcol as [<-|[<-|[<-|[<-|[]]]]]; split; discriminate.
  - intros (Ht & Hb & Ha).
    exists (Task.status t), (tasksByStatus tasks (Task.status t)). split.
    + apply list_elem_of_In, in_map_iff. exists (Task.status t).
      split; [reflexivity|]. unfold columns.
      destruct (Task.status t); simpl; auto; contradiction.
    + apply Hin. auto.
Qed.

Lemma board_columns_witness :
  (exists c shown, (c, shown) ∈ board (tasks_of Sample.board)
                   /\ Sample.task "t1" todo ∈ shown).
Proof.
  apply (proj2 (proj2 (proj2 (proj2 (board_columns (tasks_of Sample.board) todo
                                        (Sample.task "t1" todo)))))).
  split; [left | split; discriminate].
Defined.

End BoardColumns.
